(** * Schema reconciliation and safe update of merchant spreadsheets

    A shallow embedding of the matching and update logic of
    [services/excelService.ts], of the search and reconciliation handlers of
    the search panel and of the manual entry form, and of
    [importSystemConfig] in
    [services/storageService.ts], together with the properties the
    specification states about them.  Further properties cover the
    workspace handlers of the application, the export and import of the
    configuration, the date picker, the search of the manual entry form and
    the look-up for flagging.

    Conventions of the embedding.
    - A JavaScript string is a [string] of code units; case mapping and
      white space are the ASCII ones (code units above 127 are left alone by
      [toLowerCase] and are never white space).
    - A JavaScript number is a [JsNumber]: NaN, the two infinities, the
      negative zero, or a finite double given by its exact rational value.
      Every arithmetic result is rounded to the nearest double, ties to even.
    - A JavaScript object used as a record is the list of its own entries
      in enumeration order; an object used as a dictionary is a [gmap].
      Keys are never names of members of [Object.prototype].
    - The host time zone is a fixed offset from UTC.
    - Effects (alerts, calls on the file handle, stores) are threaded
      explicitly: the updater runs in a monad that logs events and may
      throw; the import returns the stores it leaves behind. *)

From Stdlib Require Import ZArith QArith Qround List Ascii String Bool Lia.
From Stdlib Require Import DecimalString Qabs Qcanon.
From stdpp Require Import gmap strings.
Import ListNotations.

Local Open Scope Z_scope.

(** ** JavaScript strings *)

Module JsString.

Definition code (c : ascii) : Z := Z.of_N (N_of_ascii c).

Definition chr (z : Z) : ascii := ascii_of_N (Z.to_N z).

Definition is_upper (c : ascii) : bool := (65 <=? code c) && (code c <=? 90).
Definition is_lower (c : ascii) : bool := (97 <=? code c) && (code c <=? 122).
Definition is_digit (c : ascii) : bool := (48 <=? code c) && (code c <=? 57).
Definition is_alpha (c : ascii) : bool := is_upper c || is_lower c.

(** White space and line terminators recognised by [trim]: TAB, LF, VT, FF,
    CR and SPACE. *)
Definition is_space (c : ascii) : bool :=
  ((9 <=? code c) && (code c <=? 13)) || (code c =? 32).

Definition lower_char (c : ascii) : ascii :=
  if is_upper c then chr (code c + 32) else c.

Fixpoint map_string (f : ascii -> ascii) (s : string) : string :=
  match s with
  | EmptyString => EmptyString
  | String c r => String (f c) (map_string f r)
  end.

Fixpoint filter_string (p : ascii -> bool) (s : string) : string :=
  match s with
  | EmptyString => EmptyString
  | String c r => if p c then String c (filter_string p r) else filter_string p r
  end.

Fixpoint forall_string (p : ascii -> bool) (s : string) : bool :=
  match s with
  | EmptyString => true
  | String c r => p c && forall_string p r
  end.

(** [String.prototype.toLowerCase]. *)
Definition toLowerCase (s : string) : string := map_string lower_char s.

Fixpoint drop_while (p : ascii -> bool) (s : string) : string :=
  match s with
  | EmptyString => EmptyString
  | String c r => if p c then drop_while p r else s
  end.

(** Removes the trailing characters satisfying [p]. *)
Fixpoint drop_while_end (p : ascii -> bool) (s : string) : string :=
  match s with
  | EmptyString => EmptyString
  | String c r =>
      match drop_while_end p r with
      | EmptyString => if p c then EmptyString else String c EmptyString
      | r' => String c r'
      end
  end.

(** [String.prototype.trim]. *)
Definition trim (s : string) : string :=
  drop_while_end is_space (drop_while is_space s).

(** [String.prototype.startsWith]. *)
Fixpoint startsWith (s p : string) : bool :=
  match p, s with
  | EmptyString, _ => true
  | String _ _, EmptyString => false
  | String a p', String b s' => Ascii.eqb a b && startsWith s' p'
  end.

(** [String.prototype.includes]: [p] occurs in [s] as a substring. *)
Fixpoint includes (s p : string) : bool :=
  startsWith s p ||
  match s with
  | EmptyString => false
  | String _ r => includes r p
  end.

(** [s.split(sep)] for a one-character separator. *)
Fixpoint split (sep : ascii) (s : string) : list string :=
  match s with
  | EmptyString => [EmptyString]
  | String c r =>
      if Ascii.eqb c sep then EmptyString :: split sep r
      else match split sep r with
           | [] => [String c EmptyString]
           | p :: ps => String c p :: ps
           end
  end.

Fixpoint repeat_char (c : ascii) (n : nat) : string :=
  match n with
  | O => EmptyString
  | S k => String c (repeat_char c k)
  end.

(** [s.padStart(n, "0")]. *)
Definition padStart0 (n : nat) (s : string) : string :=
  repeat_char "0"%char (n - String.length s) +:+ s.

End JsString.

Import JsString.

(** ** JavaScript numbers *)

Module JsNum.

(** A Number value.  [Fin q] is a finite double other than the negative
    zero, given by its exact value in lowest terms. *)
Inductive JsNumber : Type :=
| NaN
| PosInf
| NegInf
| NegZero
| Fin (q : Q).

(** Nearest integer to [a / b] for [0 < b], ties to the even one. *)
Definition rne_div (a b : Z) : Z :=
  let q := a / b in
  match (2 * (a mod b)) ?= b with
  | Lt => q
  | Gt => q + 1
  | Eq => if Z.even q then q else q + 1
  end.

(** [floor (log2 (a / b))]. *)
Definition floor_log2 (a b : positive) : Z :=
  let e := Z.log2 (Zpos a) - Z.log2 (Zpos b) in
  let reached :=
    if 0 <=? e then Zpos b * 2 ^ e <=? Zpos a
    else Zpos b <=? Zpos a * 2 ^ (- e) in
  if reached then e else e - 1.

(** The value [m * 2 ^ k] in lowest terms. *)
Definition dyadic (m k : Z) : Q :=
  if 0 <=? k then inject_Z (m * 2 ^ k) else Qred (m # Z.to_pos (2 ^ (- k))).

(** Rounds the positive rational [a / b] to the nearest double (53-bit
    significand, exponents down to the subnormal [2 ^ -1074]); [None] is
    overflow. *)
Definition round_mag (a b : positive) : option Q :=
  let e := floor_log2 a b in
  let k := Z.max (e - 52) (-1074) in
  let m :=
    if 0 <=? k then rne_div (Zpos a) (Zpos b * 2 ^ k)
    else rne_div (Zpos a * 2 ^ (- k)) (Zpos b) in
  let overflow := if 971 <=? k then 2 ^ 1024 <=? m * 2 ^ k else false in
  if overflow then None else Some (dyadic m k).

Definition is_zeroQ (q : Q) : bool := Qnum q =? 0.

(** Round to nearest double, ties to even. *)
Definition round_double (q : Q) : JsNumber :=
  match Qnum q with
  | Z0 => Fin 0
  | Zpos a =>
      match round_mag a (Qden q) with
      | None => PosInf
      | Some v => Fin v
      end
  | Zneg a =>
      match round_mag a (Qden q) with
      | None => NegInf
      | Some v => if is_zeroQ v then NegZero else Fin (Qopp v)
      end
  end.

Definition of_Z (z : Z) : JsNumber := round_double (inject_Z z).

Definition isNaN (x : JsNumber) : bool :=
  match x with NaN => true | _ => false end.

Definition is_negative (x : JsNumber) : bool :=
  match x with
  | NegInf | NegZero => true
  | Fin q => Qnum q <? 0
  | _ => false
  end.

Definition neg (x : JsNumber) : JsNumber :=
  match x with
  | NaN => NaN
  | PosInf => NegInf
  | NegInf => PosInf
  | NegZero => Fin 0
  | Fin q => if is_zeroQ q then NegZero else Fin (Qopp q)
  end.

Definition is_zero (x : JsNumber) : bool :=
  match x with
  | NegZero => true
  | Fin q => is_zeroQ q
  | _ => false
  end.

(** Exact value of a finite number. *)
Definition finite_value (x : JsNumber) : option Q :=
  match x with
  | NegZero => Some 0%Q
  | Fin q => Some q
  | _ => None
  end.

(** [x + y]. *)
Definition add (x y : JsNumber) : JsNumber :=
  match x, y with
  | NaN, _ | _, NaN => NaN
  | PosInf, NegInf | NegInf, PosInf => NaN
  | PosInf, _ | _, PosInf => PosInf
  | NegInf, _ | _, NegInf => NegInf
  | NegZero, NegZero => NegZero
  | NegZero, Fin q | Fin q, NegZero => Fin q
  | Fin p, Fin q => round_double (Qred (p + q))
  end.

(** [x - y]. *)
Definition sub (x y : JsNumber) : JsNumber := add x (neg y).

(** [x * y]. *)
Definition mul (x y : JsNumber) : JsNumber :=
  let negative := xorb (is_negative x) (is_negative y) in
  match finite_value x, finite_value y with
  | Some p, Some q =>
      if is_zeroQ p || is_zeroQ q then (if negative then NegZero else Fin 0)
      else round_double (Qred (p * q))
  | _, _ =>
      if isNaN x || isNaN y || is_zero x || is_zero y then NaN
      else if negative then NegInf else PosInf
  end.

(** [x < y]; false when an operand is NaN. *)
Definition lt (x y : JsNumber) : bool :=
  match x, y with
  | NaN, _ | _, NaN => false
  | PosInf, _ => false
  | _, PosInf => true
  | _, NegInf => false
  | NegInf, _ => true
  | _, _ =>
      match finite_value x, finite_value y with
      | Some p, Some q => match Qcompare p q with Lt => true | _ => false end
      | _, _ => false
      end
  end.

(** [x > y]. *)
Definition gt (x y : JsNumber) : bool := lt y x.

(** [x <= y]; false when an operand is NaN. *)
Definition le (x y : JsNumber) : bool :=
  negb (isNaN x) && negb (isNaN y) && negb (lt y x).

(** [Math.round]: [floor (x + 0.5)], keeping the sign of a zero result. *)
Definition Math_round (x : JsNumber) : JsNumber :=
  match x with
  | Fin q =>
      let r := Qfloor (q + (1 # 2)) in
      if (r =? 0) && (Qnum q <? 0) then NegZero else Fin (inject_Z r)
  | _ => x
  end.

End JsNum.

Import JsNum.

(** ** Numeric literals *)

Module JsLiteral.

Definition digit_value (c : ascii) : Z := code c - 48.

(** Longest prefix of [s] made of characters satisfying [p], and the rest. *)
Fixpoint span (p : ascii -> bool) (s : string) : string * string :=
  match s with
  | EmptyString => (EmptyString, EmptyString)
  | String c r =>
      if p c then let '(a, b) := span p r in (String c a, b)
      else (EmptyString, s)
  end.

(** Value of a digit string in base [base]; [dv] reads one digit. *)
Fixpoint digits_value_from (base : Z) (dv : ascii -> Z) (acc : Z) (s : string) : Z :=
  match s with
  | EmptyString => acc
  | String c r => digits_value_from base dv (acc * base + dv c) r
  end.

Definition decimal_value (s : string) : Z := digits_value_from 10 digit_value 0 s.

Definition is_hex_digit (c : ascii) : bool :=
  is_digit c || ((65 <=? code c) && (code c <=? 70))
             || ((97 <=? code c) && (code c <=? 102)).
Definition hex_digit_value (c : ascii) : Z :=
  if is_digit c then code c - 48
  else if is_upper c then code c - 55 else code c - 87.
Definition is_octal_digit (c : ascii) : bool := (48 <=? code c) && (code c <=? 55).
Definition is_binary_digit (c : ascii) : bool := (48 <=? code c) && (code c <=? 49).

(** An unsigned decimal literal: [Infinity], or a mantissa and a power of
    ten. *)
Inductive DecimalLiteral : Type :=
| LitInfinity
| LitDecimal (mantissa exponent : Z).

Definition strip_sign (s : string) : bool * string :=
  match s with
  | String "-" r => (true, r)
  | String "+" r => (false, r)
  | _ => (false, s)
  end.

(** The exponent part [e] or [E], an optional sign and at least one digit;
    when it is absent or malformed nothing is consumed. *)
Definition scan_exponent (s : string) : Z * string :=
  match s with
  | String c r =>
      if Ascii.eqb c "e" || Ascii.eqb c "E" then
        let '(negative, r1) := strip_sign r in
        let '(ds, r2) := span is_digit r1 in
        match ds with
        | EmptyString => (0, s)
        | _ => ((if negative then - decimal_value ds else decimal_value ds), r2)
        end
      else (0, s)
  | EmptyString => (0, s)
  end.

(** Longest prefix of [s] that is a [StrUnsignedDecimalLiteral], with the
    unread rest. *)
Definition scan_unsigned (s : string) : option (DecimalLiteral * string) :=
  if startsWith s "Infinity" then
    Some (LitInfinity, String.substring 8 (String.length s - 8) s)
  else
    let '(ip, r1) := span is_digit s in
    let '(fp, r2, dot) :=
      match r1 with
      | String "." r => let '(f, r') := span is_digit r in (f, r', true)
      | _ => (EmptyString, r1, false)
      end in
    match ip, fp with
    | EmptyString, EmptyString => None
    | _, _ =>
        let '(e, r3) := scan_exponent r2 in
        Some (LitDecimal (decimal_value (ip +:+ fp))
                         (e - Z.of_nat (String.length fp)), r3)
    end.

(** Longest prefix of [s] that is a [StrDecimalLiteral] (a sign may come
    first). *)
Definition scan_decimal (s : string) : option (bool * DecimalLiteral * string) :=
  let '(negative, r) := strip_sign s in
  match scan_unsigned r with
  | Some (l, rest) => Some (negative, l, rest)
  | None => None
  end.

(** The exact value [m * 10 ^ e]. *)
Definition decimal_Q (m e : Z) : Q :=
  if 0 <=? e then inject_Z (m * 10 ^ e) else Qred (m # Z.to_pos (10 ^ (- e))).

Definition literal_value (negative : bool) (l : DecimalLiteral) : JsNumber :=
  match l with
  | LitInfinity => if negative then NegInf else PosInf
  | LitDecimal m e =>
      if m =? 0 then (if negative then NegZero else Fin 0)
      else round_double (decimal_Q (if negative then - m else m) e)
  end.

(** A prefixed integer literal [0x..], [0o..] or [0b..]. *)
Definition scan_radix (s : string) : option JsNumber :=
  match s with
  | String "0" (String x ds) =>
      let lit (base : Z) (ok : ascii -> bool) (dv : ascii -> Z) :=
        match ds with
        | EmptyString => None
        | _ => if forall_string ok ds
               then Some (of_Z (digits_value_from base dv 0 ds)) else None
        end in
      if Ascii.eqb x "x" || Ascii.eqb x "X" then lit 16 is_hex_digit hex_digit_value
      else if Ascii.eqb x "o" || Ascii.eqb x "O" then lit 8 is_octal_digit digit_value
      else if Ascii.eqb x "b" || Ascii.eqb x "B" then lit 2 is_binary_digit digit_value
      else None
  | _ => None
  end.

(** [Number(s)] on a string: the whole trimmed text must be a numeric
    literal; the empty text is zero. *)
Definition Number_of_string (s : string) : JsNumber :=
  let t := trim s in
  match t with
  | EmptyString => Fin 0
  | _ =>
      match scan_radix t with
      | Some x => x
      | None =>
          match scan_decimal t with
          | Some (negative, l, EmptyString) => literal_value negative l
          | _ => NaN
          end
      end
  end.

(** [parseFloat(s)]: leading white space is skipped and the longest decimal
    literal prefix is read. *)
Definition parseFloat (s : string) : JsNumber :=
  match scan_decimal (drop_while is_space s) with
  | Some (negative, l, _) => literal_value negative l
  | None => NaN
  end.

End JsLiteral.

Import JsLiteral.

(** ** Printing numbers *)

Module JsPrint.

(** Decimal digits of a natural number. *)
Definition Z_digits (z : Z) : string :=
  DecimalString.NilZero.string_of_uint (N.to_uint (Z.to_N z)).

(** Decimal rendering of an integer, as [String(n)] gives it for an integral
    Number below [10 ^ 21] in magnitude. *)
Definition Z_to_string (z : Z) : string :=
  if z <? 0 then String "-" (Z_digits (- z)) else Z_digits z.

Definition Qeqb (p q : Q) : bool :=
  match Qcompare p q with Eq => true | _ => false end.

Definition Qleb (p q : Q) : bool :=
  match Qcompare p q with Gt => false | _ => true end.

Definition same_number (x y : JsNumber) : bool :=
  match x, y with
  | Fin p, Fin q => Qeqb p q
  | NegZero, NegZero | PosInf, PosInf | NegInf, NegInf => true
  | _, _ => false
  end.

(** [floor (log10 q)] for [0 < q]. *)
Definition floor_log10 (q : Q) : Z :=
  let l2 := floor_log2 (Z.to_pos (Qnum q)) (Qden q) in
  let e0 := (l2 * 30103) / 100000 - 1 in
  if Qleb (decimal_Q 1 (e0 + 2)) q then e0 + 2
  else if Qleb (decimal_Q 1 (e0 + 1)) q then e0 + 1
  else e0.

(** The shortest decimal significand that reads back as the double [x]:
    the least [k] with [10 ^ (k - 1) <= s < 10 ^ k] and [s * 10 ^ (n - k)]
    rounding to [x]; among two candidates the nearer one, the even one on a
    tie.  [n0] is [floor (log10 x) + 1].  Returns [(s, k, n)]. *)
Fixpoint shortest_digits (fuel : nat) (k : Z) (x : Q) (n0 : Z) : Z * Z * Z :=
  let y := Qred (x * decimal_Q 1 (k - n0)) in
  let lo := Qfloor y in
  let hi := lo + 1 in
  let reads_back (c : Z) :=
    same_number (round_double (Qred (inject_Z c * decimal_Q 1 (n0 - k)))) (Fin x) in
  let pack (c : Z) :=
    if c =? 10 ^ k then (10 ^ (k - 1), k, n0 + 1) else (c, k, n0) in
  let next :=
    match fuel with
    | O => pack lo
    | S f => shortest_digits f (k + 1) x n0
    end in
  match reads_back lo, reads_back hi with
  | true, true =>
      match Qcompare (y - inject_Z lo) (inject_Z hi - y) with
      | Lt => pack lo
      | Gt => pack hi
      | Eq => if Z.even lo then pack lo else pack hi
      end
  | true, false => pack lo
  | false, true => pack hi
  | false, false => next
  end.

(** [Number::toString] on a positive finite value. *)
Definition positive_to_string (x : Q) : string :=
  let '(s, k, n) := shortest_digits 17 1 x (floor_log10 x + 1) in
  let ds := Z_digits s in
  let kn := Z.to_nat k in
  if (k <=? n) && (n <=? 21) then ds +:+ repeat_char "0" (Z.to_nat (n - k))
  else if (0 <? n) && (n <=? 21) then
    String.substring 0 (Z.to_nat n) ds +:+ "." +:+
    String.substring (Z.to_nat n) (kn - Z.to_nat n) ds
  else if (-6 <? n) && (n <=? 0) then
    "0." +:+ repeat_char "0" (Z.to_nat (- n)) +:+ ds
  else
    let e := n - 1 in
    let es := (if e <? 0 then "-" else "+") +:+ Z_digits (Z.abs e) in
    if k =? 1 then ds +:+ "e" +:+ es
    else String.substring 0 1 ds +:+ "." +:+ String.substring 1 (kn - 1) ds
         +:+ "e" +:+ es.

(** [Number::toString], the result of [String(x)] on a Number. *)
Definition Number_toString (x : JsNumber) : string :=
  match x with
  | NaN => "NaN"
  | PosInf => "Infinity"
  | NegInf => "-Infinity"
  | NegZero => "0"
  | Fin q =>
      match Qnum q with
      | Z0 => "0"
      | Zpos _ => positive_to_string q
      | Zneg _ => String "-" (positive_to_string (Qopp q))
      end
  end.

(** Inserts a comma before every group of three digits, counting from the
    right. *)
Fixpoint group_thousands (s : string) : string :=
  match s with
  | EmptyString => EmptyString
  | String c r =>
      let n := String.length r in
      if (0 <? n)%nat && (n mod 3 =? 0)%nat
      then String c (String "," (group_thousands r))
      else String c (group_thousands r)
  end.

(** The UTF-8 encoding of the infinity sign. *)
Definition infinity_sign : string :=
  String "226" (String "136" (String "158" EmptyString)).

(** The shortest decimal that reads back as the positive double [x], as
    an exact rational. *)
Definition shortest_decimal (x : Q) : Q :=
  let '(s, k, n) := shortest_digits 17 1 x (floor_log10 x + 1) in
  decimal_Q s (n - k).

(** [x.toLocaleString('en-US', {minimumFractionDigits: 2,
    maximumFractionDigits: 2})] as the engine computes it: the shortest
    decimal that reads back as the magnitude of the double, rounded to
    hundredths, half away from zero, and grouped by thousands; a minus sign
    for every negative value, the negative zero included. *)
Definition toLocaleString_en_US_2 (x : JsNumber) : string :=
  let sign := if is_negative x then "-" else EmptyString in
  match x with
  | NaN => "NaN"
  | PosInf | NegInf => sign +:+ infinity_sign
  | NegZero => "-0.00"
  | Fin q =>
      let magnitude :=
        match Qnum q with
        | Z0 => inject_Z 0
        | Zpos _ => shortest_decimal q
        | Zneg _ => shortest_decimal (Qopp q)
        end in
      let h := Qfloor (magnitude * inject_Z 100 + (1 # 2)) in
      sign +:+ group_thousands (Z_digits (h / 100)) +:+ "." +:+
      padStart0 2 (Z_digits (h mod 100))
  end.

End JsPrint.

Import JsPrint.

(** ** Dates *)

Module JsDate.

Definition msPerDay : Z := 86400000.

(** Day number, counted from 1970-01-01, of a date of the proleptic
    Gregorian calendar. *)
Definition days_from_civil (y m d : Z) : Z :=
  let y' := if m <=? 2 then y - 1 else y in
  let era := y' / 400 in
  let yoe := y' - era * 400 in
  let mp := (m + 9) mod 12 in
  let doy := (153 * mp + 2) / 5 + d - 1 in
  let doe := yoe * 365 + yoe / 4 - yoe / 100 + doy in
  era * 146097 + doe - 719468.

(** Year, month (1 to 12) and day of the month of a day number. *)
Definition civil_from_days (z : Z) : Z * Z * Z :=
  let z' := z + 719468 in
  let era := z' / 146097 in
  let doe := z' - era * 146097 in
  let yoe := (doe - doe / 1460 + doe / 36524 - doe / 146096) / 365 in
  let doy := doe - (365 * yoe + yoe / 4 - yoe / 100) in
  let mp := (5 * doy + 2) / 153 in
  let d := doy - (153 * mp + 2) / 5 + 1 in
  let m := if mp <? 10 then mp + 3 else mp - 9 in
  let y := yoe + era * 400 in
  ((if m <=? 2 then y + 1 else y), m, d).

(** A Date object: its time value in milliseconds since the epoch, UTC, or
    [None] for an Invalid Date. *)
Definition Date : Type := option Z.

(** A time value is valid up to 100,000,000 days on either side of the
    epoch. *)
Definition TimeClip (t : Z) : Date :=
  if Z.abs t <=? 8640000000000000 then Some t else None.

(** [new Date(x)] on a Number: the time value is truncated to an integer and
    clipped to the range of valid times. *)
Definition Date_of_number (x : JsNumber) : Date :=
  match finite_value x with
  | Some q => TimeClip (if Qnum q <? 0 then - Qfloor (Qopp q) else Qfloor q)
  | None => None
  end.

(** The host time zone is a fixed offset [tz], in milliseconds, added to a
    UTC time to obtain the local time. *)
Definition local_fields (tz : Z) (t : Z) : Z * Z * Z :=
  civil_from_days ((t + tz) / msPerDay).

Definition getFullYear (tz t : Z) : Z := fst (fst (local_fields tz t)).
(** Zero-based month. *)
Definition getMonth (tz t : Z) : Z := snd (fst (local_fields tz t)) - 1.
Definition getDate (tz t : Z) : Z := snd (local_fields tz t).

(** Month number of a three-letter English month name, case-insensitive. *)
Definition month_of_name (w : string) : option Z :=
  let l := toLowerCase w in
  if String.eqb l "jan" then Some 1 else if String.eqb l "feb" then Some 2
  else if String.eqb l "mar" then Some 3 else if String.eqb l "apr" then Some 4
  else if String.eqb l "may" then Some 5 else if String.eqb l "jun" then Some 6
  else if String.eqb l "jul" then Some 7 else if String.eqb l "aug" then Some 8
  else if String.eqb l "sep" then Some 9 else if String.eqb l "oct" then Some 10
  else if String.eqb l "nov" then Some 11 else if String.eqb l "dec" then Some 12
  else None.

Definition is_day (x : Z) : bool := (1 <=? x) && (x <=? 31).

Definition is_month (x : Z) : bool := (1 <=? x) && (x <=? 12).

(** [new Date(s)] on a text of the form word [/] number [/] number, which is
    not an ISO date and so goes to the engine's fallback parser.  This is
    the behaviour of V8 (the updater needs the File System Access API, which
    only Chromium-based browsers provide).  The parser collects up to three
    numbers and takes 1 for a missing one.  When the word names a month, the
    first number is the day when it lies in 1..31 and the second the year,
    otherwise the first is the year and the second the day.  A word that
    names no month is skipped: the first number is then the month and the
    second the day, with the missing third number as year, when the first
    lies in 1..31, and otherwise the first is the year and the second the
    month, with the missing third number as day.  Years 0..49 and 50..99
    mean 2000..2049 and 1950..1999; the month must lie in 1..12 and the day
    in 1..31, and the day may overflow into the next month; the date is
    read as local midnight and clipped to the range of valid times. *)
Definition Date_of_slashed (tz : Z) (s : string) : Date :=
  match split "/" s with
  | [w; a; b] =>
      let c0 := decimal_value a in
      let c1 := decimal_value b in
      let '(year, month, day) :=
        match month_of_name w with
        | Some month => if is_day c0 then (c1, month, c0) else (c0, month, c1)
        | None => if is_day c0 then (1, c0, c1) else (c0, c1, 1)
        end in
      let year :=
        if (0 <=? year) && (year <=? 49) then year + 2000
        else if (50 <=? year) && (year <=? 99) then year + 1900
        else year in
      if is_month month && is_day day
      then TimeClip ((days_from_civil year month 1 + day - 1) * msPerDay - tz)
      else None
  | _ => None
  end.

End JsDate.

Import JsDate.

(** ** Values and regular expressions *)

(** The values a cell or a form field can hold. *)
Inductive JsValue : Type :=
| VUndefined
| VNull
| VBool (b : bool)
| VNum (x : JsNumber)
| VStr (s : string).

(** [String(v)]. *)
Definition ToString (v : JsValue) : string :=
  match v with
  | VUndefined => "undefined"
  | VNull => "null"
  | VBool true => "true"
  | VBool false => "false"
  | VNum x => Number_toString x
  | VStr s => s
  end.

(** Truthiness, as tested by [if (v)], [!v] and [v || w]. *)
Definition truthy (v : JsValue) : bool :=
  match v with
  | VUndefined | VNull => false
  | VBool b => b
  | VNum x => negb (isNaN x || is_zero x)
  | VStr EmptyString => false
  | VStr _ => true
  end.

(** [v || w]. *)
Definition js_or (v w : JsValue) : JsValue := if truthy v then v else w.

Definition is_undefined (v : JsValue) : bool :=
  match v with VUndefined => true | _ => false end.

Definition is_nullish (v : JsValue) : bool :=
  match v with VUndefined | VNull => true | _ => false end.

Module Regex.

(** One item of an anchored pattern: between [lo] and [hi] characters of a
    class. *)
Record Item : Type := item { cls : ascii -> bool; lo : nat; hi : nat }.

(** Reads up to [n] more characters of class [p], trying the longest run
    first, and hands the rest to [k]. *)
Fixpoint upto (p : ascii -> bool) (n : nat) (k : string -> bool) (s : string) : bool :=
  match n with
  | O => k s
  | S n' =>
      match s with
      | String c r => (p c && upto p n' k r) || k s
      | EmptyString => k s
      end
  end.

(** Reads exactly [n] characters of class [p]. *)
Fixpoint exactly (p : ascii -> bool) (n : nat) (k : string -> bool) (s : string) : bool :=
  match n with
  | O => k s
  | S n' =>
      match s with
      | String c r => p c && exactly p n' k r
      | EmptyString => false
      end
  end.

Definition at_end (s : string) : bool :=
  match s with EmptyString => true | _ => false end.

(** [^ items $] tested against the whole of [s]. *)
Fixpoint test (items : list Item) (s : string) : bool :=
  match items with
  | [] => at_end s
  | i :: rest => exactly (cls i) (lo i) (upto (cls i) (hi i - lo i) (test rest)) s
  end.

Definition lit (c : ascii) : Item := item (Ascii.eqb c) 1 1.
Definition digits (lo hi : nat) : Item := item is_digit lo hi.
Definition letters (lo hi : nat) : Item := item is_alpha lo hi.

(** [/^\d{4}-\d{2}-\d{2}$/] *)
Definition iso_date : list Item :=
  [digits 4 4; lit "-"; digits 2 2; lit "-"; digits 2 2].

(** [/^[A-Za-z]{3}\/\d{1,2}\/\d{4}$/] *)
Definition month_slash_date : list Item :=
  [letters 3 3; lit "/"; digits 1 2; lit "/"; digits 4 4].

End Regex.

(** ** Helpers of the spreadsheet service *)

(** [safeTrim] *)
Definition safeTrim (str : JsValue) : string :=
  if is_nullish str then EmptyString else trim (ToString str).

Definition is_key_char (c : ascii) : bool := is_lower c || is_digit c.

(** [normalizeKey]: [String(key || '').toLowerCase().replace(/[^a-z0-9]/g, '')]. *)
Definition normalizeKey (key : JsValue) : string :=
  filter_string is_key_char (toLowerCase (ToString (js_or key (VStr EmptyString)))).

Definition is_currency_char (c : ascii) : bool :=
  is_digit c || Ascii.eqb c "." || Ascii.eqb c "-".

(** [formatCurrency] *)
Definition formatCurrency (val : JsValue) : string :=
  match val with
  | VUndefined | VNull | VStr EmptyString => EmptyString
  | _ =>
      let strVal := ToString val in
      if includes strVal "," && includes strVal "." &&
         (String.length (nth 1 (split "." strVal) EmptyString) =? 2)%nat
      then strVal
      else
        let cleanStr := filter_string is_currency_char strVal in
        let num := parseFloat cleanStr in
        if isNaN num then strVal
        else toLocaleString_en_US_2 num
  end.

(** [`${m}/${d}/${y}`] with month and day padded to two digits. *)
Definition mdy_of_civil (ymd : Z * Z * Z) : string :=
  let '(y, month, day) := ymd in
  let m := padStart0 2 (Z_to_string month) in
  let d := padStart0 2 (Z_to_string day) in
  m +:+ "/" +:+ d +:+ "/" +:+ Z_to_string y.

(** The [MM/DD/YYYY] rendering of the local date of a time value, from
    [getFullYear()], [getMonth() + 1] and [getDate()]. *)
Definition format_mdy (tz t : Z) : string :=
  mdy_of_civil (getFullYear tz t, getMonth tz t + 1, getDate tz t).

(** The time value the serial-number branch of [parseExcelDate] builds:
    [Math.round((num - 25569) * 86400 * 1000) + 43200000]. *)
Definition serial_time (num : JsNumber) : JsNumber :=
  add (Math_round (mul (mul (sub num (of_Z 25569)) (of_Z 86400)) (of_Z 1000)))
      (of_Z 43200000).

(** The part of [parseExcelDate] after the serial-number branch: the two
    textual shapes, then the trimmed text itself. *)
Definition parseExcelDate_text (tz : Z) (strVal : string) : string :=
  if Regex.test Regex.iso_date strVal then
    let parts := split "-" strVal in
    nth 1 parts "undefined" +:+ "/" +:+ nth 2 parts "undefined"
      +:+ "/" +:+ nth 0 parts "undefined"
  else if Regex.test Regex.month_slash_date strVal then
    match Date_of_slashed tz strVal with
    | Some t => format_mdy tz t
    | None => strVal
    end
  else strVal.

(** [parseExcelDate], in a host whose local time is UTC plus [tz]
    milliseconds. *)
Definition parseExcelDate (tz : Z) (value : JsValue) : string :=
  if is_nullish value then EmptyString
  else
    let strVal := trim (ToString value) in
    match strVal with
    | EmptyString => EmptyString
    | _ =>
        let num := Number_of_string strVal in
        if negb (isNaN num) && gt num (of_Z 30000) && lt num (of_Z 60000) then
          match Date_of_number (serial_time num) with
          | Some t => format_mdy tz t
          | None => parseExcelDate_text tz strVal
          end
        else parseExcelDate_text tz strVal
    end.

(** [formatDateForDisplay] *)
Definition formatDateForDisplay (tz : Z) (val : JsValue) : string :=
  parseExcelDate tz val.

(** ** Records and tables *)

Module JsObject.

(** A key that is an array index ([0] to [2 ^ 32 - 2] in canonical decimal
    form); objects enumerate such keys first, in ascending order. *)
Definition array_index (k : string) : option Z :=
  match k with
  | EmptyString => None
  | _ =>
      if forall_string is_digit k && String.eqb (Z_digits (decimal_value k)) k
         && (decimal_value k <=? 4294967294)
      then Some (decimal_value k) else None
  end.

Section Obj.
Context {V : Type}.

(** An object with own enumerable string keys, as the list of its entries
    in enumeration order. *)
Definition Obj : Type := list (string * V).

(** Own property lookup. *)
Fixpoint lookup (o : Obj) (k : string) : option V :=
  match o with
  | [] => None
  | (k', v) :: r => if String.eqb k' k then Some v else lookup r k
  end.

(** [Object.keys(o)] *)
Definition keys (o : Obj) : list string := map fst o.

(** Adds a new key: an array index goes before the larger indices and all
    the other keys; any other key goes last. *)
Fixpoint add_key (o : Obj) (k : string) (v : V) : Obj :=
  match o with
  | [] => [(k, v)]
  | (k', v') :: r =>
      match array_index k, array_index k' with
      | Some i, Some i' =>
          if i <? i' then (k, v) :: o else (k', v') :: add_key r k v
      | Some _, None => (k, v) :: o
      | None, _ => (k', v') :: add_key r k v
      end
  end.

Fixpoint replace (o : Obj) (k : string) (v : V) : Obj :=
  match o with
  | [] => []
  | (k', v') :: r =>
      if String.eqb k' k then (k', v) :: r else (k', v') :: replace r k v
  end.

(** [o[k] = v]: an existing key keeps its place. *)
Definition set (o : Obj) (k : string) (v : V) : Obj :=
  match lookup o k with
  | Some _ => replace o k v
  | None => add_key o k v
  end.

End Obj.

Arguments Obj : clear implicits.

End JsObject.

(** [MerchantRecord] *)
Definition MerchantRecord : Type := JsObject.Obj JsValue.

(** Property read [row[col]]: [undefined] for a missing key. *)
Definition prop (row : MerchantRecord) (col : string) : JsValue :=
  match JsObject.lookup row col with
  | Some v => v
  | None => VUndefined
  end.

(** [ParsedDatabase] *)
Record ParsedDatabase : Type := {
  fileName : string;
  rowCount : Z;
  data : list MerchantRecord;
  columns : list string
}.

(** [UserProfile] *)
Module UserProfile.
Record t : Type := {
  id : string;
  name : string;
  defaultHeldBy : string;
  defaultPosEcom : string;
  masterFilename : option string;
  mappings : gmap string (gmap string string);
  customOptions : gmap string (list string)
}.
End UserProfile.

(** [arr.includes(x)] on strings. *)
Definition str_in (x : string) (arr : list string) : bool :=
  existsb (String.eqb x) arr.

Definition mid_candidates : list string :=
  ["mid"; "merchantid"; "merch_id"; "id"; "merchant_id"; "merchant_mid";
   "accountid"; "account_id"; "outletid"; "outlet_id"; "outlet_number";
   "card_acceptor_id"; "merchant_no"; "mid_no"; "midnumber"; "partyid";
   "party_id"; "orgmid"; "org_mid"; "accountnumber"; "cardacceptor";
   "merchnum"].

Definition name_candidates : list string :=
  ["merchantname"; "name"; "merchant"; "legalname"; "dba"; "doingbusinessas";
   "mname"; "business_name"; "merchant_legal_name"; "outletname"].

(** [findMidColumn] *)
Definition findMidColumn (columns : list string) : option string :=
  List.find (fun col => str_in (normalizeKey (VStr col)) mid_candidates) columns.

(** [findNameColumn] *)
Definition findNameColumn (columns : list string) : option string :=
  List.find (fun col => str_in (normalizeKey (VStr col)) name_candidates) columns.

(** [FIELD_MAPPINGS] *)
Definition FIELD_MAPPINGS : JsObject.Obj (list string) :=
  [("Merchant ID", ["mid"; "merchantid"; "orgmid"; "merchant_id"]);
   ("Merchant Name", ["merchantname"; "name"; "merchant"]);
   ("POS/ECOM", ["pos"; "posecom"; "type"]);
   ("RM Name", ["rm"; "rmname"; "relationshipmanager"]);
   ("Channel SME/KEY/GOV",
    ["finalseg"; "final_segment"; "finalsegment"; "segment"; "channel"; "seg";
     "sub_segment"]);
   ("Current Status", ["status"; "currentstatus"]);
   ("Date of Hold", ["dateofhold"; "holddate"]);
   ("Held By", ["heldby"; "held_by"]);
   ("Hold Amount", ["holdamount"; "amount"; "hold_amount"; "amt"]);
   ("Date Of Relase",
    ["releasedate"; "dateofrelease"; "daterelease"; "release_date";
     "released_date"]);
   ("Released By", ["releasedby"; "released_by"; "rel_by"]);
   ("Release Amount", ["releaseamount"; "release_amount"]);
   ("Reason of hold", ["reason"; "holdreason"; "reason_code"]);
   ("FMU Remarks", ["remarks"; "fmuremarks"; "comments"]);
   ("Closed Date", ["closeddate"; "dateclosed"; "closed_date"]);
   ("Aging of Hold", ["agingofhold"; "aging_hold"; "hold_aging"; "aging"]);
   ("Aging between Hold & Release", ["agingduration"; "aging_between"; "duration"]);
   ("Chain ID", ["chainid"; "chain"; "chain_id"]);
   ("Group Name", ["group"; "groupname"; "group_name"]);
   ("Team Lead (TL)", ["tl"; "teamlead"; "team_lead"]);
   ("Final Seg", ["finalseg"; "final_segment"; "final_seg"; "channel"]);
   ("Org + MID", ["orgmid"; "mid"; "org_mid"]);
   ("RM", ["rm"; "relationshipmanager"; "relationship_manager"])].

(** ** The search panel *)

(** Per-table configuration kept by the panel ([DbConfig]). *)
Module DbConfig.
Record t : Type := {
  midCol : string;
  nameCol : string;
  mappings : gmap string string
}.
End DbConfig.

(** Kind of a form field ([FieldConfig.type]). *)
Inductive FieldType : Type := TSelect | TDate | TText | TTextarea.

Record FieldConfig : Type := {
  key : string;
  label : string;
  type : FieldType
}.

(** [FIELD_GROUPS], one list of fields per group. *)
Definition FIELD_GROUPS : list (list FieldConfig) :=
  [ [ {| key := "Current Status"; label := "Current Status"; type := TSelect |};
      {| key := "Account / Settlement Hold"; label := "Account / Settlement Hold";
         type := TSelect |};
      {| key := "Date of Hold"; label := "Date of Hold"; type := TDate |};
      {| key := "Held By"; label := "Held By"; type := TSelect |};
      {| key := "POS/ECOM"; label := "POS / ECOM"; type := TText |};
      {| key := "RM Name"; label := "Relationship Manager"; type := TText |};
      {| key := "Channel SME/KEY/GOV"; label := "Channel"; type := TText |};
      {| key := "Reason of hold"; label := "Reason for Hold"; type := TText |};
      {| key := "FMU Remarks"; label := "FMU Remarks"; type := TTextarea |} ];
    [ {| key := "Date Of Relase"; label := "Date of Release"; type := TDate |};
      {| key := "Released By"; label := "Released By"; type := TSelect |};
      {| key := "Closed Date"; label := "Closed Date"; type := TDate |};
      {| key := "Hold Amount"; label := "Hold Amount"; type := TText |};
      {| key := "Release Amount"; label := "Release Amount"; type := TText |};
      {| key := "Aging of Hold"; label := "Aging of Hold (Days)"; type := TText |};
      {| key := "Aging between Hold & Release"; label := "Duration (Hold-Release)";
         type := TText |};
      {| key := "added By"; label := "Added By"; type := TSelect |} ] ].

(** [ALL_FORM_FIELDS] *)
Definition ALL_FORM_FIELDS : list string :=
  flat_map (fun g => map key g) FIELD_GROUPS.

(** [FIELD_ALIASES] *)
Definition FIELD_ALIASES : JsObject.Obj (list string) :=
  [("Channel SME/KEY/GOV", ["finalseg"; "segment"; "channel"]);
   ("RM Name", ["rm"; "rmname"; "relationshipmanager"; "manager"])].

(** An optional name that passes [if (x)]: present and not empty. *)
Definition truthy_name (x : option string) : option string :=
  match x with
  | Some (String c r) => Some (String c r)
  | _ => None
  end.

(** [generateAutoMap] for the columns of one table. *)
Definition generateAutoMap (cols : list string) : gmap string string :=
  fold_left
    (fun autoMap field =>
       let normField := normalizeKey (VStr field) in
       let direct :=
         List.find (fun col => String.eqb (normalizeKey (VStr col)) normField) cols in
       let found :=
         match truthy_name direct, JsObject.lookup FIELD_ALIASES field with
         | None, Some aliases =>
             List.find (fun col => str_in (normalizeKey (VStr col)) aliases) cols
         | _, _ => direct
         end in
       match truthy_name found with
       | Some col => <[field := col]> autoMap
       | None => autoMap
       end)
    ALL_FORM_FIELDS ∅.

(** [a || b || ''] on optional column names: the empty name is falsy. *)
Definition first_nonempty (a b : option string) : string :=
  match truthy_name a with
  | Some s => s
  | None => default EmptyString b
  end.

(** The configuration the panel computes for one table when the tables or
    the profile change. *)
Definition makeDbConfig (activeProfile : option UserProfile.t) (db : ParsedDatabase)
  : DbConfig.t :=
  let profileMappings : gmap string string :=
    match activeProfile with
    | Some p => default ∅ (UserProfile.mappings p !! fileName db)
    | None => ∅
    end in
  {| DbConfig.midCol := first_nonempty (findMidColumn (columns db)) (nth_error (columns db) 0);
     DbConfig.nameCol := first_nonempty (findNameColumn (columns db)) (nth_error (columns db) 1);
     DbConfig.mappings :=
       if decide (profileMappings = ∅) then generateAutoMap (columns db)
       else profileMappings |}.

(** The [dbConfigs] state after that computation. *)
Definition makeDbConfigs (activeProfile : option UserProfile.t)
  (databases : list ParsedDatabase) : gmap string DbConfig.t :=
  fold_left (fun cfgs db => <[fileName db := makeDbConfig activeProfile db]> cfgs)
            databases ∅.

Inductive SearchType : Type := ByMid | ByName.

(** [{ ...match, __sourceFile: file }] *)
Definition with_source (row : MerchantRecord) (file : string) : MerchantRecord :=
  JsObject.set row "__sourceFile" (VStr file).

(** The inner loop of [searchRecords]: pushes matches until 20 results are
    held. *)
Fixpoint push_matches (file : string) (matches results : list MerchantRecord)
  : list MerchantRecord :=
  match matches with
  | [] => results
  | m :: rest =>
      if (20 <=? length results)%nat then results
      else push_matches file rest (results ++ [with_source m file])
  end.

(** The outer loop of [searchRecords] over the eligible tables. *)
Fixpoint search_tables (dbConfigs : gmap string DbConfig.t) (searchKey : string)
  (ty : SearchType) (dbs : list ParsedDatabase) (results : list MerchantRecord)
  : list MerchantRecord :=
  match dbs with
  | [] => results
  | db :: rest =>
      if (20 <=? length results)%nat then results
      else
        match dbConfigs !! fileName db with
        | None => search_tables dbConfigs searchKey ty rest results
        | Some config =>
            let col := match ty with
                       | ByMid => DbConfig.midCol config
                       | ByName => DbConfig.nameCol config
                       end in
            match col with
            | EmptyString => search_tables dbConfigs searchKey ty rest results
            | _ =>
                let matches :=
                  List.filter (fun row =>
                            let rowVal :=
                              normalizeKey
                                (VStr (ToString (js_or (prop row col) (VStr EmptyString)))) in
                            includes rowVal searchKey)
                         (data db) in
                search_tables dbConfigs searchKey ty rest
                              (push_matches (fileName db) matches results)
            end
        end
  end.

(** The eligibility test of the search: the file name contains [hold]. *)
Definition is_hold_database (d : ParsedDatabase) : bool :=
  includes (toLowerCase (fileName d)) "hold".

(** [searchRecords] *)
Definition searchRecords (databases : list ParsedDatabase)
  (dbConfigs : gmap string DbConfig.t) (query : string) (ty : SearchType)
  : list MerchantRecord :=
  match databases, trim query with
  | [], _ | _, EmptyString => []
  | _, _ =>
      let searchKey := normalizeKey (VStr query) in
      let holdDatabases := List.filter is_hold_database databases in
      search_tables dbConfigs searchKey ty holdDatabases []
  end.

Definition is_date_field (fieldLabel : string) : bool :=
  existsb
    (fun g =>
       existsb (fun f => String.eqb (key f) fieldLabel &&
                         match type f with TDate => true | _ => false end) g)
    FIELD_GROUPS.

Definition is_amount_field (fieldLabel : string) : bool :=
  String.eqb fieldLabel "Hold Amount" || String.eqb fieldLabel "Release Amount".

(** The value [handleSelectRecord] computes for one form field from the
    selected record; [undefined] when the record has none. *)
Definition select_field (tz : Z) (config : DbConfig.t) (record : MerchantRecord)
  (fieldLabel : string) : JsValue :=
  let val :=
    match truthy_name (DbConfig.mappings config !! fieldLabel) with
    | Some mappedCol => prop record mappedCol
    | None => prop record fieldLabel
    end in
  let val :=
    if is_undefined val then
      match truthy_name
              (List.find (fun k => String.eqb (normalizeKey (VStr k))
                                              (normalizeKey (VStr fieldLabel)))
                         (JsObject.keys record)) with
      | Some fuzzyKey => prop record fuzzyKey
      | None => val
      end
    else val in
  let val :=
    if is_date_field fieldLabel && truthy val then VStr (parseExcelDate tz val)
    else val in
  if is_amount_field fieldLabel && truthy val then VStr (formatCurrency val)
  else val.

(** One turn of the loop of [handleSelectRecord] over the form fields:
    [if (val !== undefined) newForm[fieldLabel] = val]. *)
Definition form_step (tz : Z) (config : DbConfig.t) (record form : MerchantRecord)
  (fieldLabel : string) : MerchantRecord :=
  let v := select_field tz config record fieldLabel in
  if is_undefined v then form else JsObject.set form fieldLabel v.

(** The profile defaults applied to fields still empty. *)
Definition apply_profile_defaults (activeProfile : option UserProfile.t)
  (newForm : MerchantRecord) : MerchantRecord :=
  match activeProfile with
  | None => newForm
  | Some p =>
      let default_to (field dflt : string) (form : MerchantRecord) :=
        if negb (truthy (prop form field)) && truthy (VStr dflt)
        then JsObject.set form field (VStr dflt) else form in
      default_to "POS/ECOM" (UserProfile.defaultPosEcom p)
        (default_to "Held By" (UserProfile.defaultHeldBy p) newForm)
  end.

(** [handleSelectRecord]: the merchant id put in the search box and the form
    data, or [None] when the record's source table has no configuration and
    the handler returns without a change. *)
Definition handleSelectRecord (tz : Z) (dbConfigs : gmap string DbConfig.t)
  (activeProfile : option UserProfile.t) (record : MerchantRecord)
  : option (string * MerchantRecord) :=
  let sourceFile := ToString (prop record "__sourceFile") in
  match dbConfigs !! sourceFile with
  | None => None
  | Some config =>
      let val :=
        ToString (js_or (prop record (DbConfig.midCol config)) (VStr EmptyString)) in
      let newForm : MerchantRecord :=
        match DbConfig.nameCol config with
        | EmptyString => []
        | nameCol => JsObject.set [] "Merchant Name" (prop record nameCol)
        end in
      let newForm :=
        fold_left (form_step tz config record) ALL_FORM_FIELDS newForm in
      Some (val, apply_profile_defaults activeProfile newForm)
  end.

(** ** Host effects *)

Module Host.

(** A thrown error: its [name] and [message]. *)
Record Exn : Type := { exn_name : string; exn_message : string }.

(** How a host call or a block ends. *)
Inductive Completion (A : Type) : Type :=
| Normal (a : A)
| Abrupt (e : Exn).
Arguments Normal {A} a.
Arguments Abrupt {A} e.

(** A workbook is known by what the spreadsheet library reads from it:
    the sheet names in order and, for each sheet, the rows [sheet_to_json]
    yields with the empty text as default value.  Building a sheet from
    rows with [json_to_sheet] and reading it back is the identity. *)
Definition Worksheet : Type := list MerchantRecord.

Record Workbook : Type := {
  SheetNames : list string;
  Sheets : JsObject.Obj Worksheet
}.

(** What the program does to the outside, in order. *)
Inductive Event : Type :=
| Alert (message : string)
| ConsoleError (message : string)
| CreateWritable
| Write (buffer : Workbook)
| Close.

(** A computation with a log of events that may throw. *)
Definition M (A : Type) : Type := list Event -> Completion A * list Event.

Definition ret {A} (a : A) : M A := fun log => (Normal a, log).

Definition bind {A B} (m : M A) (k : A -> M B) : M B :=
  fun log =>
    match m log with
    | (Normal a, log') => k a log'
    | (Abrupt e, log') => (Abrupt e, log')
    end.

(** Records an event. *)
Definition emit (ev : Event) : M unit := fun log => (Normal tt, log ++ [ev]).

(** The outcome of a call into the host. *)
Definition call {A} (c : Completion A) : M A := fun log => (c, log).

(** [try { m } catch (e) { h e }] *)
Definition try_catch {A} (m : M A) (h : Exn -> M A) : M A :=
  fun log =>
    match m log with
    | (Normal a, log') => (Normal a, log')
    | (Abrupt e, log') => h e log'
    end.

Definition alert (message : string) : M unit := emit (Alert message).

(** Runs a computation from an empty log. *)
Definition run {A} (m : M A) : Completion A * list Event := m [].

Inductive PermissionState : Type := granted | denied | prompt.

Definition is_granted (p : PermissionState) : bool :=
  match p with granted => true | _ => false end.

(** A file handle of the File System Access API, given by the outcome of
    each call the program makes on it.  [readWorkbook] stands for
    [getFile()], [arrayBuffer()] and [XLSX.read] in sequence. *)
Record FileHandle : Type := {
  handle_name : string;
  queryPermission : Completion PermissionState;
  requestPermission : Completion PermissionState;
  readWorkbook : Completion Workbook;
  createWritable : Completion unit;
  write : Completion unit;
  close : Completion unit
}.

(** Whether the event touches the file behind the handle. *)
Definition is_write_event (ev : Event) : bool :=
  match ev with
  | CreateWritable | Write _ | Close => true
  | _ => false
  end.

(** The content of the file after the logged events, when the calls they
    record succeeded: the buffer of the last write that was followed by a
    close, else the initial content. *)
Fixpoint file_after (pending : option Workbook) (content : Workbook)
  (log : list Event) : Workbook :=
  match log with
  | [] => content
  | Write b :: r => file_after (Some b) content r
  | Close :: r =>
      match pending with
      | Some b => file_after None b r
      | None => file_after None content r
      end
  | CreateWritable :: r => file_after None content r
  | _ :: r => file_after pending content r
  end.

End Host.

Import Host.

#[global] Instance M_ret : MRet M := @Host.ret.
#[global] Instance M_bind : MBind M := fun A B k m => Host.bind m k.

(** ** The spreadsheet updater *)

Inductive SheetType : Type := HOLD | RM.

Definition SheetType_text (t : SheetType) : string :=
  match t with HOLD => "HOLD" | RM => "RM" end.

(** The environment of an update: whether the spreadsheet library is loaded
    ([window.XLSX]) and how [getMasterHandle] settles for each kind: it
    resolves to the linked file, or to nothing when no file is linked or
    the database cannot be opened, and it rejects when the read request
    on the handle store fails. *)
Record Env : Type := {
  XLSX_loaded : bool;
  getMasterHandle : SheetType -> Completion (option FileHandle)
}.

Definition dquote : string := String "034" EmptyString.

(** [workbook.Sheets[sheetName]] read through [sheet_to_json], which gives no
    rows for a missing sheet. *)
Definition sheet_rows (workbook : Workbook) (sheetName : string) : Worksheet :=
  default [] (JsObject.lookup (Sheets workbook) sheetName).

(** [workbook.Sheets[sheetName] = sheet] *)
Definition set_sheet (workbook : Workbook) (sheetName : string) (sheet : Worksheet)
  : Workbook :=
  {| SheetNames := SheetNames workbook;
     Sheets := JsObject.set (Sheets workbook) sheetName sheet |}.

(** The first sheet name whose normalized form contains the lower-cased
    kind. *)
Definition fuzzy_sheet (existingNames : list string) (type : SheetType)
  : option string :=
  List.find (fun n => includes (normalizeKey (VStr n)) (toLowerCase (SheetType_text type)))
            existingNames.

(** Step 4 of [updateRowInMasterSheet]: the fuzzy match, else the first
    sheet name ([existingNames[0]], which reads as the key [undefined] when
    there is none). *)
Definition updateRow_sheetName (workbook : Workbook) (targetSheetType : SheetType)
  : string :=
  match truthy_name (fuzzy_sheet (SheetNames workbook) targetSheetType) with
  | Some fuzzyMatch => fuzzyMatch
  | None => nth 0 (SheetNames workbook) "undefined"
  end.

(** [jsonData.findIndex(pred)]; [None] stands for [-1]. *)
Fixpoint findIndex {A} (pred : A -> bool) (l : list A) : option nat :=
  match l with
  | [] => None
  | x :: r => if pred x then Some O else option_map S (findIndex pred r)
  end.

(** The column of the sheet that a form key is written to: the key itself
    when it is a column, else a column with the same normalized name, else a
    column listed for the key in [FIELD_MAPPINGS]. *)
Definition target_column (columns : list string) (formKey : string) : option string :=
  let exact := if str_in formKey columns then Some formKey else None in
  match truthy_name exact with
  | Some c => Some c
  | None =>
      let normalized :=
        List.find (fun c => String.eqb (normalizeKey (VStr c)) (normalizeKey (VStr formKey)))
                  columns in
      match truthy_name normalized with
      | Some c => Some c
      | None =>
          match JsObject.lookup FIELD_MAPPINGS formKey with
          | Some aliases =>
              truthy_name
                (List.find (fun c => str_in (normalizeKey (VStr c)) aliases) columns)
          | None => None
          end
      end
  end.

(** Step 7 of [updateRowInMasterSheet]: the form values written into the
    row, key by key. *)
Definition patch_row (columns : list string) (updatedData rowToUpdate : MerchantRecord)
  : MerchantRecord :=
  fold_left
    (fun row formKey =>
       let v := prop updatedData formKey in
       if is_nullish v then row
       else match target_column columns formKey with
            | Some targetCol => JsObject.set row targetCol v
            | None => row
            end)
    (JsObject.keys updatedData) rowToUpdate.

(** [l[i] = x] for an index within the list. *)
Fixpoint set_nth {A} (i : nat) (x : A) (l : list A) : list A :=
  match l, i with
  | [], _ => []
  | _ :: r, O => x :: r
  | y :: r, S j => y :: set_nth j x r
  end.

(** [jsonData.length > 0 ? Object.keys(jsonData[0]) : []] *)
Definition first_row_keys (jsonData : Worksheet) : list string :=
  match jsonData with
  | row0 :: _ => JsObject.keys row0
  | [] => []
  end.

(** The test of step 6 of [updateRowInMasterSheet]:
    [normalizeKey(String(row[midCol])) === normalizeKey(midToFind)]. *)
Definition id_matches (midCol midToFind : string) (row : MerchantRecord) : bool :=
  String.eqb (normalizeKey (VStr (ToString (prop row midCol))))
             (normalizeKey (VStr midToFind)).

(** The last step of both updates: the workbook is serialized (which is
    taken to succeed) and written through a fresh writable stream, which is
    then closed. *)
Definition write_back (fileHandle : FileHandle) (workbook : Workbook) : M unit :=
  _ ← emit CreateWritable;
  _ ← call (createWritable fileHandle);
  _ ← emit (Write workbook);
  _ ← call (write fileHandle);
  _ ← emit Close;
  call (close fileHandle).

(** Step 2 of both updates: [true] when read-write access is granted, after
    asking for it if need be. *)
Definition verify_permission (fileHandle : FileHandle) : M bool :=
  q ← call (queryPermission fileHandle);
  if is_granted q then mret true
  else
    r ← call (requestPermission fileHandle);
    mret (is_granted r).

(** [updateRowInMasterSheet] *)
Definition updateRowInMasterSheet (env : Env) (targetSheetType : SheetType)
  (midToFind : string) (updatedData : MerchantRecord) : M bool :=
  if negb (XLSX_loaded env) then
    _ ← alert "System Error: Excel library not loaded."; mret false
  else if negb (truthy (VStr midToFind)) then
    _ ← alert "Cannot update record without a Merchant ID."; mret false
  else
    match getMasterHandle env targetSheetType with
    | Abrupt e => call (Abrupt e)
    | Normal None =>
        _ ← alert ("No Linked File for " +:+ SheetType_text targetSheetType +:+
                   " Sheet. Go to Admin Dashboard to link a file.");
        mret false
    | Normal (Some fileHandle) =>
        try_catch
          (ok ← verify_permission fileHandle;
           if negb ok then
             _ ← alert "Permission denied. Cannot update file."; mret false
           else
             workbook ← call (readWorkbook fileHandle);
             let sheetName := updateRow_sheetName workbook targetSheetType in
             let jsonData := sheet_rows workbook sheetName in
             let columns := first_row_keys jsonData in
             match truthy_name (findMidColumn columns) with
             | None =>
                 _ ← alert "Could not identify a Merchant ID column in the linked file.";
                 mret false
             | Some midCol =>
                 let rowIndex := findIndex (id_matches midCol midToFind) jsonData in
                 match rowIndex with
                 | None =>
                     _ ← alert ("Record with MID " +:+ dquote +:+ midToFind +:+ dquote
                                +:+ " not found in the linked file.");
                     mret false
                 | Some i =>
                     let rowToUpdate := nth i jsonData [] in
                     let jsonData' :=
                       set_nth i (patch_row columns updatedData rowToUpdate) jsonData in
                     _ ← write_back fileHandle (set_sheet workbook sheetName jsonData');
                     mret true
                 end
             end)
          (fun e =>
             _ ← emit (ConsoleError "Update Error:");
             _ ← alert ("Failed to update Excel file: " +:+ exn_message e);
             mret false)
    end.

Inductive TargetSheetName : Type := Hold_Entries | RM_Entries.

Definition TargetSheetName_text (t : TargetSheetName) : string :=
  match t with Hold_Entries => "Hold_Entries" | RM_Entries => "RM_Entries" end.

(** [XLSX.utils.book_append_sheet(workbook, json_to_sheet([]), name)] *)
Definition book_append_empty_sheet (workbook : Workbook) (sheetName : string)
  : Workbook :=
  {| SheetNames := SheetNames workbook ++ [sheetName];
     Sheets := JsObject.set (Sheets workbook) sheetName [] |}.

(** Step 5 of [updateMasterSheet]: the sheet of that exact name, else the
    fuzzy match, else the only sheet of a one-sheet workbook, else a new
    empty sheet of the target name. *)
Definition updateMaster_sheet (workbook : Workbook) (targetSheetName : TargetSheetName)
  (type : SheetType) : string * Workbook :=
  let sheetName := TargetSheetName_text targetSheetName in
  match JsObject.lookup (Sheets workbook) sheetName with
  | Some _ => (sheetName, workbook)
  | None =>
      let existingNames := SheetNames workbook in
      match truthy_name (fuzzy_sheet existingNames type) with
      | Some fuzzyMatch => (fuzzyMatch, workbook)
      | None =>
          match existingNames with
          | [only] => (only, workbook)
          | _ => (sheetName, book_append_empty_sheet workbook sheetName)
          end
      end
  end.

(** Keys kept when a record is written out: those not starting with an
    underscore. *)
Definition is_public_key (k : string) : bool := negb (startsWith k "_").

(** Step 7 of [updateMasterSheet]: one new record laid out on the columns
    of the sheet. *)
Definition map_entry (columns : list string) (entry : MerchantRecord) : MerchantRecord :=
  let row :=
    fold_left
      (fun (row : MerchantRecord) col =>
         let normCol := normalizeKey (VStr col) in
         let val :=
           if negb (is_undefined (prop entry col)) then prop entry col
           else
             let matchedInternalKey :=
               truthy_name
                 (List.find
                    (fun internalKey =>
                       str_in normCol
                              (default [] (JsObject.lookup FIELD_MAPPINGS internalKey)))
                    (JsObject.keys FIELD_MAPPINGS)) in
             let mapped :=
               match matchedInternalKey with
               | Some k => if negb (is_undefined (prop entry k)) then Some (prop entry k)
                           else None
               | None => None
               end in
             match mapped with
             | Some v => v
             | None =>
                 match truthy_name
                         (List.find (fun k => String.eqb (normalizeKey (VStr k)) normCol)
                                    (JsObject.keys entry)) with
                 | Some entryKey => prop entry entryKey
                 | None => VStr EmptyString
                 end
             end in
         JsObject.set row col val)
      columns [] in
  match columns with
  | [] =>
      fold_left
        (fun (row : MerchantRecord) k =>
           if is_public_key k then JsObject.set row k (prop entry k) else row)
        (JsObject.keys entry) row
  | _ => row
  end.

(** [updateMasterSheet] *)
Definition updateMasterSheet (env : Env) (targetSheetName : TargetSheetName)
  (databases : list ParsedDatabase) : M bool :=
  if negb (XLSX_loaded env) then
    _ ← alert "System Error: Excel library not loaded."; mret false
  else
    let manualDb :=
      List.find (fun d => String.eqb (fileName d) "System_Manual_Entry.xlsx") databases in
    match manualDb with
    | None => _ ← alert "No new entries found to update."; mret false
    | Some {| data := [] |} => _ ← alert "No new entries found to update."; mret false
    | Some manualDb =>
        let type := match targetSheetName with Hold_Entries => HOLD | RM_Entries => RM end in
        let newRecords :=
          List.filter
            (fun r => match prop r "_type" with
                      | VStr t => String.eqb t (SheetType_text type)
                      | _ => false
                      end)
            (data manualDb) in
        match newRecords with
        | [] =>
            _ ← alert ("No new " +:+ SheetType_text type +:+ " entries to add.");
            mret false
        | first :: _ =>
            match getMasterHandle env type with
            | Abrupt e => call (Abrupt e)
            | Normal None =>
                _ ← alert ("No Linked File for " +:+ SheetType_text type +:+
                  " Sheet. Please go to Admin Dashboard and link the target Excel file.");
                mret false
            | Normal (Some fileHandle) =>
                try_catch
                  (ok ← verify_permission fileHandle;
                   if negb ok then
                     _ ← alert "Permission denied. Cannot update file."; mret false
                   else
                     workbook ← call (readWorkbook fileHandle);
                     let '(sheetName, workbook) :=
                       updateMaster_sheet workbook targetSheetName type in
                     let existingData := sheet_rows workbook sheetName in
                     let columns :=
                       match existingData with
                       | row0 :: _ => JsObject.keys row0
                       | [] => List.filter is_public_key (JsObject.keys first)
                       end in
                     let dataToAppend := map (map_entry columns) newRecords in
                     let combinedData := existingData ++ dataToAppend in
                     _ ← write_back fileHandle (set_sheet workbook sheetName combinedData);
                     _ ← alert ("Successfully appended " +:+
                                Z_to_string (Z.of_nat (length newRecords)) +:+
                                " rows to sheet " +:+ dquote +:+ sheetName +:+ dquote +:+
                                " in file " +:+ dquote +:+ handle_name fileHandle +:+
                                dquote +:+ ".");
                     mret true)
                  (fun e =>
                     _ ← emit (ConsoleError "File System Access Error:");
                     _ ← (if String.eqb (exn_name e) "NotAllowedError" then
                            alert "Permission to write to file was denied."
                          else if String.eqb (exn_name e) "NotFoundError" then
                            alert "The linked file was moved or deleted. Please link the file again in Admin Dashboard."
                          else
                            alert ("Error updating file: " +:+ exn_message e +:+
                                   ". Ensure the file is not open in another program."));
                     mret false)
            end
        end
    end.

(** ** Configuration import *)

Module Json.

#[local] Set Warnings "-register-all".

(** A value produced by [JSON.parse]. *)
Inductive t : Type :=
| JNull
| JBool (b : bool)
| JNum (x : JsNumber)
| JStr (s : string)
| JArr (items : list t)
| JObj (members : JsObject.Obj t).

(** [config.profiles] and the like: a member of an object, [undefined]
    ([None]) on any other value.  Reading a member of [null] throws and is
    handled where it occurs. *)
Definition member (v : t) (k : string) : option t :=
  match v with
  | JObj o => JsObject.lookup o k
  | _ => None
  end.

(** Truthiness of a parsed value, [undefined] ([None]) included. *)
Definition truthy (v : option t) : bool :=
  match v with
  | None | Some JNull => false
  | Some (JBool b) => b
  | Some (JNum x) => negb (isNaN x || is_zero x)
  | Some (JStr EmptyString) => false
  | Some _ => true
  end.

(** [Array.isArray] *)
Definition isArray (v : option t) : bool :=
  match v with Some (JArr _) => true | _ => false end.

Fixpoint join (sep : string) (l : list string) : string :=
  match l with
  | [] => EmptyString
  | [x] => x
  | x :: r => x +:+ sep +:+ join sep r
  end.

(** [String(v)]. *)
Fixpoint to_text (v : t) : string :=
  match v with
  | JNull => "null"
  | JBool true => "true"
  | JBool false => "false"
  | JNum x => Number_toString x
  | JStr s => s
  | JArr items =>
      join "," (map (fun x => match x with
                              | JNull => EmptyString
                              | _ => to_text x
                              end) items)
  | JObj _ => "[object Object]"
  end.

(** Whether a value is a valid IndexedDB key: a number other than NaN, a
    string, or an array of valid keys. *)
Fixpoint valid_key (v : t) : bool :=
  match v with
  | JNum x => negb (isNaN x)
  | JStr _ => true
  | JArr items => forallb valid_key items
  | _ => false
  end.

(** Equality of IndexedDB keys; the two zeros are one key. *)
Fixpoint key_eqb (a b : t) : bool :=
  match a, b with
  | JNum x, JNum y =>
      same_number x y || (is_zero x && is_zero y)
  | JStr x, JStr y => String.eqb x y
  | JArr xs, JArr ys =>
      (fix all2 (xs ys : list t) : bool :=
         match xs, ys with
         | [], [] => true
         | x :: xs', y :: ys' => key_eqb x y && all2 xs' ys'
         | _, _ => false
         end) xs ys
  | _, _ => false
  end.

End Json.

(** The persistent stores the import writes to: the [user_profiles] object
    store, as its entries by key, and local storage. *)
Record Stores : Type := {
  user_profiles : list (Json.t * Json.t);
  localStorage : gmap string string
}.

(** The host of an import: the JSON parser, the outcome of opening the
    database ([initDB]) and whether the transaction completes
    ([oncomplete]) or fails ([onerror]). *)
Record StorageEnv : Type := {
  JSON_parse : string -> Completion Json.t;
  initDB : Completion unit;
  transaction_outcome : Completion unit
}.

Definition ACTIVE_PROFILE_KEY : string := "merchant_match_active_profile_id".

(** [store.put(value)] on a store with key path [id]: replaces the entry of
    the same key or adds one; throws a [DataError] when the value carries no
    valid key. *)
Fixpoint put_entry (key value : Json.t) (store : list (Json.t * Json.t))
  : list (Json.t * Json.t) :=
  match store with
  | [] => [(key, value)]
  | (k, v) :: r =>
      if Json.key_eqb k key then (k, value) :: r else (k, v) :: put_entry key value r
  end.

Definition DataError : Exn :=
  {| exn_name := "DataError";
     exn_message := "Evaluating the object store's key path did not yield a value." |}.

Definition store_put (value : Json.t) (store : list (Json.t * Json.t))
  : Completion (list (Json.t * Json.t)) :=
  match Json.member value "id" with
  | Some key => if Json.valid_key key then Normal (put_entry key value store)
                else Abrupt DataError
  | None => Abrupt DataError
  end.

(** The loop [for (const profile of config.profiles) store.put(profile)]:
    the store with the requests made so far, and whether a call threw. *)
Fixpoint put_all (profiles : list Json.t) (store : list (Json.t * Json.t))
  : list (Json.t * Json.t) * option Exn :=
  match profiles with
  | [] => (store, None)
  | p :: r =>
      match store_put p store with
      | Normal store' => put_all r store'
      | Abrupt e => (store, Some e)
      end
  end.

(** [setActiveProfileId] *)
Definition setActiveProfileId (id : option Json.t) (ls : gmap string string)
  : gmap string string :=
  match id with
  | Some v => if Json.truthy id then <[ACTIVE_PROFILE_KEY := Json.to_text v]> ls
              else delete ACTIVE_PROFILE_KEY ls
  | None => delete ACTIVE_PROFILE_KEY ls
  end.

Definition InvalidConfiguration : Exn :=
  {| exn_name := "Error"; exn_message := "Invalid Configuration File" |}.

Definition TypeError_null : Exn :=
  {| exn_name := "TypeError";
     exn_message := "Cannot read properties of null (reading 'profiles')" |}.

(** [importSystemConfig]: the settled promise and the stores afterwards.
    The [catch] block logs and rethrows.  Requests made in a transaction
    take effect together when it completes and not at all when it fails; a
    transaction left behind by a thrown error still completes with the
    requests made before. *)
Definition importSystemConfig (env : StorageEnv) (stores : Stores) (jsonString : string)
  : Completion bool * Stores :=
  match JSON_parse env jsonString with
  | Abrupt e => (Abrupt e, stores)
  | Normal Json.JNull => (Abrupt TypeError_null, stores)
  | Normal config =>
      let profiles := Json.member config "profiles" in
      if negb (Json.truthy profiles) || negb (Json.isArray profiles) then
        (Abrupt InvalidConfiguration, stores)
      else
        match initDB env with
        | Abrupt e => (Abrupt e, stores)
        | Normal _ =>
            let items := match profiles with
                         | Some (Json.JArr items) => items
                         | _ => []
                         end in
            let committed (requested : list (Json.t * Json.t)) :=
              match transaction_outcome env with
              | Normal _ => requested
              | Abrupt _ => user_profiles stores
              end in
            match put_all items (user_profiles stores) with
            | (requested, Some e) =>
                (Abrupt e, {| user_profiles := committed requested;
                              localStorage := localStorage stores |})
            | (requested, None) =>
                let activeProfileId := Json.member config "activeProfileId" in
                let ls :=
                  if Json.truthy activeProfileId
                  then setActiveProfileId activeProfileId (localStorage stores)
                  else localStorage stores in
                let stores' := {| user_profiles := committed requested;
                                  localStorage := ls |} in
                match transaction_outcome env with
                | Normal _ => (Normal true, stores')
                | Abrupt e => (Abrupt e, stores')
                end
            end
        end
  end.

(** ** Reconciling a selected record in the manual entry form *)









(** The hold form of the manual entry view. *)
Module HoldForm.
Record t : Type := {
  mid : string;
  name : string;
  posEcom : string;
  rmName : string;
  channel : string;
  currentStatus : string;
  accountHold : string;
  dateHold : string;
  heldBy : string;
  holdAmount : string;
  dateRelease : string;
  releasedBy : string;
  releaseAmount : string;
  closedDate : string;
  reason : string;
  fmuRemarks : string;
  addedBy : string
}.
End HoldForm.

(** The relationship-manager form of the manual entry view. *)
Module RmForm.
Record t : Type := {
  orgMid : string;
  chainId : string;
  name : string;
  tl : string;
  groupName : string;
  seg : string;
  finalSeg : string;
  rm : string
}.
End RmForm.



(** ** Predicates used to state the properties *)

(** [/^\d{2}\/\d{2}\/\d{4}$/] *)
Definition mdy_shape : list Regex.Item :=
  [Regex.digits 2 2; Regex.lit "/"; Regex.digits 2 2; Regex.lit "/"; Regex.digits 4 4].

(** A text of shape [MM/DD/YYYY] whose month and day are in range. *)
Definition valid_mdy (s : string) : bool :=
  Regex.test mdy_shape s &&
  match split "/" s with
  | [m; d; _] =>
      (1 <=? decimal_value m) && (decimal_value m <=? 12) &&
      (1 <=? decimal_value d) && (decimal_value d <=? 31)
  | _ => false
  end.

(** The key normalizer over an arbitrary case mapping [lower]. *)
Definition normalizeKey_with (lower : string -> string) (key : JsValue) : string :=
  filter_string is_key_char (lower (ToString (js_or key (VStr EmptyString)))).

(** The rows of the sheet [updateRowInMasterSheet] selects. *)
Definition updateRow_rows (workbook : Workbook) (targetSheetType : SheetType)
  : Worksheet :=
  sheet_rows workbook (updateRow_sheetName workbook targetSheetType).

(** Read-write access to the file is granted, at once or on request. *)
Definition access_granted (fileHandle : FileHandle) : Prop :=
  queryPermission fileHandle = Normal granted \/
  (exists p, queryPermission fileHandle = Normal p /\ is_granted p = false /\
             requestPermission fileHandle = Normal granted).

(** The alert of a row that is not found. *)
Definition RowNotFound_alert (midToFind : string) : Event :=
  Alert ("Record with MID " +:+ dquote +:+ midToFind +:+ dquote
         +:+ " not found in the linked file.").

(** The recorded source of a search result. *)
Definition source_of (r : MerchantRecord) : JsValue := prop r "__sourceFile".

(** The document carries a [profiles] member that is an array. *)
Definition has_profiles_array (config : Json.t) : bool :=
  match config with
  | Json.JObj o =>
      match JsObject.lookup o "profiles" with
      | Some (Json.JArr _) => true
      | _ => false
      end
  | _ => false
  end.




(** ** Sample data *)

Module Examples.

(** A hold table and a relationship-manager table about the same merchant;
    the second writes the identifier differently. *)
Definition hold_row : MerchantRecord :=
  [("MID", VStr "M100"); ("Merchant Name", VStr "Acme Trading");
   ("Status", VStr "Active")].

Definition hold_jan : ParsedDatabase :=
  {| fileName := "Hold_Jan.xlsx"; rowCount := 1; data := [hold_row];
     columns := ["MID"; "Merchant Name"; "Status"] |}.

Definition rm_row : MerchantRecord :=
  [("MID", VStr "m-100"); ("RM Name", VStr "Alice")].

Definition rm_master : ParsedDatabase :=
  {| fileName := "RM_Master.xlsx"; rowCount := 1; data := [rm_row];
     columns := ["MID"; "RM Name"] |}.

Definition tables : list ParsedDatabase := [hold_jan; rm_master].

Definition configs : gmap string DbConfig.t := makeDbConfigs None tables.

(** A hold table of twenty rows that all match [M100]. *)
Definition hold_full : ParsedDatabase :=
  {| fileName := "Hold_Full.xlsx"; rowCount := 20; data := repeat hold_row 20;
     columns := ["MID"; "Merchant Name"; "Status"] |}.

(** The record the search returns for [M100]. *)
Definition selected : MerchantRecord := with_source hold_row "Hold_Jan.xlsx".

(** A linked workbook of two sheets, neither named after its kind. *)
Definition second_row : MerchantRecord :=
  [("MID", VStr "M200"); ("Merchant Name", VStr "Birch Ltd");
   ("Status", VStr "Active")].

Definition book : Workbook :=
  {| SheetNames := ["Sheet1"; "Sheet2"];
     Sheets := [("Sheet1", [hold_row; second_row]); ("Sheet2", [])] |}.

Definition handle : FileHandle :=
  {| handle_name := "Master.xlsx";
     queryPermission := Normal granted;
     requestPermission := Normal granted;
     readWorkbook := Normal book;
     createWritable := Normal tt;
     write := Normal tt;
     close := Normal tt |}.

Definition env : Env :=
  {| XLSX_loaded := true;
     getMasterHandle := fun t => match t with
                                 | HOLD => Normal (Some handle)
                                 | RM => Normal None
                                 end |}.

Definition patch : MerchantRecord := [("Current Status", VStr "Closed")].

(** The workbook after the status of [M100] is set to [Closed]. *)
Definition patched_book : Workbook :=
  {| SheetNames := ["Sheet1"; "Sheet2"];
     Sheets :=
       [("Sheet1",
         [[("MID", VStr "M100"); ("Merchant Name", VStr "Acme Trading");
           ("Status", VStr "Closed")];
          second_row]);
        ("Sheet2", [])] |}.

(** A configuration document whose [profiles] member is not an array. *)
Definition bad_document : Json.t :=
  Json.JObj [("version", Json.JNum (of_Z 1));
             ("activeProfileId", Json.JStr "p1");
             ("profiles", Json.JStr "none")].

Definition storage_env : StorageEnv :=
  {| JSON_parse := fun _ => Normal bad_document;
     initDB := Normal tt;
     transaction_outcome := Normal tt |}.

Definition stores : Stores :=
  {| user_profiles :=
       [(Json.JStr "p0", Json.JObj [("id", Json.JStr "p0"); ("name", Json.JStr "Ops")])];
     localStorage := {[ ACTIVE_PROFILE_KEY := "p0" ]} |}.

End Examples.

(** ** Further predicates and operations *)

(** The test [searchRecords] applies to a row:
    [normalizeKey(String(row[col] || '')).includes(searchKey)]. *)
Definition row_matches (col searchKey : string) (row : MerchantRecord) : bool :=
  includes (normalizeKey (VStr (ToString (js_or (prop row col) (VStr EmptyString)))))
           searchKey.

(** The column a search of kind [ty] reads in a table. *)
Definition search_column (ty : SearchType) (config : DbConfig.t) : string :=
  match ty with
  | ByMid => DbConfig.midCol config
  | ByName => DbConfig.nameCol config
  end.

(** All the matches of one table, tagged with its file name; none when the
    table has no configuration or no column for the search. *)
Definition table_hits (dbConfigs : gmap string DbConfig.t) (searchKey : string)
  (ty : SearchType) (db : ParsedDatabase) : list MerchantRecord :=
  match dbConfigs !! fileName db with
  | None => []
  | Some config =>
      match search_column ty config with
      | EmptyString => []
      | col =>
          map (fun row => with_source row (fileName db))
              (List.filter (row_matches col searchKey) (data db))
      end
  end.

(** One turn of the loop of [patch_row]: the value of a form key goes to the
    column the key resolves to; keys without a value or without a column
    are skipped. *)
Definition patch_step (columns : list string) (updatedData row : MerchantRecord)
  (formKey : string) : MerchantRecord :=
  let v := prop updatedData formKey in
  if is_nullish v then row
  else match target_column columns formKey with
       | Some targetCol => JsObject.set row targetCol v
       | None => row
       end.

(** The kind of file a target sheet belongs to. *)
Definition kind_of_target (targetSheetName : TargetSheetName) : SheetType :=
  match targetSheetName with Hold_Entries => HOLD | RM_Entries => RM end.

(** [r._type === type] *)
Definition is_of_kind (type : SheetType) (r : MerchantRecord) : bool :=
  match prop r "_type" with
  | VStr t => String.eqb t (SheetType_text type)
  | _ => false
  end.

(** The columns [updateMasterSheet] lays new records on: those of the first
    existing row, else the public keys of the first new record. *)
Definition append_columns (existingData : Worksheet) (first : MerchantRecord)
  : list string :=
  match existingData with
  | row0 :: _ => JsObject.keys row0
  | [] => List.filter is_public_key (JsObject.keys first)
  end.

(** The alert that reports a successful append. *)
Definition appended_alert (count : nat) (sheetName fileName : string) : Event :=
  Alert ("Successfully appended " +:+ Z_to_string (Z.of_nat count) +:+
         " rows to sheet " +:+ dquote +:+ sheetName +:+ dquote +:+
         " in file " +:+ dquote +:+ fileName +:+ dquote +:+ ".").

(** ** Reading the stores *)

(** [getActiveProfileId] *)
Definition getActiveProfileId (ls : gmap string string) : option string :=
  ls !! ACTIVE_PROFILE_KEY.

(** The records of the profile store.  [getUserProfiles] resolves to a
    listing of them ([store.getAll()], which lists them by key). *)
Definition stored_profiles (stores : Stores) : list Json.t :=
  map snd (user_profiles stores).

(** The record stored under a key, if any. *)
Definition store_get (key : Json.t) (store : list (Json.t * Json.t)) : option Json.t :=
  option_map snd (List.find (fun entry => Json.key_eqb (fst entry) key) store).

(** The last profile of a list whose [id] is the text [k]. *)
Definition last_with_id (k : string) (profiles : list Json.t) : option Json.t :=
  List.find (fun p => match Json.member p "id" with
                      | Some (Json.JStr s) => String.eqb s k
                      | _ => false
                      end)
            (rev profiles).

(** Every profile carries a text as its [id], as [UserProfile] declares. *)
Definition ids_are_text (profiles : list Json.t) : Prop :=
  forall p, In p profiles -> exists s, Json.member p "id" = Some (Json.JStr s).

(** A profile store as [put] leaves it when all ids are texts: each record
    is stored under its own id, and no id occurs twice. *)
Definition store_by_id (store : list (Json.t * Json.t)) : Prop :=
  List.NoDup (map fst store) /\
  forall k v, In (k, v) store ->
              exists s, k = Json.JStr s /\ Json.member v "id" = Some (Json.JStr s).

(** The document [exportSystemConfig] serializes: [activeId] is what
    [getActiveProfileId] returned, [profiles] what [getUserProfiles]
    resolved to, [exportedAt] the time stamp. *)
Definition exportSystemConfig_document (exportedAt : string) (activeId : option string)
    (profiles : list Json.t) : Json.t :=
  Json.JObj
    [("version", Json.JNum (of_Z 1));
     ("exportedAt", Json.JStr exportedAt);
     ("activeProfileId",
      match activeId with
      | Some s => Json.JStr s
      | None => Json.JNull
      end);
     ("profiles", Json.JArr profiles)].

(** [handleProfileChange], its effect on local storage: the id of the
    chosen profile is stored, or the entry removed when none is chosen. *)
Definition handleProfileChange (profile : option Json.t) (ls : gmap string string)
  : gmap string string :=
  setActiveProfileId (match profile with
                      | Some p => Json.member p "id"
                      | None => Some Json.JNull
                      end) ls.

(** Whether [put] finds a valid key in a profile. *)
Definition has_key (p : Json.t) : bool :=
  match Json.member p "id" with
  | Some key => Json.valid_key key
  | None => false
  end.

(** ** The workspace of loaded tables *)

(** [handleDataLoaded], the state update: new tables whose file name is not
    loaded yet are appended. *)
Definition handleDataLoaded (newItems prev : list ParsedDatabase) : list ParsedDatabase :=
  let currentNames := map fileName prev in
  let filteredNew :=
    List.filter (fun item => negb (str_in (fileName item) currentNames)) newItems in
  match filteredNew with
  | [] => prev
  | _ => prev ++ filteredNew
  end.

(** [handleRemoveDatabase], the state update once the user has confirmed. *)
Definition handleRemoveDatabase (name : string) (prev : list ParsedDatabase)
  : list ParsedDatabase :=
  List.filter (fun db => negb (String.eqb (fileName db) name)) prev.

(** [Array.from(new Set(l))]: the first occurrence of each element, in
    order. *)
Fixpoint set_from (seen l : list string) : list string :=
  match l with
  | [] => seen
  | x :: r => if str_in x seen then set_from seen r else set_from (seen ++ [x]) r
  end.

Definition MANUAL_ENTRY_FILE : string := "System_Manual_Entry.xlsx".

(** [handleManualEntrySave], the state update.  The kind of the entry is
    not read here; it travels in the [_type] member of the record. *)
Definition handleManualEntrySave (type : SheetType) (entry : MerchantRecord)
  (prev : list ParsedDatabase) : list ParsedDatabase :=
  match findIndex (fun db => String.eqb (fileName db) MANUAL_ENTRY_FILE) prev with
  | Some existingDbIndex =>
      match nth_error prev existingDbIndex with
      | Some existingDb =>
          let newColumns := set_from [] (columns existingDb ++ JsObject.keys entry) in
          set_nth existingDbIndex
                  {| fileName := fileName existingDb;
                     rowCount := rowCount existingDb + 1;
                     data := data existingDb ++ [entry];
                     columns := newColumns |}
                  prev
      | None => prev
      end
  | None =>
      prev ++ [{| fileName := MANUAL_ENTRY_FILE;
                  rowCount := 1;
                  data := [entry];
                  columns := JsObject.keys entry |}]
  end.

(** The table of manual entries, as [updateMasterSheet] looks it up. *)
Definition manual_table (databases : list ParsedDatabase) : option ParsedDatabase :=
  List.find (fun d => String.eqb (fileName d) MANUAL_ENTRY_FILE) databases.

(** A table whose row count is the number of its rows. *)
Definition counted (db : ParsedDatabase) : Prop :=
  rowCount db = Z.of_nat (length (data db)).

(** ** Candidate lists *)

(** A text that [normalizeKey] can produce: lower-case letters and digits
    only. *)
Definition is_normal (s : string) : bool := forall_string is_key_char s.

(** The column [generateAutoMap] finds for one form field, if any. *)
Definition auto_match (cols : list string) (field : string) : option string :=
  let normField := normalizeKey (VStr field) in
  let direct :=
    List.find (fun col => String.eqb (normalizeKey (VStr col)) normField) cols in
  truthy_name
    match truthy_name direct, JsObject.lookup FIELD_ALIASES field with
    | None, Some aliases =>
        List.find (fun col => str_in (normalizeKey (VStr col)) aliases) cols
    | _, _ => direct
    end.

(** ** The date field of the form *)

(** A text without white space. *)
Definition no_space (s : string) : bool :=
  forall_string (fun c => negb (is_space c)) s.

(** [/^\d{1,2}\/\d{1,2}\/\d{4}$/] *)
Definition picker_mdy : list Regex.Item :=
  [Regex.digits 1 2; Regex.lit "/"; Regex.digits 1 2; Regex.lit "/"; Regex.digits 4 4].

(** [`${y}-${m}-${d}`] with month and day padded to two digits. *)
Definition ymd_of_civil (ymd : Z * Z * Z) : string :=
  let '(y, month, day) := ymd in
  Z_to_string y +:+ "-" +:+ padStart0 2 (Z_to_string month) +:+ "-"
    +:+ padStart0 2 (Z_to_string day).

(** [getPickerValue] of [HybridDateInput]: the [YYYY-MM-DD] text handed to
    the date picker for the stored [value].  [Date_of_string] is what
    [new Date(value)] gives in the host for a text. *)
Definition getPickerValue (Date_of_string : string -> Date) (tz : Z) (value : string)
  : string :=
  match value with
  | EmptyString => EmptyString
  | _ =>
      if Regex.test picker_mdy value then
        let parts := split "/" value in
        let m := padStart0 2 (nth 0 parts "undefined") in
        let d := padStart0 2 (nth 1 parts "undefined") in
        let y := nth 2 parts "undefined" in
        y +:+ "-" +:+ m +:+ "-" +:+ d
      else
        match Date_of_string value with
        | Some t => ymd_of_civil (getFullYear tz t, getMonth tz t + 1, getDate tz t)
        | None => EmptyString
        end
  end.

(** [handlePickerChange] of [HybridDateInput]: the text stored for the
    picker's [YYYY-MM-DD] value. *)
Definition handlePickerChange (val : string) : string :=
  match val with
  | EmptyString => EmptyString
  | _ =>
      let parts := split "-" val in
      nth 1 parts "undefined" +:+ "/" +:+ nth 2 parts "undefined"
        +:+ "/" +:+ nth 0 parts "undefined"
  end.

(** A text that begins with two digits and a slash, and has no white
    space: the shape of the dates [parseExcelDate] prints. *)
Definition slashed_date (o : string) : Prop :=
  exists c1 c2 rest,
    o = String c1 (String c2 (String "/" rest)) /\
    is_digit c1 = true /\ is_digit c2 = true /\ no_space rest = true.

(** ** The search of the manual entry form *)

(** The loop of [searchDatabases]: every loaded table is read, on the
    column detected for the kind of search, until more than ten matches are
    held. *)
Fixpoint searchDatabases_loop (ty : SearchType) (normalizedQuery : string)
  (databases : list ParsedDatabase) (matches : list MerchantRecord)
  : list MerchantRecord :=
  match databases with
  | [] => matches
  | db :: rest =>
      if (10 <? length matches)%nat then matches
      else
        let targetCol :=
          match ty with
          | ByMid => findMidColumn (columns db)
          | ByName => findNameColumn (columns db)
          end in
        match truthy_name targetCol with
        | None => searchDatabases_loop ty normalizedQuery rest matches
        | Some targetCol =>
            let found :=
              map (fun row => with_source row (fileName db))
                  (List.filter
                     (fun row =>
                        includes (normalizeKey (VStr (ToString (prop row targetCol))))
                                 normalizedQuery)
                     (data db)) in
            searchDatabases_loop ty normalizedQuery rest (matches ++ found)
        end
  end.

(** [searchDatabases] *)
Definition searchDatabases (databases : list ParsedDatabase) (query : string)
  (ty : SearchType) : list MerchantRecord :=
  if (String.length query <? 2)%nat then []
  else firstn 10 (searchDatabases_loop ty (normalizeKey (VStr query)) databases []).

(** The matches of one table in that search. *)
Definition entry_hits (ty : SearchType) (normalizedQuery : string) (db : ParsedDatabase)
  : list MerchantRecord :=
  match truthy_name match ty with
                    | ByMid => findMidColumn (columns db)
                    | ByName => findNameColumn (columns db)
                    end with
  | None => []
  | Some targetCol =>
      map (fun row => with_source row (fileName db))
          (List.filter
             (fun row =>
                includes (normalizeKey (VStr (ToString (prop row targetCol))))
                         normalizedQuery)
             (data db))
  end.

(** ** Distinct values of a column *)

(** [values.add(x)] on a set kept in insertion order. *)
Definition set_add (x : string) (values : list string) : list string :=
  if str_in x values then values else values ++ [x].

Fixpoint insert_sorted (x : string) (l : list string) : list string :=
  match l with
  | [] => [x]
  | y :: r => if String.leb x y then x :: l else y :: insert_sorted x r
  end.

(** [Array.prototype.sort()] on texts: ascending order of code units. *)
Definition sort_strings (l : list string) : list string :=
  fold_right insert_sorted [] l.

(** A cell that [getUniqueValues] counts: not [undefined], [null] or the
    empty text. *)
Definition has_value (val : JsValue) : bool :=
  match val with
  | VUndefined | VNull | VStr EmptyString => false
  | _ => true
  end.

(** [getUniqueValues] *)
Definition getUniqueValues (data : list MerchantRecord) (key : string) : list string :=
  sort_strings
    (fold_left
       (fun values row =>
          let val := prop row key in
          if has_value val then set_add (trim (ToString val)) values else values)
       data []).

(** Strictly ascending texts. *)
Fixpoint ascending (l : list string) : bool :=
  match l with
  | x :: (y :: _) as r => String.ltb x y && ascending r
  | _ => true
  end.

(** ** Exporting records *)

(** Keys [exportToExcel] writes out. *)
Definition is_exported_key (key : string) : bool :=
  negb (startsWith key "_") && negb (String.eqb key "flagId").

(** One row of [cleanData] in [exportToExcel]. *)
Definition exportToExcel_row (row : MerchantRecord) : MerchantRecord :=
  fold_left
    (fun (newRow : MerchantRecord) key =>
       if is_exported_key key then JsObject.set newRow key (prop row key) else newRow)
    (JsObject.keys row) [].

(** ** The cells of an appended row *)

(** The value [updateMasterSheet] writes in column [col] for a new
    [entry]: the member of that name, else the member a form key listed for
    the column in [FIELD_MAPPINGS] names, else the member whose normalized
    name is that of the column, else the empty text. *)
Definition entry_cell (entry : MerchantRecord) (col : string) : JsValue :=
  let normCol := normalizeKey (VStr col) in
  if negb (is_undefined (prop entry col)) then prop entry col
  else
    let matchedInternalKey :=
      truthy_name
        (List.find
           (fun internalKey =>
              str_in normCol (default [] (JsObject.lookup FIELD_MAPPINGS internalKey)))
           (JsObject.keys FIELD_MAPPINGS)) in
    let mapped :=
      match matchedInternalKey with
      | Some k => if negb (is_undefined (prop entry k)) then Some (prop entry k)
                  else None
      | None => None
      end in
    match mapped with
    | Some v => v
    | None =>
        match truthy_name
                (List.find (fun k => String.eqb (normalizeKey (VStr k)) normCol)
                           (JsObject.keys entry)) with
        | Some entryKey => prop entry entryKey
        | None => VStr EmptyString
        end
    end.

(** ** Looking a merchant up for flagging *)

(** [normalizeKey(String(val)) === searchKey] *)
Definition cell_matches (searchKey : string) (val : JsValue) : bool :=
  String.eqb (normalizeKey (VStr (ToString val))) searchKey.

(** [Object.values(row)] *)
Definition row_values (row : MerchantRecord) : list JsValue := map snd row.

(** The record of one table that [handleSearchForFlag] settles on: a row
    whose detected id column holds the key, else a row with the key in any
    cell. *)
Definition flag_match (searchKey : string) (db : ParsedDatabase) : option MerchantRecord :=
  let byColumn :=
    match truthy_name (findMidColumn (columns db)) with
    | Some midCol =>
        List.find (fun row => cell_matches searchKey (prop row midCol)) (data db)
    | None => None
    end in
  match byColumn with
  | Some row => Some row
  | None =>
      List.find (fun row => existsb (cell_matches searchKey) (row_values row)) (data db)
  end.

(** The loop over the loaded tables, stopping at the first table with a
    match. *)
Fixpoint flag_scan (searchKey : string) (databases : list ParsedDatabase)
  : option (MerchantRecord * string) :=
  match databases with
  | [] => None
  | db :: rest =>
      match flag_match searchKey db with
      | Some row => Some (row, fileName db)
      | None => flag_scan searchKey rest
      end
  end.

(** [handleSearchForFlag]: the record shown for verification, if any. *)
Definition handleSearchForFlag (databases : list ParsedDatabase) (flagMid : string)
  : option MerchantRecord :=
  match trim flagMid with
  | EmptyString => None
  | _ =>
      match flag_scan (normalizeKey (VStr flagMid)) databases with
      | Some (foundRecord, sourceFile) =>
          Some (JsObject.set foundRecord "Source_File" (VStr sourceFile))
      | None => None
      end
  end.

(** ** More sample data *)

Module Samples.

(** Two entries typed in by hand, one of each kind. *)
Definition manual_hold : MerchantRecord :=
  [("Merchant ID", VStr "M300"); ("Merchant Name", VStr "Cedar Co");
   ("Current Status", VStr "Active"); ("_type", VStr "HOLD")].

Definition manual_rm : MerchantRecord :=
  [("Org + MID", VStr "M300"); ("RM", VStr "Bob"); ("_type", VStr "RM")].

Definition manual_db : ParsedDatabase :=
  {| fileName := "System_Manual_Entry.xlsx"; rowCount := 2;
     data := [manual_hold; manual_rm];
     columns := ["Merchant ID"; "Merchant Name"; "Current Status"; "_type";
                 "Org + MID"; "RM"] |}.

(** A linked hold file with one sheet and one row. *)
Definition hold_book : Workbook :=
  {| SheetNames := ["Hold_Entries"];
     Sheets := [("Hold_Entries", [Examples.hold_row])] |}.

Definition hold_handle : FileHandle :=
  {| handle_name := "Hold.xlsx";
     queryPermission := Normal prompt;
     requestPermission := Normal granted;
     readWorkbook := Normal hold_book;
     createWritable := Normal tt;
     write := Normal tt;
     close := Normal tt |}.

Definition env : Env :=
  {| XLSX_loaded := true;
     getMasterHandle := fun t => match t with
                                 | HOLD => Normal (Some hold_handle)
                                 | RM => Normal None
                                 end |}.

(** The hold file after the manual hold entry has been appended, and the
    handle and environment that read it. *)
Definition hold_book_synced : Workbook :=
  {| SheetNames := ["Hold_Entries"];
     Sheets := [("Hold_Entries",
                 [Examples.hold_row;
                  [("MID", VStr "M300"); ("Merchant Name", VStr "Cedar Co");
                   ("Status", VStr "Active")]])] |}.

Definition hold_handle_synced : FileHandle :=
  {| handle_name := "Hold.xlsx";
     queryPermission := Normal granted;
     requestPermission := Normal granted;
     readWorkbook := Normal hold_book_synced;
     createWritable := Normal tt;
     write := Normal tt;
     close := Normal tt |}.

Definition env_synced : Env :=
  {| XLSX_loaded := true;
     getMasterHandle := fun t => match t with
                                 | HOLD => Normal (Some hold_handle_synced)
                                 | RM => Normal None
                                 end |}.

(** A configuration document with two profiles, the second one twice. *)
Definition profile_a : Json.t :=
  Json.JObj [("id", Json.JStr "p1"); ("name", Json.JStr "Ann")].

Definition profile_b : Json.t :=
  Json.JObj [("id", Json.JStr "p2"); ("name", Json.JStr "Ben")].

Definition profile_b' : Json.t :=
  Json.JObj [("id", Json.JStr "p2"); ("name", Json.JStr "Benedict")].

(** A profile without an id. *)
Definition profile_anon : Json.t :=
  Json.JObj [("name", Json.JStr "Nobody")].

Definition document : Json.t :=
  Json.JObj [("version", Json.JNum (of_Z 1));
             ("activeProfileId", Json.JStr "p2");
             ("profiles", Json.JArr [profile_a; profile_b; profile_b'])].

Definition broken_document : Json.t :=
  Json.JObj [("version", Json.JNum (of_Z 1));
             ("activeProfileId", Json.JStr "p2");
             ("profiles", Json.JArr [profile_a; profile_anon; profile_b])].

(** A host whose parser yields a given document and whose transaction
    settles as given. *)
Definition storage_env (doc : Json.t) (outcome : Completion unit) : StorageEnv :=
  {| JSON_parse := fun _ => Normal doc;
     initDB := Normal tt;
     transaction_outcome := outcome |}.

Definition QuotaExceeded : Exn :=
  {| exn_name := "QuotaExceededError"; exn_message := "The quota has been exceeded." |}.

End Samples.

(** * Properties *)

(** ** The key normalizer *)

Section NormalizeKey.

Lemma key_char_not_upper c : is_key_char c = true -> is_upper c = false.
Proof.
  unfold is_key_char, is_lower, is_digit, is_upper.
  destruct (Z.leb_spec 65 (code c)), (Z.leb_spec (code c) 90); simpl; auto.
  destruct (Z.leb_spec 97 (code c)), (Z.leb_spec 48 (code c)),
    (Z.leb_spec (code c) 57); simpl; try discriminate; lia.
Qed.

Lemma lower_char_key_char c : is_key_char c = true -> lower_char c = c.
Proof.
  intros H. unfold lower_char. now rewrite (key_char_not_upper c H).
Qed.

Lemma filter_string_forall p s : forall_string p (filter_string p s) = true.
Proof.
  induction s as [|c r IH]; simpl; auto.
  destruct (p c) eqn:E; simpl; auto. now rewrite E.
Qed.

Lemma filter_string_id p s : forall_string p s = true -> filter_string p s = s.
Proof.
  induction s as [|c r IH]; simpl; auto.
  intros H. apply andb_true_iff in H as [Hc Hr]. rewrite Hc. f_equal. auto.
Qed.

Lemma toLowerCase_key_chars s :
  forall_string is_key_char s = true -> toLowerCase s = s.
Proof.
  induction s as [|c r IH]; simpl; auto.
  intros H. apply andb_true_iff in H as [Hc Hr].
  unfold toLowerCase in *. simpl. rewrite (lower_char_key_char c Hc). f_equal. auto.
Qed.

(** [String(s || '')] is [s] itself for a string. *)
Lemma ToString_or_empty s : ToString (js_or (VStr s) (VStr EmptyString)) = s.
Proof. destruct s; reflexivity. Qed.

Lemma normalizeKey_VStr s :
  normalizeKey (VStr s) = filter_string is_key_char (toLowerCase s).
Proof. unfold normalizeKey. now rewrite ToString_or_empty. Qed.

Lemma normalizeKey_key_chars v : forall_string is_key_char (normalizeKey v) = true.
Proof. apply filter_string_forall. Qed.

Lemma normalizeKey_fixes_keys s :
  forall_string is_key_char s = true -> normalizeKey (VStr s) = s.
Proof.
  intros H. rewrite normalizeKey_VStr, (toLowerCase_key_chars s H).
  now apply filter_string_id.
Qed.

Lemma is_key_char_spec c :
  is_key_char c = true <->
  (97 <= code c <= 122) \/ (48 <= code c <= 57).
Proof.
  unfold is_key_char, is_lower, is_digit.
  rewrite orb_true_iff, !andb_true_iff, !Z.leb_le. tauto.
Qed.

(** Idempotence needs of the case mapping only that it leaves lower-case
    letters and digits alone, as the full Unicode mapping does too. *)
Lemma normalizeKey_with_idempotent (lower : string -> string) :
  (forall s, forall_string is_key_char s = true -> lower s = s) ->
  forall v : JsValue,
    normalizeKey_with lower (VStr (normalizeKey_with lower v)) = normalizeKey_with lower v.
Proof.
  intros Hl v. unfold normalizeKey_with at 1. rewrite ToString_or_empty.
  rewrite Hl by apply filter_string_forall.
  apply filter_string_id, filter_string_forall.
Qed.

(** C9. The key normalizer lower-cases its input and keeps exactly the
    characters of [a-z0-9]: its result is the lower-cased text filtered to
    those characters, every character of the result is a lower-case letter
    or a digit, and a text made of such characters is left as it is.  It is
    idempotent: normalizing a normalized key changes nothing.  It is defined
    on every value; the empty text, [undefined] and [null] give the empty
    key. *)
Theorem normalizeKey_idempotent :
  (forall v : JsValue, normalizeKey (VStr (normalizeKey v)) = normalizeKey v) /\
  (forall s : string,
      normalizeKey (VStr s) = filter_string is_key_char (toLowerCase s)) /\
  (forall (v : JsValue) (c : ascii),
      In c (list_ascii_of_string (normalizeKey v)) ->
      (97 <= code c <= 122) \/ (48 <= code c <= 57)) /\
  normalizeKey (VStr EmptyString) = EmptyString /\
  normalizeKey VUndefined = EmptyString /\
  normalizeKey VNull = EmptyString.
Proof.
  split; [|split; [|split; [|repeat split]]].
  - intros v. apply normalizeKey_fixes_keys, normalizeKey_key_chars.
  - apply normalizeKey_VStr.
  - intros v c. generalize (normalizeKey_key_chars v).
    induction (normalizeKey v) as [|a r IH]; simpl; [tauto|].
    intros H [->|Hin]; apply andb_true_iff in H as [Ha Hr].
    + now apply is_key_char_spec.
    + auto.
Qed.

(** A concrete run of C9 on the header [Merchant ID]. *)
Lemma normalizeKey_idempotent_witness :
  normalizeKey (VStr (normalizeKey (VStr "Merchant ID"))) = normalizeKey (VStr "Merchant ID") /\
  (97 <= code "m" <= 122 \/ 48 <= code "m" <= 57).
Proof.
  destruct normalizeKey_idempotent as (H1 & _ & H3 & _).
  split.
  - apply H1.
  - apply (H3 (VStr "Merchant ID")). vm_compute. left. reflexivity.
Defined.

End NormalizeKey.

(** ** Currency and date normalization *)

Section Normalization.

(** C5. Currency normalization turns [1200.5] (as text or as a number) into
    [1,200.50], leaves [1,200.50] as it is, and gives back the text of any
    input, other than [null] and [undefined], whose cleaned numeric part
    (the characters among digits, dot and minus) does not parse as a
    number; for a string that text is the input itself. *)
Theorem formatCurrency_spec :
  formatCurrency (VStr "1200.5") = "1,200.50" /\
  formatCurrency (VNum (Number_of_string "1200.5")) = "1,200.50" /\
  formatCurrency (VStr "1,200.50") = "1,200.50" /\
  (forall val : JsValue,
      is_nullish val = false ->
      isNaN (parseFloat (filter_string is_currency_char (ToString val))) = true ->
      formatCurrency val = ToString val) /\
  (forall s : string,
      isNaN (parseFloat (filter_string is_currency_char s)) = true ->
      formatCurrency (VStr s) = s).
Proof.
  assert (G : forall val : JsValue,
             is_nullish val = false ->
             isNaN (parseFloat (filter_string is_currency_char (ToString val))) = true ->
             formatCurrency val = ToString val).
  { intros val Hn H. unfold formatCurrency.
    destruct val as [| |b|x|s]; try discriminate.
    - rewrite H. now destruct (_ && _).
    - rewrite H. now destruct (_ && _).
    - destruct s as [|c r]; [reflexivity|].
      rewrite H. now destruct (_ && _). }
  split; [vm_compute; reflexivity|].
  split; [vm_compute; reflexivity|].
  split; [vm_compute; reflexivity|].
  split; [exact G|].
  intros s H. now apply (G (VStr s)).
Qed.

(** A concrete run of C5: the text [N/A] has no numeric part and is given
    back as it is. *)
Lemma formatCurrency_spec_witness : formatCurrency (VStr "N/A") = "N/A".
Proof.
  destruct formatCurrency_spec as (_ & _ & _ & _ & H).
  apply (H "N/A"). vm_compute. reflexivity.
Defined.

Lemma le_not_gt x y : le x y = true -> gt x y = false.
Proof.
  unfold le, gt. intros H. apply andb_true_iff in H as [_ H].
  now apply negb_true_iff in H.
Qed.

Lemma le_not_lt x y : le y x = true -> lt x y = false.
Proof.
  unfold le. intros H. apply andb_true_iff in H as [_ H].
  now apply negb_true_iff in H.
Qed.

(** Outside the serial-number branch the function is its textual part. *)
Lemma parseExcelDate_not_serial tz value s :
  is_nullish value = false ->
  trim (ToString value) = s ->
  negb (isNaN (Number_of_string s)) && gt (Number_of_string s) (of_Z 30000)
    && lt (Number_of_string s) (of_Z 60000) = false ->
  parseExcelDate tz value =
  match s with EmptyString => EmptyString | _ => parseExcelDate_text tz s end.
Proof.
  intros Hn Hs Hg. unfold parseExcelDate. rewrite Hn, Hs.
  destruct s; [reflexivity|]. now rewrite Hg.
Qed.

(** Inside the serial-number branch the result is the local date of the
    time value built from the serial. *)
Lemma parseExcelDate_serial tz value s t :
  is_nullish value = false ->
  trim (ToString value) = s ->
  s <> EmptyString ->
  negb (isNaN (Number_of_string s)) && gt (Number_of_string s) (of_Z 30000)
    && lt (Number_of_string s) (of_Z 60000) = true ->
  Date_of_number (serial_time (Number_of_string s)) = Some t ->
  parseExcelDate tz value = format_mdy tz t.
Proof.
  intros Hn Hs Hne Hg Ht. unfold parseExcelDate. rewrite Hn, Hs.
  destruct s; [congruence|]. now rewrite Hg, Ht.
Qed.

(** C10. The serial-number conversion applies only to numbers strictly
    between 30000 and 60000.  Let [s] be the trimmed text of the input; when
    [s] reads as a number that is at most 30000 or at least 60000 and
    matches neither textual date shape, the result is [s], not a converted
    date; so a numeric string without surrounding white space comes back
    unchanged.  The function is total: it yields a text for every value in
    every time zone, the empty one for [null], [undefined] and blank
    input. *)
Theorem parseExcelDate_out_of_range :
  (forall (tz : Z) (value : JsValue) (s : string),
      is_nullish value = false ->
      trim (ToString value) = s ->
      le (Number_of_string s) (of_Z 30000) = true \/
      le (of_Z 60000) (Number_of_string s) = true ->
      Regex.test Regex.iso_date s = false ->
      Regex.test Regex.month_slash_date s = false ->
      parseExcelDate tz value = s) /\
  (forall (tz : Z) (s : string),
      trim s = s ->
      le (Number_of_string s) (of_Z 30000) = true \/
      le (of_Z 60000) (Number_of_string s) = true ->
      Regex.test Regex.iso_date s = false ->
      Regex.test Regex.month_slash_date s = false ->
      parseExcelDate tz (VStr s) = s) /\
  (forall tz : Z,
      parseExcelDate tz VNull = EmptyString /\
      parseExcelDate tz VUndefined = EmptyString /\
      parseExcelDate tz (VStr "   ") = EmptyString).
Proof.
  assert (G : forall (tz : Z) (value : JsValue) (s : string),
             is_nullish value = false ->
             trim (ToString value) = s ->
             le (Number_of_string s) (of_Z 30000) = true \/
             le (of_Z 60000) (Number_of_string s) = true ->
             Regex.test Regex.iso_date s = false ->
             Regex.test Regex.month_slash_date s = false ->
             parseExcelDate tz value = s).
  { intros tz value s Hn Hs Hr Hiso Hmon.
    rewrite (parseExcelDate_not_serial tz value s Hn Hs).
    - destruct s; [reflexivity|].
      unfold parseExcelDate_text. now rewrite Hiso, Hmon.
    - destruct Hr as [H|H].
      + rewrite (le_not_gt _ _ H). now rewrite andb_false_r.
      + rewrite (le_not_lt _ _ H). now rewrite andb_false_r. }
  split; [exact G|split].
  - intros tz s Hs. now apply G.
  - intros tz. split; [reflexivity|split; reflexivity].
Qed.

(** Concrete runs of C10: 30000 and 60000 themselves are not converted. *)
Lemma parseExcelDate_out_of_range_witness :
  parseExcelDate 0 (VStr "30000") = "30000" /\
  parseExcelDate 0 (VStr "60000") = "60000".
Proof.
  destruct parseExcelDate_out_of_range as (_ & H & _).
  split.
  - apply H; [reflexivity|left; vm_compute; reflexivity|reflexivity|reflexivity].
  - apply H; [reflexivity|right; vm_compute; reflexivity|reflexivity|reflexivity].
Defined.

End Normalization.

Section LocalDates.

(** The getters read back the fields of the local date. *)
Lemma format_mdy_local tz t : format_mdy tz t = mdy_of_civil (local_fields tz t).
Proof.
  unfold format_mdy, getFullYear, getMonth, getDate.
  destruct (local_fields tz t) as [[y m] d]. simpl.
  now replace (m - 1 + 1) with m by lia.
Qed.

(** Noon UTC falls on the same calendar day in every zone less than twelve
    hours away from UTC. *)
Lemma local_fields_noon tz d :
  -43200000 <= tz < 43200000 ->
  local_fields tz (d * msPerDay + 43200000) = civil_from_days d.
Proof.
  intros H. unfold local_fields, msPerDay. f_equal.
  Z.div_mod_to_equations. lia.
Qed.

(** Local midnight is read back as the day it was built from. *)
Lemma local_fields_midnight tz d :
  local_fields tz (d * msPerDay - tz) = civil_from_days d.
Proof.
  unfold local_fields, msPerDay. f_equal.
  replace (d * 86400000 - tz + tz) with (d * 86400000) by lia.
  now rewrite Z.div_mul.
Qed.

End LocalDates.

(** ** Exact arithmetic on integral doubles *)

Section IntegralDoubles.

Lemma Qred_inject_Z z : Qred (inject_Z z) = inject_Z z.
Proof.
  apply Qred_identity. unfold inject_Z. simpl. apply Z.gcd_1_r.
Qed.

Lemma rne_div_1 x : rne_div x 1 = x.
Proof.
  unfold rne_div. rewrite Z.mod_1_r, Z.div_1_r. reflexivity.
Qed.

Lemma floor_log2_integer a : floor_log2 a 1 = Z.log2 (Zpos a).
Proof.
  unfold floor_log2. change (Z.log2 1) with 0. rewrite Z.sub_0_r.
  pose proof (Z.log2_nonneg (Zpos a)) as Hnn.
  destruct (Z.leb_spec 0 (Z.log2 (Zpos a))); [|lia].
  pose proof (Z.log2_spec (Zpos a) eq_refl) as [Hlo _].
  rewrite Z.mul_1_l. destruct (Z.leb_spec (2 ^ Z.log2 (Zpos a)) (Zpos a)); [reflexivity|lia].
Qed.

Lemma dyadic_scaled a j :
  0 <= j -> dyadic (a * 2 ^ j) (- j) = inject_Z a.
Proof.
  intros Hj. unfold dyadic.
  destruct (Z.leb_spec 0 (- j)).
  - assert (j = 0) by lia. subst j. simpl. now rewrite Z.mul_1_r, Z.mul_1_r.
  - rewrite Z.opp_involutive. rewrite <- Qred_inject_Z. apply Qred_complete.
    unfold Qeq, inject_Z. simpl.
    assert (0 < 2 ^ j) by (apply Z.pow_pos_nonneg; lia).
    rewrite Z2Pos.id by assumption. lia.
Qed.

(** A positive integer below [2 ^ 53] is a double. *)
Lemma round_double_integer z :
  0 < z < 2 ^ 53 -> round_double (inject_Z z) = Fin (inject_Z z).
Proof.
  intros [Hpos Hlt]. destruct z as [|a|a]; try lia.
  unfold round_double, inject_Z. simpl Qnum. simpl Qden.
  unfold round_mag. rewrite floor_log2_integer.
  assert (He : 0 <= Z.log2 (Zpos a) < 53).
  { split; [apply Z.log2_nonneg|]. apply Z.log2_lt_pow2; lia. }
  set (e := Z.log2 (Zpos a)) in *.
  rewrite Z.max_l by lia.
  assert (Ek : e - 52 = - (52 - e)) by lia. rewrite Ek. clear Ek.
  set (j := 52 - e). assert (Hj : 0 <= j) by lia.
  assert (Hm : (if 0 <=? - j then rne_div (Zpos a) (1 * 2 ^ (- j))
                else rne_div (Zpos a * 2 ^ (- - j)) 1) = Zpos a * 2 ^ j).
  { destruct (Z.leb_spec 0 (- j)).
    - assert (j0 : j = 0) by lia. rewrite j0.
      change (- 0) with 0. change (2 ^ 0) with 1.
      now rewrite !Z.mul_1_r, rne_div_1.
    - now rewrite Z.opp_involutive, rne_div_1. }
  cbv zeta. rewrite Hm.
  destruct (Z.leb_spec 971 (- j)); [lia|].
  now rewrite dyadic_scaled by assumption.
Qed.

Lemma of_Z_integer z : 0 < z < 2 ^ 53 -> of_Z z = Fin (inject_Z z).
Proof. apply round_double_integer. Qed.

Lemma add_integers a b :
  0 < a + b < 2 ^ 53 ->
  add (Fin (inject_Z a)) (Fin (inject_Z b)) = Fin (inject_Z (a + b)).
Proof.
  intros H. unfold add.
  replace (Qred (inject_Z a + inject_Z b)) with (inject_Z (a + b)).
  - now apply round_double_integer.
  - rewrite <- Qred_inject_Z. apply Qred_complete.
    unfold Qeq, inject_Z, Qplus. simpl. lia.
Qed.

Lemma sub_integers a b :
  0 < b -> 0 < a - b < 2 ^ 53 ->
  sub (Fin (inject_Z a)) (Fin (inject_Z b)) = Fin (inject_Z (a - b)).
Proof.
  intros Hb H. unfold sub, neg, is_zeroQ.
  destruct b as [|pb|pb]; try lia. simpl Qnum.
  change (Qopp (inject_Z (Zpos pb))) with (inject_Z (Zneg pb)).
  change (Zpos pb =? 0) with false. cbv iota.
  rewrite add_integers; [f_equal|]; lia.
Qed.

Lemma mul_integers a b :
  0 < a -> 0 < b -> a * b < 2 ^ 53 ->
  mul (Fin (inject_Z a)) (Fin (inject_Z b)) = Fin (inject_Z (a * b)).
Proof.
  intros Ha Hb H. unfold mul. simpl finite_value. unfold is_zeroQ. simpl Qnum.
  destruct (Z.eqb_spec a 0); [lia|]. destruct (Z.eqb_spec b 0); [lia|].
  simpl orb. cbv iota.
  replace (Qred (inject_Z a * inject_Z b)) with (inject_Z (a * b)).
  - apply round_double_integer. lia.
  - rewrite <- Qred_inject_Z. apply Qred_complete.
    unfold Qeq, inject_Z, Qmult. simpl. lia.
Qed.

Lemma Math_round_integer z :
  0 < z -> Math_round (Fin (inject_Z z)) = Fin (inject_Z z).
Proof.
  intros H. unfold Math_round.
  assert (F : Qfloor (inject_Z z + (1 # 2)) = z).
  { unfold Qfloor, Qplus, inject_Z. simpl. Z.div_mod_to_equations. lia. }
  rewrite F. destruct (Z.eqb_spec z 0); [lia|reflexivity].
Qed.

(** On an integral serial in the accepted range the time value is noon UTC
    of the day that many days after 1899-12-30. *)
Lemma serial_time_integer n :
  30000 < n < 60000 ->
  serial_time (Fin (inject_Z n)) =
  Fin (inject_Z ((days_from_civil 1899 12 30 + n) * msPerDay + 43200000)).
Proof.
  intros H. unfold serial_time.
  rewrite (of_Z_integer 25569), (of_Z_integer 86400), (of_Z_integer 1000),
    (of_Z_integer 43200000) by (split; [lia|reflexivity]).
  assert (P53 : 2 ^ 53 = 9007199254740992) by reflexivity.
  rewrite sub_integers by lia.
  rewrite mul_integers by lia.
  rewrite mul_integers by lia.
  rewrite Math_round_integer by lia.
  rewrite add_integers by lia.
  change (days_from_civil 1899 12 30) with (-25569). unfold msPerDay.
  do 2 f_equal. lia.
Qed.

Lemma lt_integers a b : lt (Fin (inject_Z a)) (Fin (inject_Z b)) = (a <? b).
Proof.
  unfold lt, finite_value, Qcompare, inject_Z. cbn [Qnum Qden].
  rewrite !Z.mul_1_r. unfold Z.ltb. now destruct (a ?= b).
Qed.

Lemma serial_guard_integer n :
  30000 < n < 60000 ->
  negb (isNaN (Fin (inject_Z n))) && gt (Fin (inject_Z n)) (of_Z 30000)
    && lt (Fin (inject_Z n)) (of_Z 60000) = true.
Proof.
  intros H.
  rewrite (of_Z_integer 30000), (of_Z_integer 60000) by (split; [lia|reflexivity]).
  unfold gt. rewrite !lt_integers. cbn [isNaN negb andb].
  destruct (Z.ltb_spec 30000 n); [|lia].
  destruct (Z.ltb_spec n 60000); [reflexivity|lia].
Qed.

Lemma Date_of_integer t :
  0 <= t <= 8640000000000000 -> Date_of_number (Fin (inject_Z t)) = Some t.
Proof.
  intros H. unfold Date_of_number, TimeClip. cbn [finite_value].
  change (Qnum (inject_Z t)) with t.
  destruct (Z.ltb_spec t 0); [lia|]. rewrite Qfloor_Z.
  destruct (Z.leb_spec (Z.abs t) 8640000000000000); [reflexivity|lia].
Qed.

End IntegralDoubles.

Section SerialDates.

(** A text that reads as an integral serial strictly between 30000 and
    60000 is converted to the local date of noon UTC of its day. *)
Lemma parseExcelDate_integral_serial tz value s n :
  is_nullish value = false ->
  trim (ToString value) = s ->
  Number_of_string s = Fin (inject_Z n) ->
  30000 < n < 60000 ->
  parseExcelDate tz value =
  format_mdy tz ((days_from_civil 1899 12 30 + n) * msPerDay + 43200000).
Proof.
  intros Hn Hs Hnum H.
  apply (parseExcelDate_serial tz value s); auto.
  - intros ->. change (Number_of_string EmptyString) with (Fin (inject_Z 0)) in Hnum.
    injection Hnum. lia.
  - rewrite Hnum. now apply serial_guard_integer.
  - rewrite Hnum, serial_time_integer by assumption.
    apply Date_of_integer. change (days_from_civil 1899 12 30) with (-25569).
    unfold msPerDay. lia.
Qed.

(** C4. Date normalization.  The serial number 45000, as text or as a
    number, yields a valid text of shape [MM/DD/YYYY] in every time zone at
    most a day away from UTC, and [03/15/2023] in the zones less than
    twelve hours away; [2024-03-05] yields [03/05/2024]; [Mar/5/2024] yields
    [03/05/2024] in every such zone.  A serial number counts days from
    1899-12-30, which lies
    25569 days before 1970-01-01, and twelve hours are added: every input
    whose trimmed text reads as an integer strictly between 30000 and 60000
    is converted to the local date of noon UTC of the day that many days
    after 1899-12-30; in the zones less than twelve hours from UTC this is
    that very day. *)
Theorem parseExcelDate_normalizes :
  (forall tz : Z,
      -86400000 <= tz <= 86400000 ->
      valid_mdy (parseExcelDate tz (VStr "45000")) = true /\
      valid_mdy (parseExcelDate tz (VNum (of_Z 45000))) = true) /\
  (forall tz : Z,
      -43200000 <= tz < 43200000 ->
      parseExcelDate tz (VStr "45000") = "03/15/2023") /\
  (forall tz : Z, parseExcelDate tz (VStr "2024-03-05") = "03/05/2024") /\
  (forall tz : Z,
      -86400000 <= tz <= 86400000 ->
      parseExcelDate tz (VStr "Mar/5/2024") = "03/05/2024") /\
  days_from_civil 1899 12 30 = -25569 /\
  (forall (tz : Z) (value : JsValue) (s : string) (n : Z),
      is_nullish value = false ->
      trim (ToString value) = s ->
      Number_of_string s = Fin (inject_Z n) ->
      30000 < n < 60000 ->
      parseExcelDate tz value =
      format_mdy tz ((days_from_civil 1899 12 30 + n) * msPerDay + 43200000)) /\
  (forall (tz : Z) (value : JsValue) (s : string) (n : Z),
      is_nullish value = false ->
      trim (ToString value) = s ->
      Number_of_string s = Fin (inject_Z n) ->
      30000 < n < 60000 ->
      -43200000 <= tz < 43200000 ->
      parseExcelDate tz value =
      mdy_of_civil (civil_from_days (days_from_civil 1899 12 30 + n))).
Proof.
  assert (S45 : forall tz v, is_nullish v = false -> trim (ToString v) = "45000" ->
                  parseExcelDate tz v = format_mdy tz (19431 * msPerDay + 43200000)).
  { intros tz v Hn Hs.
    apply (parseExcelDate_integral_serial tz v "45000" 45000); auto. lia. }
  split; [|split; [|split; [|split; [|split; [|split]]]]].
  - intros tz Htz.
    assert (V : valid_mdy (format_mdy tz (19431 * msPerDay + 43200000)) = true).
    { rewrite format_mdy_local. unfold local_fields, msPerDay.
      assert (D : (19431 * 86400000 + 43200000 + tz) / 86400000 = 19430 \/
                  (19431 * 86400000 + 43200000 + tz) / 86400000 = 19431 \/
                  (19431 * 86400000 + 43200000 + tz) / 86400000 = 19432)
        by (Z.div_mod_to_equations; lia).
      destruct D as [-> | [-> | ->]]; vm_compute; reflexivity. }
    split.
    + rewrite (S45 tz (VStr "45000")) by reflexivity. exact V.
    + rewrite (S45 tz (VNum (of_Z 45000))) by reflexivity. exact V.
  - intros tz Htz. rewrite (S45 tz (VStr "45000")); auto.
    rewrite format_mdy_local, local_fields_noon; auto.
  - intros tz.
    rewrite (parseExcelDate_not_serial tz (VStr "2024-03-05") "2024-03-05");
      auto.
  - intros tz Htz.
    rewrite (parseExcelDate_not_serial tz (VStr "Mar/5/2024") "Mar/5/2024");
      auto.
    change (parseExcelDate_text tz "Mar/5/2024")
      with (match TimeClip (19787 * msPerDay - tz) with
            | Some t => format_mdy tz t
            | None => "Mar/5/2024"
            end).
    unfold TimeClip, msPerDay.
    destruct (Z.leb_spec (Z.abs (19787 * 86400000 - tz)) 8640000000000000); [|lia].
    change 86400000 with msPerDay.
    rewrite format_mdy_local, local_fields_midnight. reflexivity.
  - reflexivity.
  - intros tz value s n. apply parseExcelDate_integral_serial.
  - intros tz value s n Hn Hs Hnum H Htz.
    rewrite (parseExcelDate_integral_serial tz value s n) by assumption.
    now rewrite format_mdy_local, local_fields_noon.
Qed.

(** Concrete runs of C4 in the zone UTC+05:30. *)
Lemma parseExcelDate_normalizes_witness :
  valid_mdy (parseExcelDate 19800000 (VStr "45000")) = true /\
  parseExcelDate 19800000 (VStr "45000") = "03/15/2023" /\
  parseExcelDate 19800000 (VStr "Mar/5/2024") = "03/05/2024" /\
  parseExcelDate 19800000 (VStr " 44927.0 ") = "01/01/2023".
Proof.
  destruct parseExcelDate_normalizes as (H1 & H2 & _ & H4 & _ & _ & H7).
  split; [|split; [|split]].
  - apply (H1 19800000). lia.
  - apply (H2 19800000). lia.
  - apply (H4 19800000). lia.
  - apply (H7 19800000 (VStr " 44927.0 ") "44927.0" 44927); try reflexivity; lia.
Defined.

End SerialDates.

(** ** Objects *)

Section ObjectLemmas.
Context {V : Type}.
Implicit Types (o : JsObject.Obj V) (k : string) (v : V).

Lemma lookup_replace_eq o k v :
  JsObject.lookup o k <> None -> JsObject.lookup (JsObject.replace o k v) k = Some v.
Proof.
  induction o as [|[k' v'] r IH]; simpl; [congruence|].
  destruct (String.eqb_spec k' k) as [->|Hne]; simpl.
  - now rewrite String.eqb_refl.
  - intros H. destruct (String.eqb_spec k' k); [congruence|auto].
Qed.

Lemma lookup_replace_ne o k k' v :
  k <> k' -> JsObject.lookup (JsObject.replace o k v) k' = JsObject.lookup o k'.
Proof.
  intros Hne. induction o as [|[k0 v0] r IH]; simpl; [reflexivity|].
  destruct (String.eqb_spec k0 k) as [->|H0]; simpl.
  - destruct (String.eqb_spec k k'); [congruence|reflexivity].
  - now rewrite IH.
Qed.

Lemma lookup_add_key_eq o k v :
  JsObject.lookup o k = None -> JsObject.lookup (JsObject.add_key o k v) k = Some v.
Proof.
  induction o as [|[k' v'] r IH]; simpl.
  - now rewrite String.eqb_refl.
  - destruct (String.eqb_spec k' k) as [->|Hne]; [discriminate|]. intros H.
    destruct (JsObject.array_index k), (JsObject.array_index k'); simpl;
      try destruct (_ <? _); simpl; rewrite ?String.eqb_refl; auto;
      destruct (String.eqb_spec k' k); try congruence; auto.
Qed.

Lemma lookup_add_key_ne o k k' v :
  k <> k' -> JsObject.lookup (JsObject.add_key o k v) k' = JsObject.lookup o k'.
Proof.
  intros Hne. induction o as [|[k0 v0] r IH]; simpl.
  - destruct (String.eqb_spec k k'); [congruence|reflexivity].
  - destruct (JsObject.array_index k), (JsObject.array_index k0); simpl;
      try destruct (_ <? _); simpl; rewrite ?IH;
      destruct (String.eqb_spec k k'); try congruence; auto.
Qed.

(** Reading back the key just written. *)
Lemma lookup_set_eq o k v : JsObject.lookup (JsObject.set o k v) k = Some v.
Proof.
  unfold JsObject.set. destruct (JsObject.lookup o k) eqn:E.
  - apply lookup_replace_eq. congruence.
  - now apply lookup_add_key_eq.
Qed.

(** Writing a key leaves the others as they were. *)
Lemma lookup_set_ne o k k' v :
  k <> k' -> JsObject.lookup (JsObject.set o k v) k' = JsObject.lookup o k'.
Proof.
  intros Hne. unfold JsObject.set. destruct (JsObject.lookup o k).
  - now apply lookup_replace_ne.
  - now apply lookup_add_key_ne.
Qed.

End ObjectLemmas.

(** ** Searching the loaded tables *)

Section Search.

#[local] Arguments Nat.leb : simpl never.

Variable dbConfigs : gmap string DbConfig.t.
Variable searchKey : string.
Variable ty : SearchType.

Lemma source_of_with_source row file : source_of (with_source row file) = VStr file.
Proof. unfold source_of, with_source, prop. now rewrite lookup_set_eq. Qed.

Lemma push_matches_full file matches results :
  (20 <= length results)%nat -> push_matches file matches results = results.
Proof.
  intros H. destruct matches; simpl; [reflexivity|].
  destruct (Nat.leb_spec 20 (length results)); [reflexivity|lia].
Qed.

Lemma push_matches_length file matches results :
  (length results <= 20)%nat ->
  (length (push_matches file matches results) <= 20)%nat.
Proof.
  revert results. induction matches as [|m rest IH]; intros results H; simpl; auto.
  destruct (Nat.leb_spec 20 (length results)); auto.
  apply IH. rewrite List.length_app. simpl. lia.
Qed.

(** The inner loop only appends, and what it appends is tagged with the
    table's file name. *)
Lemma push_matches_extends file matches results :
  exists extra,
    push_matches file matches results = results ++ extra /\
    Forall (fun r => source_of r = VStr file) extra.
Proof.
  revert results. induction matches as [|m rest IH]; intros results; simpl.
  - exists []. now rewrite app_nil_r.
  - destruct (20 <=? length results)%nat.
    + exists []. now rewrite app_nil_r.
    + destruct (IH (results ++ [with_source m file])) as (extra & E & F).
      exists (with_source m file :: extra). split.
      * now rewrite E, <- app_assoc.
      * constructor; [apply source_of_with_source|assumption].
Qed.

Lemma search_tables_full dbs results :
  (20 <= length results)%nat ->
  search_tables dbConfigs searchKey ty dbs results = results.
Proof.
  intros H. destruct dbs; simpl; [reflexivity|].
  destruct (Nat.leb_spec 20 (length results)); [reflexivity|lia].
Qed.

Lemma search_tables_length dbs results :
  (length results <= 20)%nat ->
  (length (search_tables dbConfigs searchKey ty dbs results) <= 20)%nat.
Proof.
  revert results. induction dbs as [|db rest IH]; intros results H; simpl; auto.
  destruct (20 <=? length results)%nat; auto.
  destruct (dbConfigs !! fileName db) as [config|]; auto.
  destruct (match ty with ByMid => _ | ByName => _ end); auto.
  apply IH. now apply push_matches_length.
Qed.

(** Scanning a list of tables and then another is scanning their
    concatenation. *)
Lemma search_tables_app dbs1 dbs2 results :
  search_tables dbConfigs searchKey ty (dbs1 ++ dbs2) results =
  search_tables dbConfigs searchKey ty dbs2
    (search_tables dbConfigs searchKey ty dbs1 results).
Proof.
  revert results. induction dbs1 as [|db rest IH]; intros results; simpl; auto.
  destruct (Nat.leb_spec 20 (length results)).
  - now rewrite search_tables_full.
  - destruct (dbConfigs !! fileName db) as [config|]; auto.
    destruct (match ty with ByMid => _ | ByName => _ end); auto.
Qed.

(** The outer loop only appends, and every appended record is tagged with
    the file name of one of the scanned tables. *)
Lemma search_tables_extends dbs results :
  exists extra,
    search_tables dbConfigs searchKey ty dbs results = results ++ extra /\
    Forall (fun r => exists db, In db dbs /\ source_of r = VStr (fileName db)) extra.
Proof.
  revert results. induction dbs as [|db rest IH]; intros results; simpl.
  - exists []. now rewrite app_nil_r.
  - assert (Skip :
      exists extra,
        search_tables dbConfigs searchKey ty rest results = results ++ extra /\
        Forall (fun r => exists db0, (db = db0 \/ In db0 rest) /\
                                     source_of r = VStr (fileName db0)) extra).
    { destruct (IH results) as (extra & E & F). exists extra. split; auto.
      eapply List.Forall_impl; [|exact F]. intros r (db0 & Hin & Hs). eauto. }
    destruct (20 <=? length results)%nat.
    { exists []. now rewrite app_nil_r. }
    destruct (dbConfigs !! fileName db) as [config|]; auto.
    destruct (match ty with ByMid => _ | ByName => _ end) as [|c col]; auto.
    match goal with
    | |- context [push_matches (fileName db) ?ms results] =>
        destruct (push_matches_extends (fileName db) ms results) as (e1 & E1 & F1);
        rewrite E1
    end.
    destruct (IH (results ++ e1)) as (e2 & E2 & F2).
    exists (e1 ++ e2). split.
    + now rewrite E2, <- app_assoc.
    + apply List.Forall_app. split.
      * eapply List.Forall_impl; [|exact F1]. intros r Hr. exists db. auto.
      * eapply List.Forall_impl; [|exact F2]. intros r (db0 & Hin & Hs). eauto.
Qed.

End Search.

Lemma searchRecords_unfold db dbs dbConfigs query ty :
  trim query <> EmptyString ->
  searchRecords (db :: dbs) dbConfigs query ty =
  search_tables dbConfigs (normalizeKey (VStr query)) ty
                (List.filter is_hold_database (db :: dbs)) [].
Proof.
  intros H. unfold searchRecords. destruct (trim query); [congruence|reflexivity].
Qed.

Lemma searchRecords_blank dbs dbConfigs query ty :
  trim query = EmptyString -> searchRecords dbs dbConfigs query ty = [].
Proof.
  intros H. unfold searchRecords. rewrite H. now destruct dbs.
Qed.

(** C6. Every record the search returns is tagged with the file name of a
    loaded table whose lower-cased name contains [hold].  With the tables
    [Hold_Jan.xlsx] and [RM_Master.xlsx] loaded, whatever they hold, no
    returned record is sourced from [RM_Master.xlsx]. *)
Theorem searchRecords_only_hold_tables :
  (forall (databases : list ParsedDatabase) (dbConfigs : gmap string DbConfig.t)
          (query : string) (ty : SearchType) (r : MerchantRecord),
      In r (searchRecords databases dbConfigs query ty) ->
      exists db,
        In db databases /\
        source_of r = VStr (fileName db) /\
        includes (toLowerCase (fileName db)) "hold" = true) /\
  (forall (d1 d2 : ParsedDatabase) (dbConfigs : gmap string DbConfig.t)
          (query : string) (ty : SearchType) (r : MerchantRecord),
      fileName d1 = "Hold_Jan.xlsx" ->
      fileName d2 = "RM_Master.xlsx" ->
      In r (searchRecords [d1; d2] dbConfigs query ty) ->
      source_of r = VStr "Hold_Jan.xlsx" /\ source_of r <> VStr "RM_Master.xlsx").
Proof.
  assert (G : forall databases dbConfigs query ty r,
             In r (searchRecords databases dbConfigs query ty) ->
             exists db,
               In db databases /\
               source_of r = VStr (fileName db) /\
               includes (toLowerCase (fileName db)) "hold" = true).
  { intros databases dbConfigs query ty r Hin.
    destruct (string_dec (trim query) EmptyString) as [Hq|Hq].
    { rewrite searchRecords_blank in Hin by assumption. destruct Hin. }
    destruct databases as [|db dbs]; [destruct Hin|].
    rewrite searchRecords_unfold in Hin by assumption.
    destruct (search_tables_extends dbConfigs (normalizeKey (VStr query)) ty
                (List.filter is_hold_database (db :: dbs)) []) as (extra & E & F).
    rewrite E in Hin. simpl in Hin.
    rewrite List.Forall_forall in F. destruct (F r Hin) as (db0 & Hdb & Hs).
    apply List.filter_In in Hdb as [Hdb Hhold].
    exists db0. auto. }
  split; [exact G|].
  intros d1 d2 dbConfigs query ty r H1 H2 Hin.
  destruct (G _ _ _ _ _ Hin) as (db & Hdb & Hs & Hhold).
  destruct Hdb as [<-|[<-|[]]].
  - rewrite Hs, H1. split; [reflexivity|discriminate].
  - rewrite H2 in Hhold. vm_compute in Hhold. discriminate.
Qed.

(** A concrete run of C6 on the sample tables. *)
Lemma searchRecords_only_hold_tables_witness :
  source_of Examples.selected = VStr "Hold_Jan.xlsx" /\
  source_of Examples.selected <> VStr "RM_Master.xlsx".
Proof.
  destruct searchRecords_only_hold_tables as [_ H].
  apply (H Examples.hold_jan Examples.rm_master Examples.configs "M100" ByMid);
    [reflexivity|reflexivity|].
  vm_compute. left. reflexivity.
Defined.

(** C7. The search never returns more than 20 records.  Once 20 records are
    held the scan stops: when the tables scanned so far already give 20
    records, tables that come later add nothing.  A query that is empty or
    only white space gives no record. *)
Theorem searchRecords_capped :
  (forall (databases : list ParsedDatabase) (dbConfigs : gmap string DbConfig.t)
          (query : string) (ty : SearchType),
      (length (searchRecords databases dbConfigs query ty) <= 20)%nat) /\
  (forall (earlier later : list ParsedDatabase) (dbConfigs : gmap string DbConfig.t)
          (query : string) (ty : SearchType),
      length (searchRecords earlier dbConfigs query ty) = 20%nat ->
      searchRecords (earlier ++ later) dbConfigs query ty =
      searchRecords earlier dbConfigs query ty) /\
  (forall (databases : list ParsedDatabase) (dbConfigs : gmap string DbConfig.t)
          (query : string) (ty : SearchType),
      trim query = EmptyString ->
      searchRecords databases dbConfigs query ty = []).
Proof.
  split; [|split].
  - intros databases dbConfigs query ty.
    destruct (string_dec (trim query) EmptyString) as [Hq|Hq].
    { rewrite searchRecords_blank by assumption. simpl. lia. }
    destruct databases as [|db dbs]; [simpl; lia|].
    rewrite searchRecords_unfold by assumption.
    apply search_tables_length. simpl. lia.
  - intros earlier later dbConfigs query ty H.
    destruct (string_dec (trim query) EmptyString) as [Hq|Hq].
    { rewrite searchRecords_blank in H by assumption. discriminate. }
    destruct earlier as [|db dbs]; [discriminate|].
    rewrite searchRecords_unfold in H by assumption.
    simpl app. rewrite !searchRecords_unfold by assumption.
    change (db :: dbs ++ later) with ((db :: dbs) ++ later).
    rewrite List.filter_app, search_tables_app.
    apply search_tables_full. lia.
  - intros. now apply searchRecords_blank.
Qed.

(** A concrete run of C7: a first table of twenty matching rows fills the
    result, a later table adds nothing, and a blank query finds nothing. *)
Lemma searchRecords_capped_witness :
  searchRecords ([Examples.hold_full] ++ [Examples.hold_jan])
    (makeDbConfigs None [Examples.hold_full; Examples.hold_jan]) "M100" ByMid =
  searchRecords [Examples.hold_full]
    (makeDbConfigs None [Examples.hold_full; Examples.hold_jan]) "M100" ByMid /\
  searchRecords Examples.tables Examples.configs "   " ByMid = [].
Proof.
  destruct searchRecords_capped as (_ & H2 & H3).
  split.
  - apply H2. vm_compute. reflexivity.
  - apply H3. reflexivity.
Defined.

(** ** Reconciling a selected record *)

Lemma find_none_intro {A} (f : A -> bool) (l : list A) :
  (forall x, In x l -> f x = false) -> List.find f l = None.
Proof.
  induction l as [|a r IH]; simpl; [reflexivity|].
  intros H. rewrite (H a) by now left. apply IH. intros x Hx. apply H. now right.
Qed.

Section Reconcile.

Variable tz : Z.

Lemma lookup_form_step config record form l k :
  JsObject.lookup (form_step tz config record form l) k =
  if String.eqb l k && negb (is_undefined (select_field tz config record l))
  then Some (select_field tz config record l)
  else JsObject.lookup form k.
Proof.
  unfold form_step.
  destruct (is_undefined (select_field tz config record l)); simpl.
  - now rewrite andb_false_r.
  - rewrite andb_true_r. destruct (String.eqb_spec l k) as [->|Hne].
    + apply lookup_set_eq.
    + now apply lookup_set_ne.
Qed.

(** After the loop over the form fields, a field holds the value selected
    for it from the record, and no other key has changed. *)
Lemma lookup_fold_form_step config record fields form k :
  JsObject.lookup (fold_left (form_step tz config record) fields form) k =
  if str_in k fields && negb (is_undefined (select_field tz config record k))
  then Some (select_field tz config record k)
  else JsObject.lookup form k.
Proof.
  revert form. induction fields as [|l rest IH]; intros form; simpl; [reflexivity|].
  rewrite IH, lookup_form_step. rewrite (String.eqb_sym k l).
  destruct (String.eqb_spec l k) as [->|Hne]; simpl.
  - destruct (is_undefined (select_field tz config record k)); simpl.
    + now rewrite andb_false_r.
    + now rewrite andb_true_r, Tauto.if_same.
  - reflexivity.
Qed.

Lemma lookup_apply_profile_defaults activeProfile form k :
  (k <> "Held By" /\ k <> "POS/ECOM") \/ activeProfile = None ->
  JsObject.lookup (apply_profile_defaults activeProfile form) k = JsObject.lookup form k.
Proof.
  intros H. unfold apply_profile_defaults.
  destruct activeProfile as [p|]; [|reflexivity].
  destruct H as [[H1 H2]|H]; [|discriminate].
  repeat match goal with
         | |- context [if ?c then _ else _] => destruct c
         end; rewrite ?lookup_set_ne by congruence; reflexivity.
Qed.

(** A record with no key for a field gives [undefined] for it: neither the
    mapped column (or the label, when the field is unmapped) nor a key with
    the normalized name of the label is present. *)
Lemma select_field_absent config record fieldLabel :
  (forall k, In k (JsObject.keys record) ->
             k <> default fieldLabel (truthy_name (DbConfig.mappings config !! fieldLabel)) /\
             normalizeKey (VStr k) <> normalizeKey (VStr fieldLabel)) ->
  select_field tz config record fieldLabel = VUndefined.
Proof.
  intros H.
  assert (L : forall col,
             col = default fieldLabel (truthy_name (DbConfig.mappings config !! fieldLabel)) ->
             prop record col = VUndefined).
  { intros col ->. unfold prop.
    destruct (JsObject.lookup record _) eqn:E; [|reflexivity]. exfalso.
    revert E H. generalize (default fieldLabel
      (truthy_name (DbConfig.mappings config !! fieldLabel))). intros c.
    unfold JsObject.keys.
    induction record as [|[k0 v0] r IH]; simpl; [discriminate|].
    destruct (String.eqb_spec k0 c) as [->|Hne]; intros E H.
    - destruct (H c); auto.
    - apply IH; auto. }
  assert (F : List.find (fun k => String.eqb (normalizeKey (VStr k))
                                             (normalizeKey (VStr fieldLabel)))
                        (JsObject.keys record) = None).
  { apply find_none_intro. intros k Hk. destruct (H k Hk) as [_ Hn].
    now apply String.eqb_neq. }
  unfold select_field. rewrite F.
  replace (match truthy_name (DbConfig.mappings config !! fieldLabel) with
           | Some mappedCol => prop record mappedCol
           | None => prop record fieldLabel
           end) with VUndefined.
  - simpl. rewrite andb_false_r. now rewrite andb_false_r.
  - destruct (truthy_name (DbConfig.mappings config !! fieldLabel)) eqn:E;
      symmetry; apply L; reflexivity.
Qed.

Lemma handleSelectRecord_unfold dbConfigs activeProfile record config :
  dbConfigs !! ToString (source_of record) = Some config ->
  handleSelectRecord tz dbConfigs activeProfile record =
  Some (ToString (js_or (prop record (DbConfig.midCol config)) (VStr EmptyString)),
        apply_profile_defaults activeProfile
          (fold_left (form_step tz config record) ALL_FORM_FIELDS
             match DbConfig.nameCol config with
             | EmptyString => []
             | nameCol => JsObject.set [] "Merchant Name" (prop record nameCol)
             end)).
Proof.
  intros H. unfold handleSelectRecord. unfold source_of in H. now rewrite H.
Qed.

End Reconcile.

(** X29. In the search panel, reconciling a selected record reads that
    record alone.  The handler looks up the configuration of the record's
    source table and nothing else of the loaded tables: the identifier is
    the record's own, and each form field (a profile default apart) holds
    exactly the value selected for it from the record itself, through the
    mapped column, the field label, or a key with the same normalized name,
    and is absent when the record has no such key.  Two sets of
    configurations that agree on the source table give the same form. *)
Theorem handleSelectRecord_reads_primary_only :
  forall (tz : Z) (dbConfigs : gmap string DbConfig.t)
         (activeProfile : option UserProfile.t) (record : MerchantRecord)
         (config : DbConfig.t),
    dbConfigs !! ToString (source_of record) = Some config ->
    exists form,
      handleSelectRecord tz dbConfigs activeProfile record =
        Some (ToString (js_or (prop record (DbConfig.midCol config)) (VStr EmptyString)),
              form) /\
      (forall fieldLabel,
          In fieldLabel ALL_FORM_FIELDS ->
          (fieldLabel <> "Held By" /\ fieldLabel <> "POS/ECOM") \/ activeProfile = None ->
          JsObject.lookup form fieldLabel =
          match select_field tz config record fieldLabel with
          | VUndefined => None
          | v => Some v
          end) /\
      (forall fieldLabel,
          In fieldLabel ALL_FORM_FIELDS ->
          (fieldLabel <> "Held By" /\ fieldLabel <> "POS/ECOM") \/ activeProfile = None ->
          (forall k, In k (JsObject.keys record) ->
                     k <> default fieldLabel
                            (truthy_name (DbConfig.mappings config !! fieldLabel)) /\
                     normalizeKey (VStr k) <> normalizeKey (VStr fieldLabel)) ->
          JsObject.lookup form fieldLabel = None) /\
      (forall dbConfigs' : gmap string DbConfig.t,
          dbConfigs' !! ToString (source_of record) = Some config ->
          handleSelectRecord tz dbConfigs' activeProfile record =
          handleSelectRecord tz dbConfigs activeProfile record).
Proof.
  intros tz dbConfigs activeProfile record config Hcfg.
  rewrite (handleSelectRecord_unfold tz _ _ _ _ Hcfg).
  eexists. split; [reflexivity|].
  assert (L : forall fieldLabel,
             In fieldLabel ALL_FORM_FIELDS ->
             (fieldLabel <> "Held By" /\ fieldLabel <> "POS/ECOM") \/ activeProfile = None ->
             JsObject.lookup
               (apply_profile_defaults activeProfile
                  (fold_left (form_step tz config record) ALL_FORM_FIELDS
                     match DbConfig.nameCol config with
                     | EmptyString => []
                     | nameCol => JsObject.set [] "Merchant Name" (prop record nameCol)
                     end)) fieldLabel =
             match select_field tz config record fieldLabel with
             | VUndefined => None
             | v => Some v
             end).
  { intros fieldLabel Hin Hd.
    rewrite lookup_apply_profile_defaults by assumption.
    rewrite lookup_fold_form_step.
    assert (Hs : str_in fieldLabel ALL_FORM_FIELDS = true).
    { unfold str_in. apply existsb_exists. exists fieldLabel.
      split; [assumption|apply String.eqb_refl]. }
    rewrite Hs. simpl.
    destruct (select_field tz config record fieldLabel) eqn:E; simpl; try reflexivity.
    assert (Hne : fieldLabel <> "Merchant Name").
    { intros ->. vm_compute in Hs. discriminate. }
    destruct (DbConfig.nameCol config); [reflexivity|].
    now rewrite lookup_set_ne by congruence. }
  split; [exact L|split].
  - intros fieldLabel Hin Hd Habs. rewrite L by assumption.
    now rewrite (select_field_absent tz config record fieldLabel Habs).
  - intros dbConfigs' Hcfg'.
    now rewrite (handleSelectRecord_unfold tz _ _ _ _ Hcfg').
Qed.

(** A concrete run of the statement above: the sample record has no key for
    the relationship manager, so the form has none. *)
Lemma handleSelectRecord_reads_primary_only_witness :
  exists form,
    handleSelectRecord 0 Examples.configs None Examples.selected =
      Some ("M100", form) /\
    JsObject.lookup form "RM Name" = None.
Proof.
  destruct (handleSelectRecord_reads_primary_only 0 Examples.configs None
              Examples.selected
              (makeDbConfig None Examples.hold_jan))
    as (form & E & _ & H & _).
  { vm_compute. reflexivity. }
  exists form. split.
  - exact E.
  - apply H.
    + vm_compute. tauto.
    + right. reflexivity.
    + intros k Hk. vm_compute in Hk.
      destruct Hk as [<-|[<-|[<-|[<-|[]]]]]; split; vm_compute; discriminate.
Defined.

Section Populate.




End Populate.



(** ** The spreadsheet updater *)

Section Updater.

(** Unfolds the plumbing of the effect monad. *)
Ltac run_eff :=
  unfold run, mbind, mret, M_bind, M_ret, Host.bind, Host.ret, try_catch,
    alert, emit, call, write_back, verify_permission in *;
  simpl in *.

Lemma verify_permission_granted fileHandle log :
  access_granted fileHandle ->
  verify_permission fileHandle log = (Normal true, log).
Proof.
  intros [H|(p & H1 & H2 & H3)]; run_eff.
  - now rewrite H.
  - rewrite H1. destruct p; simpl in *; try discriminate; now rewrite H3.
Qed.

Variable env : Env.
Variable targetSheetType : SheetType.
Variable midToFind : string.
Variable updatedData : MerchantRecord.
Variable fileHandle : FileHandle.
Variable workbook : Workbook.

Hypothesis library_loaded : XLSX_loaded env = true.
Hypothesis mid_given : midToFind <> EmptyString.
Hypothesis linked : getMasterHandle env targetSheetType = Normal (Some fileHandle).
Hypothesis access : access_granted fileHandle.
Hypothesis readable : readWorkbook fileHandle = Normal workbook.

(** The run of an update up to the point where the sheet has been read. *)
Lemma updateRow_after_read :
  run (updateRowInMasterSheet env targetSheetType midToFind updatedData) =
  let sheetName := updateRow_sheetName workbook targetSheetType in
  let jsonData := updateRow_rows workbook targetSheetType in
  let columns := first_row_keys jsonData in
  match truthy_name (findMidColumn columns) with
  | None =>
      (Normal false,
       [Alert "Could not identify a Merchant ID column in the linked file."])
  | Some midCol =>
      match findIndex (id_matches midCol midToFind) jsonData with
      | None => (Normal false, [RowNotFound_alert midToFind])
      | Some i =>
          let jsonData' :=
            set_nth i (patch_row columns updatedData (nth i jsonData [])) jsonData in
          run (try_catch
                 (_ ← write_back fileHandle (set_sheet workbook sheetName jsonData');
                  mret true)
                 (fun e =>
                    _ ← emit (ConsoleError "Update Error:");
                    _ ← alert ("Failed to update Excel file: " +:+ exn_message e);
                    mret false))
      end
  end.
Proof using library_loaded mid_given linked access readable.
  assert (T : truthy (VStr midToFind) = true)
    by (destruct midToFind; [congruence|reflexivity]).
  unfold updateRowInMasterSheet, run. rewrite library_loaded, linked, T.
  cbn [negb].
  unfold try_catch at 1, mbind at 1, M_bind at 1, Host.bind at 1.
  rewrite verify_permission_granted by assumption.
  cbn [negb].
  unfold mbind at 1, M_bind at 1, Host.bind at 1, call at 1.
  rewrite readable.
  fold (updateRow_rows workbook targetSheetType).
  cbv zeta.
  destruct (truthy_name (findMidColumn _)) as [midCol|]; [|reflexivity].
  destruct (findIndex _ _) as [i|]; reflexivity.
Qed.

End Updater.

Section UpdaterOutcomes.

Lemma findIndex_none {A} (pred : A -> bool) (l : list A) :
  (forall x, In x l -> pred x = false) -> findIndex pred l = None.
Proof.
  induction l as [|a r IH]; simpl; [reflexivity|].
  intros H. rewrite (H a) by now left.
  rewrite IH; [reflexivity|]. intros x Hx. apply H. now right.
Qed.

(** A log without write events leaves the file as it was. *)
Lemma file_after_no_write pending content log :
  existsb is_write_event log = false -> file_after pending content log = content.
Proof.
  revert pending. induction log as [|ev r IH]; intros pending; simpl; [reflexivity|].
  intros H. apply orb_false_iff in H as [Hev Hr].
  destruct ev; simpl in Hev; try discriminate; now apply IH.
Qed.

(** A sheet name found by the fuzzy match is not empty. *)
Lemma fuzzy_sheet_truthy existingNames type n :
  fuzzy_sheet existingNames type = Some n ->
  truthy_name (Some n) = Some n /\ In n existingNames /\
  includes (normalizeKey (VStr n)) (toLowerCase (SheetType_text type)) = true.
Proof.
  intros H. apply find_some in H as [Hin Hp]. split; [|split; assumption].
  destruct n; [|reflexivity]. destruct type; discriminate.
Qed.

(** Whatever the environment, an update ends by returning a boolean unless
    [getMasterHandle] rejects, in which case it rejects with that error
    and an empty log; and it touches the file only after a row has been
    located in a sheet that was read. *)
Lemma updateRow_writes_only_when_located env targetSheetType midToFind updatedData :
  ((exists b,
       fst (run (updateRowInMasterSheet env targetSheetType midToFind updatedData))
       = Normal b) \/
   (exists e,
       getMasterHandle env targetSheetType = Abrupt e /\
       run (updateRowInMasterSheet env targetSheetType midToFind updatedData)
       = (Abrupt e, []))) /\
  (existsb is_write_event
     (snd (run (updateRowInMasterSheet env targetSheetType midToFind updatedData)))
   = true ->
   exists fileHandle workbook midCol i,
     getMasterHandle env targetSheetType = Normal (Some fileHandle) /\
     readWorkbook fileHandle = Normal workbook /\
     truthy_name (findMidColumn (first_row_keys (updateRow_rows workbook targetSheetType)))
       = Some midCol /\
     findIndex (id_matches midCol midToFind) (updateRow_rows workbook targetSheetType)
       = Some i).
Proof.
  unfold updateRowInMasterSheet, run.
  destruct (XLSX_loaded env); cbn [negb];
    [|split; [left; now exists false|discriminate]].
  destruct (truthy (VStr midToFind)); cbn [negb];
    [|split; [left; now exists false|discriminate]].
  destruct (getMasterHandle env targetSheetType) as [[fh|]|e0];
    [|split; [left; now exists false|discriminate]
     |split; [right; now exists e0|discriminate]].
  unfold try_catch, mbind, M_bind, Host.bind, verify_permission, call, mret, M_ret,
    Host.ret, alert, emit, write_back.
  cbn [app].
  destruct (queryPermission fh) as [q|e]; cbn [is_granted negb fst snd app].
  2: { split; [left; now exists false|discriminate]. }
  destruct q; cbn [is_granted negb fst snd app].
  all: try (destruct (requestPermission fh) as [[]|e'];
            cbn [is_granted negb fst snd app];
            try (split; [left; now exists false|discriminate])).
  all: destruct (readWorkbook fh) as [wb|e''] eqn:Erd;
         [|split; [left; now exists false|discriminate]].
  all: fold (updateRow_rows wb targetSheetType).
  all: destruct (truthy_name (findMidColumn _)) as [midCol|] eqn:Ecol;
         [|split; [left; now exists false|discriminate]].
  all: destruct (findIndex _ _) as [i|] eqn:Eidx;
         [|split; [left; now exists false|discriminate]].
  all: split; [left|intros _; exists fh, wb, midCol, i; auto].
  all: destruct (createWritable fh); [|now exists false].
  all: destruct (write fh); [|now exists false].
  all: destruct (close fh); [now exists true|now exists false].
Qed.

End UpdaterOutcomes.

(** C2. When the update reaches the selected sheet (library loaded,
    identifier given, file linked, access granted, workbook read, identifier
    column resolved) and no row of that sheet has the normalized identifier
    asked for, it fails with the row-not-found alert and performs no call on
    the file handle, so the file keeps its content.  More generally the
    update ends by returning a boolean, unless [getMasterHandle] rejects,
    in which case the update rejects with that error before any effect; and
    whenever its log shows a call that touches the file it had reached the
    rewrite step: a row was located in a sheet that was read.  A run whose
    log shows no such call leaves the file as it was. *)
Theorem updateRow_not_found_leaves_file_untouched :
  (forall (env : Env) (targetSheetType : SheetType) (midToFind : string)
          (updatedData : MerchantRecord) (fileHandle : FileHandle)
          (workbook : Workbook) (midCol : string),
      XLSX_loaded env = true ->
      midToFind <> EmptyString ->
      getMasterHandle env targetSheetType = Normal (Some fileHandle) ->
      access_granted fileHandle ->
      readWorkbook fileHandle = Normal workbook ->
      truthy_name (findMidColumn (first_row_keys (updateRow_rows workbook targetSheetType)))
        = Some midCol ->
      (forall row, In row (updateRow_rows workbook targetSheetType) ->
                   normalizeKey (VStr (ToString (prop row midCol))) <>
                   normalizeKey (VStr midToFind)) ->
      run (updateRowInMasterSheet env targetSheetType midToFind updatedData) =
        (Normal false, [RowNotFound_alert midToFind]) /\
      existsb is_write_event
        (snd (run (updateRowInMasterSheet env targetSheetType midToFind updatedData)))
        = false) /\
  (forall (env : Env) (targetSheetType : SheetType) (midToFind : string)
          (updatedData : MerchantRecord),
      ((exists b,
           fst (run (updateRowInMasterSheet env targetSheetType midToFind updatedData))
           = Normal b) \/
       (exists e,
           getMasterHandle env targetSheetType = Abrupt e /\
           run (updateRowInMasterSheet env targetSheetType midToFind updatedData)
           = (Abrupt e, []))) /\
      (existsb is_write_event
         (snd (run (updateRowInMasterSheet env targetSheetType midToFind updatedData)))
       = true ->
       exists fileHandle workbook midCol i,
         getMasterHandle env targetSheetType = Normal (Some fileHandle) /\
         readWorkbook fileHandle = Normal workbook /\
         truthy_name (findMidColumn (first_row_keys (updateRow_rows workbook targetSheetType)))
           = Some midCol /\
         findIndex (id_matches midCol midToFind) (updateRow_rows workbook targetSheetType)
           = Some i)) /\
  (forall (log : list Event) (content : Workbook),
      existsb is_write_event log = false -> file_after None content log = content).
Proof.
  split; [|split].
  - intros env targetSheetType midToFind updatedData fileHandle workbook midCol
      Hx Hm Hh Ha Hr Hcol Hrows.
    rewrite (updateRow_after_read env targetSheetType midToFind updatedData
               fileHandle workbook Hx Hm Hh Ha Hr).
    cbv zeta. rewrite Hcol.
    rewrite findIndex_none; [split; reflexivity|].
    intros row Hin. unfold id_matches. apply String.eqb_neq. now apply Hrows.
  - apply updateRow_writes_only_when_located.
  - intros log content. apply file_after_no_write.
Qed.

(** A concrete run of C2: the identifier [M999] is not in the linked
    workbook. *)
Lemma updateRow_not_found_leaves_file_untouched_witness :
  run (updateRowInMasterSheet Examples.env HOLD "M999" Examples.patch) =
    (Normal false, [RowNotFound_alert "M999"]) /\
  existsb is_write_event
    (snd (run (updateRowInMasterSheet Examples.env HOLD "M999" Examples.patch))) = false.
Proof.
  destruct updateRow_not_found_leaves_file_untouched as [H _].
  apply (H Examples.env HOLD "M999" Examples.patch Examples.handle Examples.book "MID").
  - reflexivity.
  - discriminate.
  - reflexivity.
  - left. reflexivity.
  - reflexivity.
  - vm_compute. reflexivity.
  - intros row Hin. vm_compute in Hin.
    destruct Hin as [<-|[<-|[]]]; vm_compute; discriminate.
Defined.

(** C1, as the program has it.  Sheet selection picks the first sheet whose
    normalized name contains the lower-cased kind.  When no sheet matches,
    [updateRowInMasterSheet] falls back to the first sheet of the workbook,
    however many sheets there are, and the update proceeds on it: with the
    row found there and the writes succeeding it returns [true] after
    writing the patched workbook.  [updateMasterSheet] takes the sheet named
    after its target when there is one; else the fuzzy match; else the only
    sheet of a one-sheet workbook; else it appends a new empty sheet named
    after the target.  Neither fails on account of the choice of sheet. *)
Theorem sheet_selection_falls_back :
  (forall (workbook : Workbook) (type : SheetType) (n : string),
      fuzzy_sheet (SheetNames workbook) type = Some n ->
      updateRow_sheetName workbook type = n /\
      In n (SheetNames workbook) /\
      includes (normalizeKey (VStr n)) (toLowerCase (SheetType_text type)) = true) /\
  (forall (workbook : Workbook) (type : SheetType),
      fuzzy_sheet (SheetNames workbook) type = None ->
      updateRow_sheetName workbook type = nth 0 (SheetNames workbook) "undefined") /\
  (forall (env : Env) (targetSheetType : SheetType) (midToFind : string)
          (updatedData : MerchantRecord) (fileHandle : FileHandle)
          (workbook : Workbook) (midCol : string) (i : nat),
      XLSX_loaded env = true ->
      midToFind <> EmptyString ->
      getMasterHandle env targetSheetType = Normal (Some fileHandle) ->
      access_granted fileHandle ->
      readWorkbook fileHandle = Normal workbook ->
      fuzzy_sheet (SheetNames workbook) targetSheetType = None ->
      let sheetName := nth 0 (SheetNames workbook) "undefined" in
      let jsonData := sheet_rows workbook sheetName in
      truthy_name (findMidColumn (first_row_keys jsonData)) = Some midCol ->
      findIndex (id_matches midCol midToFind) jsonData = Some i ->
      createWritable fileHandle = Normal tt ->
      write fileHandle = Normal tt ->
      close fileHandle = Normal tt ->
      run (updateRowInMasterSheet env targetSheetType midToFind updatedData) =
        (Normal true,
         [CreateWritable;
          Write (set_sheet workbook sheetName
                   (set_nth i (patch_row (first_row_keys jsonData) updatedData
                                         (nth i jsonData []))
                            jsonData));
          Close])) /\
  (forall (workbook : Workbook) (target : TargetSheetName) (type : SheetType),
      let sheetName := TargetSheetName_text target in
      match JsObject.lookup (Sheets workbook) sheetName with
      | Some _ => updateMaster_sheet workbook target type = (sheetName, workbook)
      | None =>
          match fuzzy_sheet (SheetNames workbook) type with
          | Some n => updateMaster_sheet workbook target type = (n, workbook)
          | None =>
              match SheetNames workbook with
              | [only] => updateMaster_sheet workbook target type = (only, workbook)
              | _ => updateMaster_sheet workbook target type =
                       (sheetName, book_append_empty_sheet workbook sheetName)
              end
          end
      end).
Proof.
  split; [|split; [|split]].
  - intros workbook type n H.
    destruct (fuzzy_sheet_truthy _ _ _ H) as (Ht & Hin & Hinc).
    split; [|split; assumption].
    unfold updateRow_sheetName. now rewrite H, Ht.
  - intros workbook type H. unfold updateRow_sheetName. now rewrite H.
  - intros env targetSheetType midToFind updatedData fileHandle workbook midCol i
      Hx Hm Hh Ha Hr Hf sheetName jsonData Hcol Hidx Hc Hw Hcl.
    rewrite (updateRow_after_read env targetSheetType midToFind updatedData
               fileHandle workbook Hx Hm Hh Ha Hr).
    assert (Hs : updateRow_sheetName workbook targetSheetType = sheetName).
    { unfold updateRow_sheetName. now rewrite Hf. }
    unfold updateRow_rows. rewrite Hs. fold jsonData. cbv zeta.
    rewrite Hcol, Hidx.
    unfold run, try_catch, mbind, M_bind, Host.bind, write_back, call, emit, mret,
      M_ret, Host.ret.
    now rewrite Hc, Hw, Hcl.
  - intros workbook target type sheetName. unfold updateMaster_sheet.
    fold sheetName.
    destruct (JsObject.lookup (Sheets workbook) sheetName); [reflexivity|].
    destruct (fuzzy_sheet (SheetNames workbook) type) as [n|] eqn:E.
    + destruct (fuzzy_sheet_truthy _ _ _ E) as (Ht & _). now rewrite Ht.
    + simpl. destruct (SheetNames workbook) as [|a [|b r]]; reflexivity.
Qed.

(** A concrete run of the statement above: the sample workbook has two
    sheets, neither named after the kind, and the update of [M100] is
    written to the first. *)
Lemma sheet_selection_falls_back_witness :
  run (updateRowInMasterSheet Examples.env HOLD "M100" Examples.patch) =
    (Normal true, [CreateWritable; Write Examples.patched_book; Close]).
Proof.
  destruct sheet_selection_falls_back as (_ & _ & H & _).
  apply (H Examples.env HOLD "M100" Examples.patch Examples.handle Examples.book
           "MID" 0%nat); try reflexivity.
  - discriminate.
  - left. reflexivity.
Defined.

(** C1 fails as the specification states it.  The sample workbook has two
    sheets and the normalized name of neither contains [hold]; the update of
    the hold file does not fail: it returns [true] and writes the workbook
    with the first sheet patched. *)
Lemma ambiguous_sheet_is_not_rejected :
  SheetNames Examples.book = ["Sheet1"; "Sheet2"] /\
  includes (normalizeKey (VStr "Sheet1")) (toLowerCase (SheetType_text HOLD)) = false /\
  includes (normalizeKey (VStr "Sheet2")) (toLowerCase (SheetType_text HOLD)) = false /\
  getMasterHandle Examples.env HOLD = Normal (Some Examples.handle) /\
  readWorkbook Examples.handle = Normal Examples.book /\
  run (updateRowInMasterSheet Examples.env HOLD "M100" Examples.patch) =
    (Normal true, [CreateWritable; Write Examples.patched_book; Close]) /\
  file_after None Examples.book
    (snd (run (updateRowInMasterSheet Examples.env HOLD "M100" Examples.patch)))
  = Examples.patched_book.
Proof.
  split; [reflexivity|].
  split; [vm_compute; reflexivity|].
  split; [vm_compute; reflexivity|].
  split; [reflexivity|].
  split; [reflexivity|].
  split; vm_compute; reflexivity.
Qed.

(** ** Configuration import *)

Lemma put_all_error profiles store e :
  snd (put_all profiles store) = Some e -> e = DataError.
Proof.
  revert store. induction profiles as [|p r IH]; intros store; simpl; [discriminate|].
  unfold store_put.
  destruct (Json.member p "id") as [key|]; [|now intros [= <-]].
  destruct (Json.valid_key key); [apply IH|now intros [= <-]].
Qed.

(** C8, as the program has it.  The import accepts a parsed document only
    if it has a [profiles] member that is an array.  Any other document is
    rejected as a whole: the promise is rejected and neither the profile
    store nor local storage changes, whatever the document says about
    profiles or the active profile; a [null] document and a text that does
    not parse are rejected the same way.  The error is the
    invalid-configuration error unless the document is [null].  This test is
    the only validation: a document that passes it, with the database open,
    is applied profile by profile, and the import then ends with [true],
    with the [DataError] of a [put], or with the error of the
    transaction. *)
Theorem importSystemConfig_rejects_invalid :
  (forall (env : StorageEnv) (stores : Stores) (jsonString : string) (config : Json.t),
      JSON_parse env jsonString = Normal config ->
      has_profiles_array config = false ->
      (exists e, fst (importSystemConfig env stores jsonString) = Abrupt e /\
                 (config <> Json.JNull -> e = InvalidConfiguration)) /\
      snd (importSystemConfig env stores jsonString) = stores) /\
  (forall (env : StorageEnv) (stores : Stores) (jsonString : string) (e : Exn),
      JSON_parse env jsonString = Abrupt e ->
      importSystemConfig env stores jsonString = (Abrupt e, stores)) /\
  (forall (env : StorageEnv) (stores : Stores) (jsonString : string) (config : Json.t),
      JSON_parse env jsonString = Normal config ->
      fst (importSystemConfig env stores jsonString) = Normal true ->
      has_profiles_array config = true) /\
  (forall (env : StorageEnv) (stores : Stores) (jsonString : string) (config : Json.t),
      JSON_parse env jsonString = Normal config ->
      has_profiles_array config = true ->
      initDB env = Normal tt ->
      fst (importSystemConfig env stores jsonString) = Normal true \/
      fst (importSystemConfig env stores jsonString) = Abrupt DataError \/
      exists e, transaction_outcome env = Abrupt e /\
                fst (importSystemConfig env stores jsonString) = Abrupt e).
Proof.
  assert (V : forall config,
             has_profiles_array config = false ->
             negb (Json.truthy (Json.member config "profiles"))
             || negb (Json.isArray (Json.member config "profiles")) = true).
  { intros config H. unfold has_profiles_array in H.
    destruct config; simpl; try reflexivity.
    destruct (JsObject.lookup members "profiles") as [[]|]; simpl;
      try discriminate; try reflexivity; apply orb_true_r. }
  split; [|split; [|split]].
  - intros env stores jsonString config Hp Hv.
    unfold importSystemConfig. rewrite Hp.
    destruct config; try (rewrite V by assumption); simpl;
      (split; [eexists; split; [reflexivity|]; try reflexivity; congruence|reflexivity]).
  - intros env stores jsonString e Hp. unfold importSystemConfig. now rewrite Hp.
  - intros env stores jsonString config Hp Hok.
    destruct (has_profiles_array config) eqn:Hv; [reflexivity|].
    unfold importSystemConfig in Hok. rewrite Hp in Hok.
    destruct config; try (rewrite V in Hok by assumption); simpl in Hok; discriminate.
  - intros env stores jsonString config Hp Hv Hdb.
    unfold has_profiles_array in Hv.
    destruct config as [| | | | |members]; try discriminate.
    destruct (JsObject.lookup members "profiles") as [[| | | |items|]|] eqn:El;
      try discriminate.
    unfold importSystemConfig. rewrite Hp. cbn [Json.member]. rewrite El.
    replace (negb (Json.truthy (Some (Json.JArr items))) ||
             negb (Json.isArray (Some (Json.JArr items)))) with false by reflexivity.
    rewrite Hdb.
    pose proof (put_all_error items (user_profiles stores)) as Herr.
    destruct (put_all items (user_profiles stores)) as [requested [e|]].
    + right. left. cbn [fst]. now rewrite (Herr e eq_refl).
    + destruct (transaction_outcome env) as [u|e] eqn:Et.
      * left. reflexivity.
      * right. right. exists e. split; reflexivity.
Qed.

(** A concrete run of C8: a document whose [profiles] member is a string is
    rejected and the sample stores are unchanged, although the document
    names an active profile. *)
Lemma importSystemConfig_rejects_invalid_witness :
  (exists e, fst (importSystemConfig Examples.storage_env Examples.stores "{}") = Abrupt e /\
             (Examples.bad_document <> Json.JNull -> e = InvalidConfiguration)) /\
  snd (importSystemConfig Examples.storage_env Examples.stores "{}") = Examples.stores.
Proof.
  destruct importSystemConfig_rejects_invalid as [H _].
  apply (H Examples.storage_env Examples.stores "{}" Examples.bad_document);
    reflexivity.
Defined.

(** C8 fails as the specification states it: application is not
    all-or-nothing.  The second profile of the sample document has no id, so
    [put] throws on it and the import is rejected; the first profile is
    stored all the same.  And when the transaction of a valid document
    fails, the import is rejected and no profile is stored, but the active
    profile has already changed from p0 to p2. *)
Lemma rejected_import_is_partly_applied :
  let env := Samples.storage_env Samples.broken_document (Normal tt) in
  let env' := Samples.storage_env Samples.document (Abrupt Samples.QuotaExceeded) in
  (fst (importSystemConfig env Examples.stores "{}") = Abrupt DataError /\
   store_get (Json.JStr "p1") (user_profiles Examples.stores) = None /\
   store_get (Json.JStr "p1")
     (user_profiles (snd (importSystemConfig env Examples.stores "{}")))
     = Some Samples.profile_a /\
   snd (importSystemConfig env Examples.stores "{}") <> Examples.stores) /\
  (fst (importSystemConfig env' Examples.stores "{}") = Abrupt Samples.QuotaExceeded /\
   getActiveProfileId (localStorage Examples.stores) = Some "p0" /\
   getActiveProfileId (localStorage (snd (importSystemConfig env' Examples.stores "{}")))
     = Some "p2" /\
   snd (importSystemConfig env' Examples.stores "{}") <> Examples.stores).
Proof.
  intros env env'. split.
  - split; [reflexivity|]. split; [reflexivity|]. split; [reflexivity|].
    intros H. apply (f_equal (fun st => store_get (Json.JStr "p1") (user_profiles st))) in H.
    vm_compute in H. discriminate.
  - split; [reflexivity|]. split; [reflexivity|]. split; [reflexivity|].
    intros H. apply (f_equal (fun st => getActiveProfileId (localStorage st))) in H.
    vm_compute in H. discriminate.
Qed.

(** * Further properties *)

(** ** The search as a bounded scan *)

Section SearchScan.

#[local] Arguments Nat.leb : simpl never.

Variable dbConfigs : gmap string DbConfig.t.
Variable searchKey : string.
Variable ty : SearchType.

Lemma push_matches_firstn file matches results :
  push_matches file matches results =
  results ++ firstn (20 - length results)
                    (map (fun row => with_source row file) matches).
Proof.
  revert results. induction matches as [|m rest IH]; intros results; simpl.
  - now rewrite firstn_nil, app_nil_r.
  - destruct (Nat.leb_spec 20 (length results)).
    + replace (20 - length results)%nat with 0%nat by lia.
      now rewrite app_nil_r.
    + rewrite IH, List.length_app. simpl length.
      destruct (20 - length results)%nat as [|k] eqn:E; [lia|].
      replace (20 - (length results + 1))%nat with k by lia.
      simpl. now rewrite <- app_assoc.
Qed.

Lemma firstn_app_rest {A} (n : nat) (l1 l2 : list A) :
  firstn n (l1 ++ l2) = firstn n l1 ++ firstn (n - length (firstn n l1)) l2.
Proof.
  rewrite List.firstn_app. f_equal.
  rewrite List.length_firstn.
  destruct (Nat.le_gt_cases n (length l1)).
  - replace (n - length l1)%nat with 0%nat by lia.
    replace (n - Nat.min n (length l1))%nat with 0%nat by lia. reflexivity.
  - f_equal. lia.
Qed.

Lemma search_tables_firstn dbs results :
  search_tables dbConfigs searchKey ty dbs results =
  results ++ firstn (20 - length results)
                    (flat_map (table_hits dbConfigs searchKey ty) dbs).
Proof.
  revert results. induction dbs as [|db rest IH]; intros results; simpl.
  - now rewrite firstn_nil, app_nil_r.
  - destruct (Nat.leb_spec 20 (length results)).
    + replace (20 - length results)%nat with 0%nat by lia.
      now rewrite app_nil_r.
    + unfold table_hits at 1. unfold search_column.
      destruct (dbConfigs !! fileName db) as [config|]; [|apply IH].
      destruct (match ty with ByMid => _ | ByName => _ end) as [|c col] eqn:Ecol;
        [apply IH|].
      rewrite IH, push_matches_firstn.
      fold (row_matches (String c col) searchKey).
      rewrite <- app_assoc. f_equal.
      rewrite firstn_app_rest. f_equal. f_equal.
      rewrite List.length_app. lia.
Qed.

End SearchScan.

Lemma searchRecords_scan_eq databases dbConfigs query ty :
  trim query <> EmptyString ->
  searchRecords databases dbConfigs query ty =
  firstn 20 (flat_map (table_hits dbConfigs (normalizeKey (VStr query)) ty)
                      (List.filter is_hold_database databases)).
Proof.
  intros Hq.
  destruct databases as [|db dbs];
    [unfold searchRecords; now destruct (trim query)|].
  rewrite searchRecords_unfold by assumption.
  now rewrite search_tables_firstn.
Qed.

(** X1. The search is a scan cut at twenty records: for a query that is not
    blank, the result is the first twenty of the matching rows of the
    eligible tables, table after table in loading order and row after row
    within a table, each tagged with its table.  So every returned record
    is a matching row, and while fewer than twenty rows match none is
    left out. *)
Theorem searchRecords_is_bounded_scan :
  forall (databases : list ParsedDatabase) (dbConfigs : gmap string DbConfig.t)
         (query : string) (ty : SearchType),
    trim query <> EmptyString ->
    searchRecords databases dbConfigs query ty =
    firstn 20 (flat_map (table_hits dbConfigs (normalizeKey (VStr query)) ty)
                        (List.filter is_hold_database databases)).
Proof.
  intros. now apply searchRecords_scan_eq.
Qed.

(** A concrete run of X1 on the sample tables. *)
Lemma searchRecords_is_bounded_scan_witness :
  searchRecords Examples.tables Examples.configs "M100" ByMid =
  firstn 20 (flat_map (table_hits Examples.configs (normalizeKey (VStr "M100")) ByMid)
                      (List.filter is_hold_database Examples.tables)).
Proof.
  apply searchRecords_is_bounded_scan. discriminate.
Defined.

Lemma In_firstn {A} (n : nat) (l : list A) (x : A) : In x (firstn n l) -> In x l.
Proof.
  revert n. induction l as [|a r IH]; intros [|n]; simpl; try tauto.
  intros [->|H]; [now left|right; eauto].
Qed.

(** A search result is a matching row of a loaded hold table, tagged with
    that table's file name. *)
Lemma searchRecords_sound databases dbConfigs query ty r :
  In r (searchRecords databases dbConfigs query ty) ->
  exists db config row,
    In db databases /\ is_hold_database db = true /\
    dbConfigs !! fileName db = Some config /\
    search_column ty config <> EmptyString /\
    In row (data db) /\
    row_matches (search_column ty config) (normalizeKey (VStr query)) row = true /\
    r = with_source row (fileName db).
Proof.
  intros Hin.
  destruct (string_dec (trim query) EmptyString) as [Hq|Hq].
  { rewrite searchRecords_blank in Hin by assumption. destruct Hin. }
  rewrite searchRecords_scan_eq in Hin by assumption.
  apply In_firstn in Hin. apply in_flat_map in Hin as (db & Hdb & Hr).
  apply List.filter_In in Hdb as [Hdb Hhold].
  unfold table_hits in Hr.
  destruct (dbConfigs !! fileName db) as [config|] eqn:Ecfg; [|destruct Hr].
  destruct (search_column ty config) as [|c col] eqn:Ecol; [destruct Hr|].
  apply in_map_iff in Hr as (row & <- & Hrow).
  apply List.filter_In in Hrow as [Hrow Hm].
  exists db, config, row. rewrite Ecol. repeat split; auto.
Qed.

(** X2. Searching by identifier and selecting compose: every record the
    search returns can be selected (its source table has a configuration),
    and the identifier the selection puts back in the search box has a
    normalized form that contains the normalized query, provided the
    identifier column is not the tag column [__sourceFile] itself. *)
Theorem search_then_select :
  forall (tz : Z) (databases : list ParsedDatabase)
         (dbConfigs : gmap string DbConfig.t) (activeProfile : option UserProfile.t)
         (query : string) (r : MerchantRecord),
    (forall db config, In db databases -> dbConfigs !! fileName db = Some config ->
                       DbConfig.midCol config <> "__sourceFile") ->
    In r (searchRecords databases dbConfigs query ByMid) ->
    exists mid form,
      handleSelectRecord tz dbConfigs activeProfile r = Some (mid, form) /\
      includes (normalizeKey (VStr mid)) (normalizeKey (VStr query)) = true.
Proof.
  intros tz databases dbConfigs activeProfile query r Hcol Hin.
  destruct (searchRecords_sound _ _ _ _ _ Hin)
    as (db & config & row & Hdb & _ & Hcfg & _ & _ & Hm & ->).
  assert (Hsrc : ToString (source_of (with_source row (fileName db))) = fileName db).
  { now rewrite source_of_with_source. }
  rewrite (handleSelectRecord_unfold tz dbConfigs activeProfile _ config)
    by now rewrite Hsrc.
  do 2 eexists. split; [reflexivity|].
  simpl in Hm. unfold row_matches in Hm.
  assert (P : prop (with_source row (fileName db)) (DbConfig.midCol config) =
              prop row (DbConfig.midCol config)).
  { unfold prop, with_source. rewrite lookup_set_ne; [reflexivity|].
    intros E. symmetry in E. revert E. now apply (Hcol db config). }
  now rewrite P.
Qed.

(** A concrete run of X2 on the sample tables. *)
Lemma search_then_select_witness :
  exists mid form,
    handleSelectRecord 0 Examples.configs None Examples.selected = Some (mid, form) /\
    includes (normalizeKey (VStr mid)) (normalizeKey (VStr "M100")) = true.
Proof.
  apply (search_then_select 0 Examples.tables Examples.configs None "M100").
  - intros db config [<-|[<-|[]]] H; vm_compute in H; injection H as <-;
      vm_compute; discriminate.
  - vm_compute. left. reflexivity.
Defined.

(** ** Patching a row *)

Section Patch.

Lemma keys_replace {V} (o : JsObject.Obj V) k v :
  JsObject.keys (JsObject.replace o k v) = JsObject.keys o.
Proof.
  unfold JsObject.keys. induction o as [|[k' v'] r IH]; simpl; [reflexivity|].
  destruct (String.eqb k' k); simpl; [reflexivity|now rewrite IH].
Qed.

Lemma keys_set_present {V} (o : JsObject.Obj V) k v :
  JsObject.lookup o k <> None -> JsObject.keys (JsObject.set o k v) = JsObject.keys o.
Proof.
  intros H. unfold JsObject.set.
  destruct (JsObject.lookup o k); [apply keys_replace|congruence].
Qed.

Lemma lookup_set_present {V} (o : JsObject.Obj V) k k' v :
  JsObject.lookup o k' <> None -> JsObject.lookup (JsObject.set o k v) k' <> None.
Proof.
  intros H. destruct (string_dec k k') as [->|Hne].
  - rewrite lookup_set_eq. discriminate.
  - now rewrite lookup_set_ne.
Qed.

Lemma str_in_In x l : str_in x l = true <-> In x l.
Proof.
  unfold str_in. rewrite existsb_exists. split.
  - intros (y & Hy & E). apply String.eqb_eq in E. now subst.
  - intros H. exists x. split; [assumption|apply String.eqb_refl].
Qed.

Lemma truthy_name_some x c : truthy_name x = Some c -> x = Some c /\ c <> EmptyString.
Proof.
  destruct x as [[|a r]|]; simpl; try discriminate.
  intros [= <-]. split; [reflexivity|discriminate].
Qed.

(** The column a form key resolves to is a column of the sheet. *)
Lemma target_column_in columns formKey c :
  target_column columns formKey = Some c -> In c columns /\ c <> EmptyString.
Proof.
  unfold target_column.
  destruct (truthy_name (if str_in formKey columns then Some formKey else None))
    as [c0|] eqn:E0.
  { intros [= <-]. apply truthy_name_some in E0 as [E0 Hne]. split; [|assumption].
    destruct (str_in formKey columns) eqn:Ein; [|discriminate].
    injection E0 as <-. now apply str_in_In. }
  destruct (truthy_name (List.find _ columns)) as [c1|] eqn:E1.
  { intros [= <-]. apply truthy_name_some in E1 as [E1 Hne]. split; [|assumption].
    now apply find_some in E1 as [Hin _]. }
  destruct (JsObject.lookup FIELD_MAPPINGS formKey) as [aliases|]; [|discriminate].
  intros H. apply truthy_name_some in H as [H Hne]. split; [|assumption].
  now apply find_some in H as [Hin _].
Qed.

Variable columns : list string.

Lemma patch_row_fold updatedData row :
  patch_row columns updatedData row =
  fold_left (patch_step columns updatedData) (JsObject.keys updatedData) row.
Proof. reflexivity. Qed.

Lemma patch_fold_untargeted updatedData formKeys row c :
  (forall formKey, In formKey formKeys ->
                   is_nullish (prop updatedData formKey) = true \/
                   target_column columns formKey <> Some c) ->
  JsObject.lookup (fold_left (patch_step columns updatedData) formKeys row) c =
  JsObject.lookup row c.
Proof.
  revert row. induction formKeys as [|k rest IH]; intros row H; simpl; [reflexivity|].
  rewrite IH by (intros; apply H; now right).
  unfold patch_step. destruct (H k (or_introl eq_refl)) as [Hn|Ht].
  - now rewrite Hn.
  - destruct (is_nullish (prop updatedData k)); [reflexivity|].
    destruct (target_column columns k) as [t|]; [|reflexivity].
    apply lookup_set_ne. congruence.
Qed.

Lemma patch_fold_keys updatedData formKeys row :
  (forall c, In c columns -> JsObject.lookup row c <> None) ->
  JsObject.keys (fold_left (patch_step columns updatedData) formKeys row) = JsObject.keys row /\
  (forall c, In c columns ->
             JsObject.lookup (fold_left (patch_step columns updatedData) formKeys row) c <> None).
Proof.
  revert row. induction formKeys as [|k rest IH]; intros row H; simpl; [now split|].
  assert (S : JsObject.keys (patch_step columns updatedData row k) = JsObject.keys row /\
              (forall c, In c columns ->
                         JsObject.lookup (patch_step columns updatedData row k) c <> None)).
  { unfold patch_step. destruct (is_nullish (prop updatedData k)); [now split|].
    destruct (target_column columns k) as [t|] eqn:Et; [|now split].
    apply target_column_in in Et as [Hin _]. split.
    - apply keys_set_present. now apply H.
    - intros c Hc. apply lookup_set_present. now apply H. }
  destruct S as [S1 S2]. destruct (IH _ S2) as [I1 I2]. split; [congruence|assumption].
Qed.

Lemma patch_fold_read_back updatedData before formKey after row c :
  is_nullish (prop updatedData formKey) = false ->
  target_column columns formKey = Some c ->
  (forall k, In k after ->
             is_nullish (prop updatedData k) = true \/
             target_column columns k <> Some c) ->
  JsObject.lookup
    (fold_left (patch_step columns updatedData) (before ++ formKey :: after) row) c =
  Some (prop updatedData formKey).
Proof.
  intros Hn Ht Hafter. rewrite fold_left_app. simpl.
  rewrite patch_fold_untargeted by assumption.
  unfold patch_step at 1. rewrite Hn, Ht. apply lookup_set_eq.
Qed.

End Patch.

(** X3. A patch stays within the sheet.  A column that no form key with a
    value resolves to keeps its cell, in particular every key that is not a
    column of the sheet; and when the row has a cell for every column of the
    sheet, patching neither adds nor reorders its keys. *)
Theorem patch_row_confined :
  forall (columns : list string) (updatedData row : MerchantRecord),
    (forall c,
        (forall formKey, In formKey (JsObject.keys updatedData) ->
                         is_nullish (prop updatedData formKey) = true \/
                         target_column columns formKey <> Some c) ->
        JsObject.lookup (patch_row columns updatedData row) c = JsObject.lookup row c) /\
    (forall c, ~ In c columns ->
               JsObject.lookup (patch_row columns updatedData row) c =
               JsObject.lookup row c) /\
    ((forall c, In c columns -> JsObject.lookup row c <> None) ->
     JsObject.keys (patch_row columns updatedData row) = JsObject.keys row).
Proof.
  intros columns updatedData row.
  assert (A : forall c,
             (forall formKey, In formKey (JsObject.keys updatedData) ->
                              is_nullish (prop updatedData formKey) = true \/
                              target_column columns formKey <> Some c) ->
             JsObject.lookup (patch_row columns updatedData row) c =
             JsObject.lookup row c).
  { intros c H. rewrite patch_row_fold. now apply patch_fold_untargeted. }
  split; [exact A|split].
  - intros c Hc. apply A. intros formKey _. right. intros Ht.
    apply target_column_in in Ht as [Hin _]. contradiction.
  - intros H. rewrite patch_row_fold. now apply patch_fold_keys.
Qed.

(** A concrete run of X3: a patch of the status leaves the identifier and
    the keys of the sample row alone. *)
Lemma patch_row_confined_witness :
  JsObject.lookup
    (patch_row ["MID"; "Merchant Name"; "Status"] Examples.patch Examples.hold_row) "MID"
  = JsObject.lookup Examples.hold_row "MID" /\
  JsObject.keys
    (patch_row ["MID"; "Merchant Name"; "Status"] Examples.patch Examples.hold_row)
  = JsObject.keys Examples.hold_row.
Proof.
  destruct (patch_row_confined ["MID"; "Merchant Name"; "Status"] Examples.patch
              Examples.hold_row) as (H1 & _ & H3).
  split.
  - apply H1. intros formKey Hin. vm_compute in Hin. destruct Hin as [<-|[]].
    right. vm_compute. discriminate.
  - apply H3. intros c Hc. vm_compute in Hc.
    destruct Hc as [<-|[<-|[<-|[]]]]; vm_compute; discriminate.
Defined.

(** X4. What is typed for a field is what its column holds after the patch:
    when a form key has a value (not [null] or [undefined]) and resolves to
    a column, and no later form key with a value resolves to the same
    column, the patched row holds that value in that column. *)
Theorem patch_row_read_back :
  forall (columns : list string) (updatedData row : MerchantRecord)
         (before after : list string) (formKey c : string),
    JsObject.keys updatedData = before ++ formKey :: after ->
    is_nullish (prop updatedData formKey) = false ->
    target_column columns formKey = Some c ->
    (forall k, In k after ->
               is_nullish (prop updatedData k) = true \/
               target_column columns k <> Some c) ->
    prop (patch_row columns updatedData row) c = prop updatedData formKey.
Proof.
  intros columns updatedData row before after formKey c Hk Hn Ht Hafter.
  assert (L : JsObject.lookup (patch_row columns updatedData row) c =
              Some (prop updatedData formKey)).
  { rewrite patch_row_fold, Hk. now apply patch_fold_read_back. }
  unfold prop at 1. now rewrite L.
Qed.

(** A concrete run of X4: the status typed in the form reaches the status
    column through the alias table. *)
Lemma patch_row_read_back_witness :
  prop (patch_row ["MID"; "Merchant Name"; "Status"] Examples.patch Examples.hold_row)
       "Status" = VStr "Closed".
Proof.
  apply (patch_row_read_back ["MID"; "Merchant Name"; "Status"] Examples.patch
           Examples.hold_row [] [] "Current Status" "Status").
  - reflexivity.
  - reflexivity.
  - vm_compute. reflexivity.
  - intros k [].
Defined.

(** ** Rewriting the file *)

Section Rewrite.

Lemma findIndex_some {A} (pred : A -> bool) (l : list A) i (d : A) :
  findIndex pred l = Some i ->
  (i < length l)%nat /\ pred (nth i l d) = true /\
  (forall j, (j < i)%nat -> pred (nth j l d) = false).
Proof.
  revert i. induction l as [|a r IH]; simpl; [discriminate|].
  intros i. destruct (pred a) eqn:E.
  - intros [= <-]. split; [lia|split; [assumption|lia]].
  - destruct (findIndex pred r) as [j|]; [|discriminate].
    intros [= <-]. destruct (IH j eq_refl) as (H1 & H2 & H3).
    split; [lia|split; [assumption|]].
    intros [|k] Hk; [assumption|]. apply H3. lia.
Qed.

Lemma length_set_nth {A} i (x : A) l : length (set_nth i x l) = length l.
Proof.
  revert i. induction l as [|a r IH]; intros [|i]; simpl; auto.
Qed.

Lemma nth_set_nth_eq {A} i (x d : A) l :
  (i < length l)%nat -> nth i (set_nth i x l) d = x.
Proof.
  revert i. induction l as [|a r IH]; intros [|i]; simpl; try lia; auto.
  intros H. apply IH. lia.
Qed.

Lemma nth_set_nth_ne {A} i j (x d : A) l :
  i <> j -> nth j (set_nth i x l) d = nth j l d.
Proof.
  revert i j. induction l as [|a r IH]; intros [|i] [|j] H; simpl; auto; try lia.
Qed.

Lemma sheet_rows_set_sheet_eq workbook sheetName sheet :
  sheet_rows (set_sheet workbook sheetName sheet) sheetName = sheet.
Proof. unfold sheet_rows, set_sheet. simpl. now rewrite lookup_set_eq. Qed.

Lemma Sheets_set_sheet_ne workbook sheetName sheet other :
  sheetName <> other ->
  JsObject.lookup (Sheets (set_sheet workbook sheetName sheet)) other =
  JsObject.lookup (Sheets workbook) other.
Proof. intros H. unfold set_sheet. simpl. now apply lookup_set_ne. Qed.

Lemma write_back_succeeds fileHandle workbook log :
  createWritable fileHandle = Normal tt ->
  write fileHandle = Normal tt ->
  close fileHandle = Normal tt ->
  write_back fileHandle workbook log =
  (Normal tt, log ++ [CreateWritable; Write workbook; Close]).
Proof.
  intros Hc Hw Hcl.
  unfold write_back, mbind, M_bind, Host.bind, emit, call.
  rewrite Hc, Hw, Hcl. now rewrite <- !app_assoc.
Qed.

End Rewrite.

(** X5. A successful update rewrites one row and nothing else.  When the
    update gets through (library loaded, identifier given, file linked,
    access granted, workbook read, identifier column resolved, a row found
    and the three write calls succeeding) it returns [true] after one
    write; the written workbook has the same sheet names, every other sheet
    as it was, and in the selected sheet the same number of rows, each as
    it was except the first row whose normalized identifier equals the
    normalized identifier asked for, which holds the patch. *)
Theorem updateRow_rewrites_one_row :
  forall (env : Env) (targetSheetType : SheetType) (midToFind : string)
         (updatedData : MerchantRecord) (fileHandle : FileHandle)
         (workbook : Workbook) (midCol : string) (i : nat),
    XLSX_loaded env = true ->
    midToFind <> EmptyString ->
    getMasterHandle env targetSheetType = Normal (Some fileHandle) ->
    access_granted fileHandle ->
    readWorkbook fileHandle = Normal workbook ->
    let sheetName := updateRow_sheetName workbook targetSheetType in
    let jsonData := updateRow_rows workbook targetSheetType in
    truthy_name (findMidColumn (first_row_keys jsonData)) = Some midCol ->
    findIndex (id_matches midCol midToFind) jsonData = Some i ->
    createWritable fileHandle = Normal tt ->
    write fileHandle = Normal tt ->
    close fileHandle = Normal tt ->
    exists written,
      run (updateRowInMasterSheet env targetSheetType midToFind updatedData) =
        (Normal true, [CreateWritable; Write written; Close]) /\
      SheetNames written = SheetNames workbook /\
      (forall other, other <> sheetName ->
                     JsObject.lookup (Sheets written) other =
                     JsObject.lookup (Sheets workbook) other) /\
      length (sheet_rows written sheetName) = length jsonData /\
      (forall j, j <> i ->
                 nth j (sheet_rows written sheetName) [] = nth j jsonData []) /\
      nth i (sheet_rows written sheetName) [] =
        patch_row (first_row_keys jsonData) updatedData (nth i jsonData []) /\
      id_matches midCol midToFind (nth i jsonData []) = true /\
      (forall j, (j < i)%nat -> id_matches midCol midToFind (nth j jsonData []) = false).
Proof.
  intros env targetSheetType midToFind updatedData fileHandle workbook midCol i
    Hx Hm Hh Ha Hr sheetName jsonData Hcol Hidx Hc Hw Hcl.
  rewrite (updateRow_after_read env targetSheetType midToFind updatedData
             fileHandle workbook Hx Hm Hh Ha Hr).
  fold sheetName. fold jsonData. cbv zeta. rewrite Hcol, Hidx.
  destruct (findIndex_some _ _ _ [] Hidx) as (Hlt & Hmatch & Hfirst).
  eexists. split.
  { unfold run, try_catch, mbind, M_bind, Host.bind.
    rewrite write_back_succeeds by assumption. reflexivity. }
  split; [reflexivity|].
  split; [intros other Ho; apply Sheets_set_sheet_ne; congruence|].
  rewrite sheet_rows_set_sheet_eq.
  split; [apply length_set_nth|].
  split; [intros j Hj; apply nth_set_nth_ne; congruence|].
  split; [now apply nth_set_nth_eq|].
  split; assumption.
Qed.

(** A concrete run of X5 on the sample workbook. *)
Lemma updateRow_rewrites_one_row_witness :
  exists written,
    run (updateRowInMasterSheet Examples.env HOLD "M200" Examples.patch) =
      (Normal true, [CreateWritable; Write written; Close]) /\
    SheetNames written = SheetNames Examples.book /\
    nth 0 (sheet_rows written "Sheet1") [] = Examples.hold_row.
Proof.
  destruct (updateRow_rewrites_one_row Examples.env HOLD "M200" Examples.patch
              Examples.handle Examples.book "MID" 1%nat)
    as (written & Hrun & Hnames & _ & _ & Hother & _); try reflexivity.
  - discriminate.
  - left. reflexivity.
  - exists written. split; [exact Hrun|split; [exact Hnames|]].
    apply (Hother 0%nat). discriminate.
Defined.

(** ** Appending the new entries *)

Section Append.

Variable env : Env.
Variable targetSheetName : TargetSheetName.
Variable databases : list ParsedDatabase.
Variable manualDb : ParsedDatabase.
Variable first : MerchantRecord.
Variable others : list MerchantRecord.
Variable fileHandle : FileHandle.
Variable workbook : Workbook.

Hypothesis library_loaded : XLSX_loaded env = true.
Hypothesis manual_found :
  List.find (fun d => String.eqb (fileName d) "System_Manual_Entry.xlsx") databases
  = Some manualDb.
Hypothesis of_kind :
  List.filter (is_of_kind (kind_of_target targetSheetName)) (data manualDb)
  = first :: others.
Hypothesis linked :
  getMasterHandle env (kind_of_target targetSheetName) = Normal (Some fileHandle).
Hypothesis access : access_granted fileHandle.
Hypothesis readable : readWorkbook fileHandle = Normal workbook.

(** The run of an append up to the point where the workbook has been read
    and the sheet chosen. *)
Lemma updateMasterSheet_after_read :
  run (updateMasterSheet env targetSheetName databases) =
  let type := kind_of_target targetSheetName in
  let sheetName := fst (updateMaster_sheet workbook targetSheetName type) in
  let workbook' := snd (updateMaster_sheet workbook targetSheetName type) in
  let existingData := sheet_rows workbook' sheetName in
  let columns := append_columns existingData first in
  let newRecords := first :: others in
  run (try_catch
         (_ ← write_back fileHandle
                (set_sheet workbook' sheetName
                   (existingData ++ map (map_entry columns) newRecords));
          _ ← emit (appended_alert (length newRecords) sheetName (handle_name fileHandle));
          mret true)
         (fun e =>
            _ ← emit (ConsoleError "File System Access Error:");
            _ ← (if String.eqb (exn_name e) "NotAllowedError" then
                   alert "Permission to write to file was denied."
                 else if String.eqb (exn_name e) "NotFoundError" then
                   alert "The linked file was moved or deleted. Please link the file again in Admin Dashboard."
                 else
                   alert ("Error updating file: " +:+ exn_message e +:+
                          ". Ensure the file is not open in another program."));
            mret false)).
Proof using library_loaded manual_found of_kind linked access readable.
  unfold updateMasterSheet, run. rewrite library_loaded. cbn [negb].
  rewrite manual_found.
  destruct manualDb as [fn rc dat cols]. simpl in of_kind.
  destruct dat as [|d0 dat']; [discriminate|].
  cbv zeta.
  change (match targetSheetName with Hold_Entries => HOLD | RM_Entries => RM end)
    with (kind_of_target targetSheetName).
  unfold data.
  change (List.filter
            (fun r => match prop r "_type" with
                      | VStr t => String.eqb t (SheetType_text (kind_of_target targetSheetName))
                      | _ => false
                      end) (d0 :: dat'))
    with (List.filter (is_of_kind (kind_of_target targetSheetName)) (d0 :: dat')).
  rewrite of_kind, linked.
  unfold try_catch at 1, mbind at 1, M_bind at 1, Host.bind at 1.
  rewrite verify_permission_granted by assumption.
  cbn [negb].
  unfold mbind at 1, M_bind at 1, Host.bind at 1, call at 1.
  rewrite readable.
  destruct (updateMaster_sheet workbook targetSheetName (kind_of_target targetSheetName))
    as [sheetName workbook'].
  reflexivity.
Qed.

End Append.

(** The sheet choice of an append keeps every sheet the workbook has. *)
Lemma updateMaster_sheet_keeps workbook target type name rows :
  JsObject.lookup (Sheets workbook) name = Some rows ->
  JsObject.lookup (Sheets (snd (updateMaster_sheet workbook target type))) name
  = Some rows.
Proof.
  intros H. unfold updateMaster_sheet.
  destruct (JsObject.lookup (Sheets workbook) (TargetSheetName_text target)) eqn:E;
    [assumption|].
  destruct (truthy_name (fuzzy_sheet (SheetNames workbook) type)); [assumption|].
  destruct (SheetNames workbook) as [|a [|b r]]; simpl; try assumption.
  - rewrite lookup_set_ne; [assumption|congruence].
  - rewrite lookup_set_ne; [assumption|congruence].
Qed.

(** X6. A successful append only adds rows at the end of one sheet.  When
    the append gets through (library loaded, manual entries of the kind
    present, file linked, access granted, workbook read, write calls
    succeeding) it returns [true] after one write and reports the number of
    new entries of that kind; in the written workbook every sheet of the
    file keeps all its rows, and only the chosen sheet grows, by exactly
    those entries, laid out on its columns, after its last row.  Entries of
    the other kind are not written. *)
Theorem updateMasterSheet_appends_at_end :
  forall (env : Env) (targetSheetName : TargetSheetName)
         (databases : list ParsedDatabase) (manualDb : ParsedDatabase)
         (first : MerchantRecord) (others : list MerchantRecord)
         (fileHandle : FileHandle) (workbook : Workbook),
    XLSX_loaded env = true ->
    List.find (fun d => String.eqb (fileName d) "System_Manual_Entry.xlsx") databases
      = Some manualDb ->
    List.filter (is_of_kind (kind_of_target targetSheetName)) (data manualDb)
      = first :: others ->
    getMasterHandle env (kind_of_target targetSheetName) = Normal (Some fileHandle) ->
    access_granted fileHandle ->
    readWorkbook fileHandle = Normal workbook ->
    createWritable fileHandle = Normal tt ->
    write fileHandle = Normal tt ->
    close fileHandle = Normal tt ->
    let chosen :=
      updateMaster_sheet workbook targetSheetName (kind_of_target targetSheetName) in
    let sheetName := fst chosen in
    let existingData := sheet_rows (snd chosen) sheetName in
    let appended :=
      map (map_entry (append_columns existingData first)) (first :: others) in
    exists written,
      run (updateMasterSheet env targetSheetName databases) =
        (Normal true,
         [CreateWritable; Write written; Close;
          appended_alert (S (length others)) sheetName (handle_name fileHandle)]) /\
      sheet_rows written sheetName = existingData ++ appended /\
      length (sheet_rows written sheetName) =
        (length existingData + S (length others))%nat /\
      (forall name rows,
          JsObject.lookup (Sheets workbook) name = Some rows ->
          JsObject.lookup (Sheets written) name =
          Some (if String.eqb name sheetName then rows ++ appended else rows)).
Proof.
  intros env targetSheetName databases manualDb first others fileHandle workbook
    Hx Hfind Hkind Hh Ha Hr Hc Hw Hcl chosen sheetName existingData appended.
  rewrite (updateMasterSheet_after_read env targetSheetName databases manualDb
             first others fileHandle workbook Hx Hfind Hkind Hh Ha Hr).
  cbv zeta. fold chosen. fold sheetName. fold existingData. fold appended.
  exists (set_sheet (snd chosen) sheetName (existingData ++ appended)).
  split.
  { unfold run, try_catch, mbind, M_bind, Host.bind.
    rewrite write_back_succeeds by assumption.
    reflexivity. }
  rewrite sheet_rows_set_sheet_eq.
  split; [reflexivity|].
  split.
  { rewrite List.length_app. unfold appended. now rewrite List.length_map. }
  intros name rows Hrows.
  pose proof (updateMaster_sheet_keeps workbook targetSheetName
                (kind_of_target targetSheetName) name rows Hrows) as Hkeep.
  fold chosen in Hkeep.
  destruct (String.eqb_spec name sheetName) as [->|Hne].
  - unfold set_sheet. simpl. rewrite lookup_set_eq. f_equal. f_equal.
    unfold existingData, sheet_rows. now rewrite Hkeep.
  - rewrite Sheets_set_sheet_ne by congruence. exact Hkeep.
Qed.

(** A concrete run of X6: the hold entry typed in by hand is appended after
    the row of the sample hold file; the entry of the other kind is not. *)
Lemma updateMasterSheet_appends_at_end_witness :
  exists written,
    run (updateMasterSheet Samples.env Hold_Entries [Examples.hold_jan; Samples.manual_db]) =
      (Normal true,
       [CreateWritable; Write written; Close;
        appended_alert 1 "Hold_Entries" "Hold.xlsx"]) /\
    sheet_rows written "Hold_Entries" =
      [Examples.hold_row;
       [("MID", VStr "M300"); ("Merchant Name", VStr "Cedar Co");
        ("Status", VStr "Active")]].
Proof.
  destruct (updateMasterSheet_appends_at_end Samples.env Hold_Entries
              [Examples.hold_jan; Samples.manual_db] Samples.manual_db
              Samples.manual_hold [] Samples.hold_handle Samples.hold_book)
    as (written & Hrun & Hrows & _); try reflexivity.
  - right. exists prompt. repeat split.
  - exists written. split; [exact Hrun|exact Hrows].
Defined.

(** X7. An append that does not get through leaves the file alone.
    Whatever the environment, the append ends by returning a boolean,
    unless [getMasterHandle] rejects, in which case the append rejects with
    that error before any effect; and its log shows a call that touches the
    file only when manual entries of the requested kind exist, the file of
    that kind is linked and its workbook was read. *)
Theorem updateMasterSheet_writes_only_new_entries :
  forall (env : Env) (targetSheetName : TargetSheetName)
         (databases : list ParsedDatabase),
    ((exists b,
         fst (run (updateMasterSheet env targetSheetName databases)) = Normal b) \/
     (exists e,
         getMasterHandle env (kind_of_target targetSheetName) = Abrupt e /\
         run (updateMasterSheet env targetSheetName databases) = (Abrupt e, []))) /\
    (existsb is_write_event (snd (run (updateMasterSheet env targetSheetName databases)))
     = true ->
     exists manualDb fileHandle workbook,
       List.find (fun d => String.eqb (fileName d) "System_Manual_Entry.xlsx") databases
         = Some manualDb /\
       List.filter (is_of_kind (kind_of_target targetSheetName)) (data manualDb) <> [] /\
       getMasterHandle env (kind_of_target targetSheetName) = Normal (Some fileHandle) /\
       readWorkbook fileHandle = Normal workbook).
Proof.
  intros env targetSheetName databases.
  unfold updateMasterSheet, run.
  destruct (XLSX_loaded env); cbn [negb];
    [|split; [left; now exists false|discriminate]].
  destruct (List.find _ databases) as [manualDb|] eqn:Efind;
    [|split; [left; now exists false|discriminate]].
  destruct manualDb as [fn rc dat cols].
  destruct dat as [|d0 dat']; [split; [left; now exists false|discriminate]|].
  cbv zeta.
  change (match targetSheetName with Hold_Entries => HOLD | RM_Entries => RM end)
    with (kind_of_target targetSheetName).
  unfold data.
  change (List.filter
            (fun r => match prop r "_type" with
                      | VStr t => String.eqb t (SheetType_text (kind_of_target targetSheetName))
                      | _ => false
                      end) (d0 :: dat'))
    with (List.filter (is_of_kind (kind_of_target targetSheetName)) (d0 :: dat')).
  destruct (List.filter _ (d0 :: dat')) as [|first others] eqn:Ekind;
    [split; [left; now exists false|discriminate]|].
  destruct (getMasterHandle env (kind_of_target targetSheetName)) as [[fh|]|e0] eqn:Eh;
    [|split; [left; now exists false|discriminate]
     |split; [right; now exists e0|discriminate]].
  cbv beta iota delta [try_catch mbind M_bind Host.bind verify_permission call mret
                         M_ret Host.ret alert emit write_back].
  cbn [app].
  destruct (queryPermission fh) as [q|e]; cbn [is_granted negb fst snd app].
  2: { repeat destruct (String.eqb (exn_name _) _);
       (split; [left; now exists false|discriminate]). }
  destruct q; cbn [is_granted negb fst snd app].
  all: try (destruct (requestPermission fh) as [[]|e'];
            cbn [is_granted negb fst snd app];
            try (repeat destruct (String.eqb (exn_name _) _);
                 (split; [left; now exists false|discriminate]))).
  all: destruct (readWorkbook fh) as [wb|e''] eqn:Erd;
         [|repeat destruct (String.eqb (exn_name _) _);
           (split; [left; now exists false|discriminate])].
  all: destruct (updateMaster_sheet wb targetSheetName (kind_of_target targetSheetName))
         as [sheetName wb'].
  all: split;
         [left|intros _; exists {| fileName := fn; rowCount := rc; data := d0 :: dat';
                                columns := cols |}, fh, wb;
           unfold data; rewrite Ekind; repeat split; auto; discriminate].
  all: destruct (createWritable fh);
         [|repeat destruct (String.eqb (exn_name _) _); now exists false].
  all: destruct (write fh);
         [|repeat destruct (String.eqb (exn_name _) _); now exists false].
  all: destruct (close fh);
         [now exists true
         |repeat destruct (String.eqb (exn_name _) _); now exists false].
Qed.

(** A concrete run of X7: with no table of manual entries the append fails
    and its log shows no call on the file. *)
Lemma updateMasterSheet_writes_only_new_entries_witness :
  existsb is_write_event
    (snd (run (updateMasterSheet Samples.env Hold_Entries [Examples.hold_jan]))) = false.
Proof.
  destruct (updateMasterSheet_writes_only_new_entries Samples.env Hold_Entries
              [Examples.hold_jan]) as [_ H].
  destruct (existsb is_write_event _) eqn:E; [|reflexivity].
  destruct (H eq_refl) as (manualDb & _ & _ & Hfind & _). discriminate.
Defined.

(** ** Importing and exporting the configuration *)

Section ImportProfiles.

Lemma find_app_first {A} (f : A -> bool) (l1 l2 : list A) :
  List.find f (l1 ++ l2) =
  match List.find f l1 with Some x => Some x | None => List.find f l2 end.
Proof.
  induction l1 as [|x l1 IH]; simpl; [reflexivity|].
  destruct (f x); [reflexivity|exact IH].
Qed.

Lemma key_eqb_text k s : Json.key_eqb k (Json.JStr s) = true <-> k = Json.JStr s.
Proof.
  destruct k; simpl; split; try discriminate.
  - intros H. apply String.eqb_eq in H. now subst.
  - intros [= ->]. apply String.eqb_refl.
Qed.

Lemma store_put_text p s store :
  Json.member p "id" = Some (Json.JStr s) ->
  store_put p store = Normal (put_entry (Json.JStr s) p store).
Proof. intros H. unfold store_put. now rewrite H. Qed.

Lemma store_get_put_entry s q v store :
  store_get (Json.JStr q) (put_entry (Json.JStr s) v store) =
  if String.eqb s q then Some v else store_get (Json.JStr q) store.
Proof.
  unfold store_get. induction store as [|[k0 v0] r IH]; simpl.
  - destruct (String.eqb s q); reflexivity.
  - destruct (Json.key_eqb k0 (Json.JStr s)) eqn:E; simpl.
    + apply key_eqb_text in E. subst k0. simpl.
      destruct (String.eqb s q); reflexivity.
    + destruct (Json.key_eqb k0 (Json.JStr q)) eqn:E'; simpl.
      * apply key_eqb_text in E'. subst k0. simpl in E.
        destruct (String.eqb_spec s q) as [->|Hne]; [|reflexivity].
        now rewrite String.eqb_refl in E.
      * exact IH.
Qed.

Lemma put_all_text profiles store :
  ids_are_text profiles ->
  snd (put_all profiles store) = None /\
  forall q,
    store_get (Json.JStr q) (fst (put_all profiles store)) =
    match last_with_id q profiles with
    | Some p => Some p
    | None => store_get (Json.JStr q) store
    end.
Proof.
  revert store. induction profiles as [|p rest IH]; intros store Hids; simpl.
  - split; [reflexivity|]. intros q. reflexivity.
  - destruct (Hids p (or_introl eq_refl)) as (s & Hs).
    rewrite (store_put_text p s store Hs).
    destruct (IH (put_entry (Json.JStr s) p store)) as [I1 I2].
    { intros p' Hp'. apply Hids. now right. }
    split; [exact I1|]. intros q. rewrite I2.
    unfold last_with_id. simpl rev. rewrite find_app_first.
    destruct (List.find _ (rev rest)) as [p'|]; [reflexivity|].
    simpl. rewrite Hs, store_get_put_entry.
    destruct (String.eqb s q); reflexivity.
Qed.

End ImportProfiles.

(** X8. A valid document is imported in full.  When the document has an
    array of profiles whose ids are texts, the database opens and the
    transaction completes, the import resolves to [true]; afterwards the
    record stored under an id is the last profile of the document with that
    id, or what was stored before when the document has none; and the
    active profile is the one the document names, or is left unchanged when
    the document names none. *)
Theorem importSystemConfig_applies_document :
  forall (env : StorageEnv) (stores : Stores) (jsonString : string)
         (members : JsObject.Obj Json.t) (profiles : list Json.t),
    JSON_parse env jsonString = Normal (Json.JObj members) ->
    JsObject.lookup members "profiles" = Some (Json.JArr profiles) ->
    ids_are_text profiles ->
    initDB env = Normal tt ->
    transaction_outcome env = Normal tt ->
    let after := snd (importSystemConfig env stores jsonString) in
    fst (importSystemConfig env stores jsonString) = Normal true /\
    (forall q,
        store_get (Json.JStr q) (user_profiles after) =
        match last_with_id q profiles with
        | Some p => Some p
        | None => store_get (Json.JStr q) (user_profiles stores)
        end) /\
    getActiveProfileId (localStorage after) =
      match JsObject.lookup members "activeProfileId" with
      | Some v => if Json.truthy (Some v) then Some (Json.to_text v)
                  else getActiveProfileId (localStorage stores)
      | None => getActiveProfileId (localStorage stores)
      end.
Proof.
  intros env stores jsonString members profiles Hparse Hprof Hids Hdb Htx after.
  unfold after, importSystemConfig. rewrite Hparse. simpl Json.member.
  rewrite Hprof. simpl. rewrite Hdb, Htx.
  destruct (put_all_text profiles (user_profiles stores) Hids) as [P1 P2].
  destruct (put_all profiles (user_profiles stores)) as [requested err].
  simpl in P1, P2. subst err. simpl.
  split; [reflexivity|split; [exact P2|]].
  destruct (JsObject.lookup members "activeProfileId") as [v|]; [|reflexivity].
  destruct (Json.truthy (Some v)) eqn:Et;
    [|simpl in Et; rewrite Et; reflexivity].
  unfold setActiveProfileId, getActiveProfileId. rewrite Et.
  simpl in Et. rewrite Et. apply lookup_insert_eq.
Qed.

(** The document of the sample: both ids are stored afterwards, the second
    with its later profile, and the active profile is the one named. *)
Lemma importSystemConfig_applies_document_witness :
  let env := Samples.storage_env Samples.document (Normal tt) in
  let after := snd (importSystemConfig env Examples.stores "{}") in
  fst (importSystemConfig env Examples.stores "{}") = Normal true /\
  store_get (Json.JStr "p0") (user_profiles after)
    = store_get (Json.JStr "p0") (user_profiles Examples.stores) /\
  store_get (Json.JStr "p2") (user_profiles after) = Some Samples.profile_b' /\
  getActiveProfileId (localStorage after) = Some "p2".
Proof.
  intros env after.
  destruct (importSystemConfig_applies_document env Examples.stores "{}"
              [("version", Json.JNum (of_Z 1));
               ("activeProfileId", Json.JStr "p2");
               ("profiles", Json.JArr [Samples.profile_a; Samples.profile_b;
                                       Samples.profile_b'])]
              [Samples.profile_a; Samples.profile_b; Samples.profile_b'])
    as (H1 & H2 & H3); try reflexivity.
  - intros p [<-|[<-|[<-|[]]]]; eexists; reflexivity.
  - split; [exact H1|]. split; [exact (H2 "p0")|]. split; [exact (H2 "p2")|exact H3].
Defined.

Section ImportFailures.

Lemma put_all_app l1 l2 store :
  put_all (l1 ++ l2) store =
  match snd (put_all l1 store) with
  | None => put_all l2 (fst (put_all l1 store))
  | Some e => put_all l1 store
  end.
Proof.
  revert store. induction l1 as [|p r IH]; intros store; simpl; [reflexivity|].
  destruct (store_put p store) as [store'|e]; [apply IH|reflexivity].
Qed.

Lemma store_put_keyless p store :
  has_key p = false -> store_put p store = Abrupt DataError.
Proof.
  unfold has_key, store_put. intros H.
  destruct (Json.member p "id") as [k|]; [now rewrite H|reflexivity].
Qed.

End ImportFailures.

(** X9. The import is not atomic across the two stores.  Whenever the
    transaction fails the profile store is exactly as before; yet for a
    valid document that names an active profile the promise rejects with
    the transaction's error while local storage already holds the new
    active profile id. *)
Theorem importSystemConfig_failed_transaction :
  forall (env : StorageEnv) (stores : Stores) (jsonString : string) (e : Exn),
    transaction_outcome env = Abrupt e ->
    user_profiles (snd (importSystemConfig env stores jsonString)) = user_profiles stores /\
    forall (members : JsObject.Obj Json.t) (profiles : list Json.t) (v : Json.t),
      JSON_parse env jsonString = Normal (Json.JObj members) ->
      JsObject.lookup members "profiles" = Some (Json.JArr profiles) ->
      ids_are_text profiles ->
      initDB env = Normal tt ->
      JsObject.lookup members "activeProfileId" = Some v ->
      Json.truthy (Some v) = true ->
      fst (importSystemConfig env stores jsonString) = Abrupt e /\
      getActiveProfileId (localStorage (snd (importSystemConfig env stores jsonString)))
        = Some (Json.to_text v).
Proof.
  intros env stores jsonString e Htx. split.
  - unfold importSystemConfig. rewrite Htx.
    destruct (JSON_parse env jsonString) as [config|]; [|reflexivity].
    destruct config; try reflexivity;
      match goal with
      | |- context [if ?c then _ else _] => destruct c; [reflexivity|]
      end;
      (destruct (initDB env); [|reflexivity]);
      match goal with
      | |- context [put_all ?l ?s] => destruct (put_all l s) as [requested [err|]]
      end; reflexivity.
  - intros members profiles v Hparse Hprof Hids Hdb Hact Hv.
    unfold importSystemConfig. rewrite Hparse. simpl Json.member.
    rewrite Hprof, Hact. rewrite Hv.
    replace (negb (Json.truthy (Some (Json.JArr profiles))) ||
             negb (Json.isArray (Some (Json.JArr profiles)))) with false by reflexivity.
    rewrite Hdb, Htx.
    destruct (put_all_text profiles (user_profiles stores) Hids) as [P1 _].
    destruct (put_all profiles (user_profiles stores)) as [requested err].
    simpl in P1. subst err. cbn [fst snd localStorage].
    split; [reflexivity|].
    unfold setActiveProfileId, getActiveProfileId. rewrite Hv.
    apply lookup_insert_eq.
Qed.

(** A transaction that runs out of quota: nothing is stored, the active
    profile has changed from p0 to p2. *)
Lemma importSystemConfig_failed_transaction_witness :
  let env := Samples.storage_env Samples.document (Abrupt Samples.QuotaExceeded) in
  user_profiles (snd (importSystemConfig env Examples.stores "{}"))
    = user_profiles Examples.stores /\
  fst (importSystemConfig env Examples.stores "{}") = Abrupt Samples.QuotaExceeded /\
  getActiveProfileId (localStorage (snd (importSystemConfig env Examples.stores "{}")))
    = Some "p2".
Proof.
  intros env.
  destruct (importSystemConfig_failed_transaction env Examples.stores "{}"
              Samples.QuotaExceeded eq_refl) as [H1 H2].
  split; [exact H1|].
  apply (H2 [("version", Json.JNum (of_Z 1));
             ("activeProfileId", Json.JStr "p2");
             ("profiles", Json.JArr [Samples.profile_a; Samples.profile_b;
                                     Samples.profile_b'])]
            [Samples.profile_a; Samples.profile_b; Samples.profile_b']
            (Json.JStr "p2")); try reflexivity.
  intros p [<-|[<-|[<-|[]]]]; eexists; reflexivity.
Defined.

(** X10. A profile without a valid key stops the import half way.  When
    the profiles before it carry text ids and the transaction completes,
    the promise rejects with the [DataError] of [put], the profiles before
    the offending one are stored, none of those after it is, and the active
    profile is left as it was. *)
Theorem importSystemConfig_stops_at_keyless_profile :
  forall (env : StorageEnv) (stores : Stores) (jsonString : string)
         (members : JsObject.Obj Json.t) (good rest : list Json.t) (bad : Json.t),
    JSON_parse env jsonString = Normal (Json.JObj members) ->
    JsObject.lookup members "profiles" = Some (Json.JArr (good ++ bad :: rest)) ->
    ids_are_text good ->
    has_key bad = false ->
    initDB env = Normal tt ->
    transaction_outcome env = Normal tt ->
    let after := snd (importSystemConfig env stores jsonString) in
    fst (importSystemConfig env stores jsonString) = Abrupt DataError /\
    (forall q,
        store_get (Json.JStr q) (user_profiles after) =
        match last_with_id q good with
        | Some p => Some p
        | None => store_get (Json.JStr q) (user_profiles stores)
        end) /\
    localStorage after = localStorage stores.
Proof.
  intros env stores jsonString members good rest bad Hparse Hprof Hids Hbad Hdb Htx after.
  unfold after, importSystemConfig. rewrite Hparse. simpl Json.member.
  rewrite Hprof.
  replace (negb (Json.truthy (Some (Json.JArr (good ++ bad :: rest)))) ||
           negb (Json.isArray (Some (Json.JArr (good ++ bad :: rest))))) with false
    by reflexivity.
  rewrite Hdb, Htx. rewrite put_all_app.
  destruct (put_all_text good (user_profiles stores) Hids) as [P1 P2].
  destruct (put_all good (user_profiles stores)) as [requested err].
  simpl in P1, P2. subst err. cbn [fst snd put_all].
  rewrite (store_put_keyless bad requested Hbad). cbn [fst snd user_profiles localStorage].
  split; [reflexivity|split; [exact P2|reflexivity]].
Qed.

(** The broken sample: Ann is stored, Ben (after the profile without id)
    is not, and p0 stays the active profile. *)
Lemma importSystemConfig_stops_at_keyless_profile_witness :
  let env := Samples.storage_env Samples.broken_document (Normal tt) in
  let after := snd (importSystemConfig env Examples.stores "{}") in
  fst (importSystemConfig env Examples.stores "{}") = Abrupt DataError /\
  store_get (Json.JStr "p1") (user_profiles after) = Some Samples.profile_a /\
  store_get (Json.JStr "p2") (user_profiles after) = None /\
  localStorage after = localStorage Examples.stores.
Proof.
  intros env after.
  destruct (importSystemConfig_stops_at_keyless_profile env Examples.stores "{}"
              [("version", Json.JNum (of_Z 1));
               ("activeProfileId", Json.JStr "p2");
               ("profiles", Json.JArr [Samples.profile_a; Samples.profile_anon;
                                       Samples.profile_b])]
              [Samples.profile_a] [Samples.profile_b] Samples.profile_anon)
    as (H1 & H2 & H3); try reflexivity.
  - intros p [<-|[]]; eexists; reflexivity.
  - split; [exact H1|]. split; [exact (H2 "p1")|]. split; [exact (H2 "p2")|exact H3].
Defined.

Section RoundTrip.

Lemma put_entry_stored s v store :
  List.NoDup (map fst store) ->
  In (Json.JStr s, v) store ->
  put_entry (Json.JStr s) v store = store.
Proof.
  induction store as [|[k0 v0] r IH]; simpl; [tauto|].
  intros Hnd Hin. apply List.NoDup_cons_iff in Hnd as [Hk0 Hnd].
  destruct (Json.key_eqb k0 (Json.JStr s)) eqn:E.
  - apply key_eqb_text in E. subst k0.
    destruct Hin as [[= ->]|Hin]; [reflexivity|].
    exfalso. apply Hk0. apply (List.in_map fst) in Hin. exact Hin.
  - destruct Hin as [[= -> ->]|Hin].
    + simpl in E. now rewrite String.eqb_refl in E.
    + now rewrite IH.
Qed.

Lemma put_all_stored profiles store :
  store_by_id store ->
  (forall p, In p profiles -> In p (map snd store)) ->
  put_all profiles store = (store, None).
Proof.
  intros [Hnd Hid]. induction profiles as [|p r IH]; intros Hin; simpl; [reflexivity|].
  destruct (proj1 (List.in_map_iff snd store p) (Hin p (or_introl eq_refl)))
    as ([k v] & Hv & Hkv).
  simpl in Hv. subst v.
  destruct (Hid k p Hkv) as (s & -> & Hs).
  rewrite (store_put_text p s store Hs), (put_entry_stored s p store Hnd Hkv).
  apply IH. intros p' Hp'. apply Hin. now right.
Qed.

End RoundTrip.

(** X11. Importing what was just exported changes nothing.  For a profile
    store whose records sit under their own text ids, an export document
    made of the stored active profile id and of the stored profiles, in
    whatever order the store lists them, imports with result [true] and
    leaves the profile store and local storage as they are. *)
Theorem export_then_import_is_identity :
  forall (env : StorageEnv) (stores : Stores) (jsonString exportedAt : string)
         (profiles : list Json.t),
    store_by_id (user_profiles stores) ->
    Permutation profiles (stored_profiles stores) ->
    JSON_parse env jsonString =
      Normal (exportSystemConfig_document exportedAt
                (getActiveProfileId (localStorage stores)) profiles) ->
    initDB env = Normal tt ->
    transaction_outcome env = Normal tt ->
    importSystemConfig env stores jsonString = (Normal true, stores).
Proof.
  intros env stores jsonString exportedAt profiles Hst Hperm Hparse Hdb Htx.
  unfold importSystemConfig. rewrite Hparse.
  unfold exportSystemConfig_document. simpl Json.member.
  replace (negb (Json.truthy (Some (Json.JArr profiles))) ||
           negb (Json.isArray (Some (Json.JArr profiles)))) with false by reflexivity.
  rewrite Hdb, Htx.
  rewrite (put_all_stored profiles (user_profiles stores) Hst).
  2:{ intros p Hp. apply (Permutation_in _ Hperm Hp). }
  destruct stores as [store ls]. cbn [user_profiles localStorage].
  f_equal. f_equal.
  unfold getActiveProfileId. destruct (ls !! ACTIVE_PROFILE_KEY) as [s|] eqn:E.
  - destruct s as [|c s]; [reflexivity|].
    unfold setActiveProfileId. cbn [Json.truthy Json.to_text].
    apply insert_id. exact E.
  - reflexivity.
Qed.

(** The sample stores and their own export. *)
Lemma export_then_import_is_identity_witness :
  let doc := exportSystemConfig_document "2024-03-05T10:00:00.000Z"
               (getActiveProfileId (localStorage Examples.stores))
               (stored_profiles Examples.stores) in
  importSystemConfig (Samples.storage_env doc (Normal tt)) Examples.stores "{}"
    = (Normal true, Examples.stores).
Proof.
  intros doc.
  apply (export_then_import_is_identity (Samples.storage_env doc (Normal tt))
           Examples.stores "{}" "2024-03-05T10:00:00.000Z"
           (stored_profiles Examples.stores)).
  - split.
    + simpl. repeat constructor. intros H. inversion H.
    + intros k v [[= <- <-]|[]]. eexists. split; reflexivity.
  - reflexivity.
  - reflexivity.
  - reflexivity.
  - reflexivity.
Defined.

(** X12. The active profile id reads back as written.  After
    [setActiveProfileId] the stored id is the text of the given value when
    that value is truthy, and there is none otherwise (null, the empty
    text); every other entry of local storage is untouched.  Choosing no
    profile in [handleProfileChange] therefore clears the stored id. *)
Theorem setActiveProfileId_read_back :
  forall (id : option Json.t) (ls : gmap string string),
    getActiveProfileId (setActiveProfileId id ls) =
      (if Json.truthy id then option_map Json.to_text id else None) /\
    (forall k, k <> ACTIVE_PROFILE_KEY -> setActiveProfileId id ls !! k = ls !! k) /\
    getActiveProfileId (handleProfileChange None ls) = None.
Proof.
  intros id ls. unfold getActiveProfileId, handleProfileChange, setActiveProfileId.
  split; [|split].
  - destruct id as [v|]; [|apply lookup_delete_eq].
    destruct (Json.truthy (Some v)); [apply lookup_insert_eq|apply lookup_delete_eq].
  - intros k Hk. destruct id as [v|]; [|now apply lookup_delete_ne].
    destruct (Json.truthy (Some v));
      [now apply lookup_insert_ne|now apply lookup_delete_ne].
  - apply lookup_delete_eq.
Qed.

(** Choosing the profile p1 leaves the other entries of local storage
    alone, and choosing none clears the stored id. *)
Lemma setActiveProfileId_read_back_witness :
  setActiveProfileId (Some (Json.JStr "p1")) (localStorage Examples.stores) !! "theme"
    = localStorage Examples.stores !! "theme" /\
  getActiveProfileId (handleProfileChange None (localStorage Examples.stores)) = None.
Proof.
  destruct (setActiveProfileId_read_back (Some (Json.JStr "p1"))
              (localStorage Examples.stores)) as (_ & H & H').
  split; [apply H; discriminate|exact H'].
Defined.

(** ** Column detection and the table configurations *)

Section Detection.

Lemma find_ext_all {A} (f g : A -> bool) (l : list A) :
  (forall x, f x = g x) -> List.find f l = List.find g l.
Proof.
  intros H. induction l as [|x l IH]; simpl; [reflexivity|].
  now rewrite H, IH.
Qed.

Lemma str_in_normal v (candidates : list string) :
  str_in (normalizeKey v) candidates =
  str_in (normalizeKey v) (List.filter is_normal candidates).
Proof.
  unfold str_in. induction candidates as [|c r IH]; simpl; [reflexivity|].
  destruct (is_normal c) eqn:E; simpl; rewrite IH; [reflexivity|].
  destruct (String.eqb_spec (normalizeKey v) c) as [<-|_]; [|reflexivity].
  unfold is_normal in E. now rewrite normalizeKey_key_chars in E.
Qed.

Lemma find_some_in {A} (f : A -> bool) (l : list A) (x : A) :
  List.find f l = Some x -> In x l /\ f x = true.
Proof. apply List.find_some. Qed.

Lemma auto_match_some (cols : list string) (field col : string) :
  auto_match cols field = Some col ->
  In col cols /\ col <> EmptyString /\
  (normalizeKey (VStr col) = normalizeKey (VStr field) \/
   exists aliases, JsObject.lookup FIELD_ALIASES field = Some aliases /\
                   str_in (normalizeKey (VStr col)) aliases = true).
Proof.
  unfold auto_match. intros H. apply truthy_name_some in H as [H Hne].
  destruct (truthy_name (List.find _ cols)) eqn:Ed.
  - apply find_some_in in H as [Hin Heq]. apply String.eqb_eq in Heq. auto.
  - destruct (JsObject.lookup FIELD_ALIASES field) as [aliases|] eqn:Ea.
    + apply find_some_in in H as [Hin Heq]. split; [exact Hin|split; [exact Hne|]].
      right. exists aliases. now split.
    + apply find_some_in in H as [Hin Heq]. apply String.eqb_eq in Heq. auto.
Qed.

Lemma generateAutoMap_fold (cols fields : list string) (acc : gmap string string)
    (field col : string) :
  fold_left
    (fun autoMap field =>
       match auto_match cols field with
       | Some col => <[field := col]> autoMap
       | None => autoMap
       end)
    fields acc !! field = Some col ->
  acc !! field = Some col \/ (In field fields /\ auto_match cols field = Some col).
Proof.
  revert acc. induction fields as [|f r IH]; intros acc; simpl; [now left|].
  intros H. apply IH in H as [H|[H1 H2]]; [|right; split; [now right|exact H2]].
  destruct (auto_match cols f) as [c|] eqn:Ef; [|now left].
  destruct (String.eqb_spec f field) as [<-|Hne].
  - rewrite lookup_insert_eq in H. injection H as <-. right. split; [now left|exact Ef].
  - rewrite lookup_insert_ne in H by exact Hne. now left.
Qed.

Lemma first_nonempty_in (a b : option string) (l : list string) :
  (forall s, a = Some s -> In s l) ->
  (forall s, b = Some s -> In s l) ->
  first_nonempty a b = EmptyString \/ In (first_nonempty a b) l.
Proof.
  intros Ha Hb. unfold first_nonempty.
  destruct a as [[|c s]|]; simpl.
  - destruct b as [s|]; simpl; [right; now apply Hb|now left].
  - right. now apply Ha.
  - destruct b as [s|]; simpl; [right; now apply Hb|now left].
Qed.

Lemma makeDbConfigs_fold activeProfile (dbs : list ParsedDatabase)
    (acc : gmap string DbConfig.t) (name : string) :
  fold_left (fun cfgs db => <[fileName db := makeDbConfig activeProfile db]> cfgs) dbs acc
    !! name =
  match List.find (fun db => String.eqb (fileName db) name) (rev dbs) with
  | Some db => Some (makeDbConfig activeProfile db)
  | None => acc !! name
  end.
Proof.
  revert acc. induction dbs as [|d r IH]; intros acc; simpl; [reflexivity|].
  rewrite IH, find_app_first.
  destruct (List.find _ (rev r)); [reflexivity|]. simpl.
  destruct (String.eqb_spec (fileName d) name) as [<-|Hne].
  - apply lookup_insert_eq.
  - now apply lookup_insert_ne.
Qed.

End Detection.

(** X13. Candidate names with an underscore are dead.  The detection of the
    id and name columns compares normalized column names, which hold lower
    case letters and digits only, so a column is detected exactly when its
    normalized name is one of the candidates without underscore. *)
Theorem column_detection_ignores_underscore_candidates :
  forall (columns : list string),
    findMidColumn columns =
      List.find (fun col => str_in (normalizeKey (VStr col))
                   ["mid"; "merchantid"; "id"; "accountid"; "outletid"; "midnumber";
                    "partyid"; "orgmid"; "accountnumber"; "cardacceptor"; "merchnum"])
                columns /\
    findNameColumn columns =
      List.find (fun col => str_in (normalizeKey (VStr col))
                   ["merchantname"; "name"; "merchant"; "legalname"; "dba";
                    "doingbusinessas"; "mname"; "outletname"])
                columns.
Proof.
  intros columns. unfold findMidColumn, findNameColumn. split.
  - apply find_ext_all. intros col. apply (str_in_normal (VStr col) mid_candidates).
  - apply find_ext_all. intros col. apply (str_in_normal (VStr col) name_candidates).
Qed.

(** X14. The automatic mapping points at real columns.  Every entry of
    [generateAutoMap] maps a form field to a non-empty column of the table
    whose normalized name is that of the field or one of the field's
    aliases. *)
Theorem generateAutoMap_maps_to_columns :
  forall (cols : list string) (field col : string),
    generateAutoMap cols !! field = Some col ->
    In field ALL_FORM_FIELDS /\ In col cols /\ col <> EmptyString /\
    (normalizeKey (VStr col) = normalizeKey (VStr field) \/
     exists aliases, JsObject.lookup FIELD_ALIASES field = Some aliases /\
                     str_in (normalizeKey (VStr col)) aliases = true).
Proof.
  intros cols field col H.
  apply (generateAutoMap_fold cols ALL_FORM_FIELDS ∅) in H as [H|[H1 H2]].
  - rewrite lookup_empty in H. discriminate.
  - split; [exact H1|]. now apply auto_match_some.
Qed.

(** A table with a manager column under an alias. *)
Lemma generateAutoMap_maps_to_columns_witness :
  In "RM Name" ALL_FORM_FIELDS /\
  In "Relationship Manager" ["MID"; "Relationship Manager"] /\
  "Relationship Manager" <> EmptyString /\
  (normalizeKey (VStr "Relationship Manager") = normalizeKey (VStr "RM Name") \/
   exists aliases, JsObject.lookup FIELD_ALIASES "RM Name" = Some aliases /\
                   str_in (normalizeKey (VStr "Relationship Manager")) aliases = true).
Proof.
  apply (generateAutoMap_maps_to_columns ["MID"; "Relationship Manager"]).
  vm_compute. reflexivity.
Defined.

(** X15. Every loaded table gets a configuration, built from its own
    columns.  When the loaded tables have distinct file names, the
    configurations hold for each table the one computed from it, and
    nothing for a file that is not loaded; the id and name columns of a
    configuration are columns of the table, or empty. *)
Theorem makeDbConfigs_covers_tables :
  forall (activeProfile : option UserProfile.t) (databases : list ParsedDatabase),
    List.NoDup (map fileName databases) ->
    (forall db, In db databases ->
       makeDbConfigs activeProfile databases !! fileName db
         = Some (makeDbConfig activeProfile db)) /\
    (forall name, ~ In name (map fileName databases) ->
       makeDbConfigs activeProfile databases !! name = None) /\
    (forall db,
       (DbConfig.midCol (makeDbConfig activeProfile db) = EmptyString \/
        In (DbConfig.midCol (makeDbConfig activeProfile db)) (columns db)) /\
       (DbConfig.nameCol (makeDbConfig activeProfile db) = EmptyString \/
        In (DbConfig.nameCol (makeDbConfig activeProfile db)) (columns db))).
Proof.
  intros activeProfile databases Hnd. split; [|split].
  - intros db Hin. unfold makeDbConfigs. rewrite makeDbConfigs_fold.
    destruct (List.find _ (rev databases)) as [db'|] eqn:E.
    + apply find_some_in in E as [Hin' Heq].
      apply String.eqb_eq in Heq. apply List.in_rev in Hin'.
      f_equal. f_equal.
      clear activeProfile. induction databases as [|d r IH]; [destruct Hin|].
      simpl in Hnd. apply List.NoDup_cons_iff in Hnd as [Hd Hnd].
      destruct Hin as [->|Hin], Hin' as [->|Hin']; try reflexivity.
      * exfalso. apply Hd. rewrite <- Heq. now apply List.in_map.
      * exfalso. apply Hd. rewrite Heq. now apply List.in_map.
      * now apply IH.
    + assert (Hf := List.find_none _ _ E db (proj1 (List.in_rev _ _) Hin)).
      simpl in Hf. now rewrite String.eqb_refl in Hf.
  - intros name Hname. unfold makeDbConfigs. rewrite makeDbConfigs_fold.
    destruct (List.find _ (rev databases)) as [db'|] eqn:E; [|apply lookup_empty].
    apply find_some_in in E as [Hin' Heq].
    apply String.eqb_eq in Heq. apply List.in_rev in Hin'.
    exfalso. apply Hname. rewrite <- Heq. now apply List.in_map.
  - intros db. unfold makeDbConfig. cbn [DbConfig.midCol DbConfig.nameCol]. split.
    + apply first_nonempty_in.
      * intros s Hs. unfold findMidColumn in Hs. now apply find_some_in in Hs.
      * intros s Hs. now apply List.nth_error_In in Hs.
    + apply first_nonempty_in.
      * intros s Hs. unfold findNameColumn in Hs. now apply find_some_in in Hs.
      * intros s Hs. now apply List.nth_error_In in Hs.
Qed.

(** The two sample tables. *)
Lemma makeDbConfigs_covers_tables_witness :
  makeDbConfigs None Examples.tables !! fileName Examples.hold_jan
    = Some (makeDbConfig None Examples.hold_jan).
Proof.
  assert (Hnd : List.NoDup (map fileName Examples.tables)).
  { unfold Examples.tables. simpl. repeat constructor; simpl; intuition discriminate. }
  destruct (makeDbConfigs_covers_tables None Examples.tables Hnd) as [H _].
  apply H. unfold Examples.tables. simpl. auto.
Defined.

(** ** The workspace of loaded tables *)

Section Workspace.

Lemma NoDup_map_filter {A B} (f : A -> B) (p : A -> bool) (l : list A) :
  List.NoDup (map f l) -> List.NoDup (map f (List.filter p l)).
Proof.
  induction l as [|a r IH]; simpl; [auto|].
  intros H. apply List.NoDup_cons_iff in H as [Ha Hr].
  destruct (p a); simpl; [|auto].
  constructor; [|auto].
  intros Hin. apply Ha. apply in_map_iff in Hin as (x & Hx & Hin).
  apply in_map_iff. exists x. split; [assumption|].
  now apply List.filter_In in Hin.
Qed.

Lemma set_from_In (seen l : list string) (x : string) :
  In x (set_from seen l) <-> In x seen \/ In x l.
Proof.
  revert seen. induction l as [|a r IH]; intros seen; simpl; [tauto|].
  destruct (str_in a seen) eqn:E; rewrite IH.
  - apply str_in_In in E. split; [tauto|].
    intros [H|[<-|H]]; auto.
  - rewrite List.in_app_iff. simpl. tauto.
Qed.

(** The table of manual entries after one more entry. *)
Lemma handleManualEntrySave_cons type entry d r :
  handleManualEntrySave type entry (d :: r) =
  if String.eqb (fileName d) MANUAL_ENTRY_FILE then
    {| fileName := fileName d;
       rowCount := rowCount d + 1;
       data := data d ++ [entry];
       columns := set_from [] (columns d ++ JsObject.keys entry) |} :: r
  else d :: handleManualEntrySave type entry r.
Proof.
  unfold handleManualEntrySave. simpl findIndex.
  destruct (String.eqb (fileName d) MANUAL_ENTRY_FILE); [reflexivity|].
  destruct (findIndex _ r) as [i|]; simpl; [|reflexivity].
  destruct (nth_error r i); reflexivity.
Qed.

Lemma handleManualEntrySave_nil type entry :
  handleManualEntrySave type entry [] =
  [{| fileName := MANUAL_ENTRY_FILE; rowCount := 1; data := [entry];
      columns := JsObject.keys entry |}].
Proof. reflexivity. Qed.

Lemma manual_table_after_save type entry prev :
  exists table,
    manual_table (handleManualEntrySave type entry prev) = Some table /\
    data table =
      match manual_table prev with Some t => data t | None => [] end ++ [entry] /\
    rowCount table =
      match manual_table prev with Some t => rowCount t + 1 | None => 1 end /\
    (forall k, In k (JsObject.keys entry) -> In k (columns table)) /\
    (forall t c, manual_table prev = Some t -> In c (columns t) -> In c (columns table)).
Proof.
  induction prev as [|d r IH].
  - rewrite handleManualEntrySave_nil. eexists. split; [reflexivity|].
    simpl. repeat split; auto. discriminate.
  - rewrite handleManualEntrySave_cons. unfold manual_table in *. simpl.
    destruct (String.eqb (fileName d) MANUAL_ENTRY_FILE) eqn:E.
    + simpl. rewrite E. eexists. split; [reflexivity|]. simpl.
      repeat split; auto.
      * intros k Hk. apply set_from_In. right. apply List.in_app_iff. now right.
      * intros t c [= <-] Hc. apply set_from_In. right. apply List.in_app_iff. now left.
    + simpl. rewrite E. exact IH.
Qed.

End Workspace.

(** X16. Loading tables never duplicates a loaded file name.  The loaded
    tables stay in place and in order; of the new tables exactly those
    whose file name is not loaded yet are added after them; so with
    distinct file names loaded and distinct file names among the new
    tables, the file names stay distinct. *)
Theorem handleDataLoaded_keeps_names_distinct :
  forall (newItems prev : list ParsedDatabase),
    (exists added,
        handleDataLoaded newItems prev = prev ++ added /\
        forall item, In item added <->
                     In item newItems /\ ~ In (fileName item) (map fileName prev)) /\
    (List.NoDup (map fileName prev) ->
     List.NoDup (map fileName newItems) ->
     List.NoDup (map fileName (handleDataLoaded newItems prev))).
Proof.
  intros newItems prev.
  set (keep := fun item : ParsedDatabase => negb (str_in (fileName item) (map fileName prev))).
  assert (Hshape : handleDataLoaded newItems prev = prev ++ List.filter keep newItems).
  { unfold handleDataLoaded. fold keep.
    destruct (List.filter keep newItems); [now rewrite app_nil_r|reflexivity]. }
  assert (Hkeep : forall item, In item (List.filter keep newItems) <->
                               In item newItems /\ ~ In (fileName item) (map fileName prev)).
  { intros item. rewrite List.filter_In. unfold keep.
    rewrite negb_true_iff, <- not_true_iff_false, str_in_In. tauto. }
  split.
  - exists (List.filter keep newItems). split; assumption.
  - intros Hprev Hnew. rewrite Hshape, List.map_app.
    apply List.NoDup_app; [assumption|now apply NoDup_map_filter|].
    intros name Hin Hin'. apply in_map_iff in Hin' as (item & <- & Hitem).
    now apply Hkeep in Hitem.
Qed.

(** Loading the hold table again together with the manual entries adds the
    manual entries only. *)
Lemma handleDataLoaded_keeps_names_distinct_witness :
  List.NoDup (map fileName
                (handleDataLoaded [Examples.hold_jan; Samples.manual_db] Examples.tables)).
Proof.
  destruct (handleDataLoaded_keeps_names_distinct
              [Examples.hold_jan; Samples.manual_db] Examples.tables) as [_ H].
  apply H; simpl; repeat constructor; simpl; intuition discriminate.
Defined.

(** X17. Removing a table removes every table of that file name and only
    those; the freshly loaded table of a file is removed with it, so
    loading a table and removing its file leaves what removing the file
    alone leaves, and no search result comes from the removed file. *)
Theorem handleRemoveDatabase_forgets_file :
  forall (name : string) (prev : list ParsedDatabase),
    (forall db, In db (handleRemoveDatabase name prev) <->
                In db prev /\ fileName db <> name) /\
    (forall db, fileName db = name ->
       handleRemoveDatabase name (handleDataLoaded [db] prev)
         = handleRemoveDatabase name prev) /\
    (forall dbConfigs query ty r,
       In r (searchRecords (handleRemoveDatabase name prev) dbConfigs query ty) ->
       source_of r <> VStr name).
Proof.
  intros name prev. unfold handleRemoveDatabase. split; [|split].
  - intros db. rewrite List.filter_In, negb_true_iff.
    destruct (String.eqb_spec (fileName db) name); intuition congruence.
  - intros db <-. unfold handleDataLoaded. simpl.
    destruct (str_in (fileName db) (map fileName prev)); simpl; [reflexivity|].
    rewrite List.filter_app. simpl. rewrite String.eqb_refl. simpl.
    apply app_nil_r.
  - intros dbConfigs query ty r Hr.
    apply searchRecords_sound in Hr
      as (db & config & row & Hdb & _ & _ & _ & _ & _ & ->).
    rewrite source_of_with_source.
    apply List.filter_In in Hdb as [_ Hdb]. apply negb_true_iff in Hdb.
    intros [= E]. rewrite E, String.eqb_refl in Hdb. discriminate.
Qed.

(** Removing the hold table from the sample leaves the other table. *)
Lemma handleRemoveDatabase_forgets_file_witness :
  handleRemoveDatabase "Hold_Jan.xlsx"
    (handleDataLoaded [Examples.hold_jan] [Examples.rm_master])
  = handleRemoveDatabase "Hold_Jan.xlsx" [Examples.rm_master].
Proof.
  destruct (handleRemoveDatabase_forgets_file "Hold_Jan.xlsx" [Examples.rm_master])
    as (_ & H & _).
  apply H. reflexivity.
Defined.

(** X18. Saving a manual entry adds it as the last row of the table of
    manual entries, creating that table at the end of the workspace when
    there is none; the table's columns cover the keys of the entry and the
    columns it had; every other table is untouched; the kind passed to the
    handler plays no part; and when every table's row count is the number
    of its rows before, it is so afterwards. *)
Theorem handleManualEntrySave_appends_entry :
  forall (type : SheetType) (entry : MerchantRecord) (prev : list ParsedDatabase),
    let after := handleManualEntrySave type entry prev in
    (exists table,
        manual_table after = Some table /\
        data table =
          match manual_table prev with Some t => data t | None => [] end ++ [entry] /\
        (forall k, In k (JsObject.keys entry) -> In k (columns table)) /\
        (forall t c, manual_table prev = Some t -> In c (columns t) ->
                     In c (columns table))) /\
    handleRemoveDatabase MANUAL_ENTRY_FILE after
      = handleRemoveDatabase MANUAL_ENTRY_FILE prev /\
    after = handleManualEntrySave HOLD entry prev /\
    (Forall counted prev -> Forall counted after).
Proof.
  intros type entry prev after. unfold after. split; [|split; [|split]].
  - destruct (manual_table_after_save type entry prev) as (table & H1 & H2 & _ & H4 & H5).
    exists table. repeat split; assumption.
  - unfold handleRemoveDatabase. induction prev as [|d r IH]; [reflexivity|].
    rewrite handleManualEntrySave_cons.
    destruct (String.eqb (fileName d) MANUAL_ENTRY_FILE) eqn:E; simpl; rewrite E; simpl.
    + reflexivity.
    + now rewrite IH.
  - reflexivity.
  - induction prev as [|d r IH]; intros H.
    + rewrite handleManualEntrySave_nil. repeat constructor.
    + rewrite handleManualEntrySave_cons.
      apply Forall_cons_iff in H as [Hd Hr].
      destruct (String.eqb (fileName d) MANUAL_ENTRY_FILE).
      * constructor; [|assumption]. unfold counted in *. simpl.
        rewrite List.length_app. simpl. lia.
      * constructor; [assumption|now apply IH].
Qed.

(** A second manual entry in the sample workspace. *)
Lemma handleManualEntrySave_appends_entry_witness :
  Forall counted
    (handleManualEntrySave RM Samples.manual_rm [Examples.hold_jan; Samples.manual_db]).
Proof.
  destruct (handleManualEntrySave_appends_entry RM Samples.manual_rm
              [Examples.hold_jan; Samples.manual_db]) as (_ & _ & _ & H).
  apply H. repeat constructor.
Defined.

(** ** From a manual entry to the file *)

Section Sync.

Lemma filter_snoc {A} (p : A -> bool) (l : list A) (x : A) :
  p x = true -> List.filter p (l ++ [x]) = List.filter p l ++ [x].
Proof. intros H. rewrite List.filter_app. simpl. now rewrite H. Qed.

Lemma hd_cons_tl {A} (l : list A) (x : A) :
  l ++ [x] = hd x l :: tl (l ++ [x]).
Proof. destruct l; reflexivity. Qed.

(** The run of an append whose write calls succeed. *)
Lemma updateMasterSheet_gets_through env targetSheetName databases manualDb first others
    fileHandle workbook :
  XLSX_loaded env = true ->
  List.find (fun d => String.eqb (fileName d) "System_Manual_Entry.xlsx") databases
    = Some manualDb ->
  List.filter (is_of_kind (kind_of_target targetSheetName)) (data manualDb)
    = first :: others ->
  getMasterHandle env (kind_of_target targetSheetName) = Normal (Some fileHandle) ->
  access_granted fileHandle ->
  readWorkbook fileHandle = Normal workbook ->
  createWritable fileHandle = Normal tt ->
  write fileHandle = Normal tt ->
  close fileHandle = Normal tt ->
  let chosen :=
    updateMaster_sheet workbook targetSheetName (kind_of_target targetSheetName) in
  let existingData := sheet_rows (snd chosen) (fst chosen) in
  run (updateMasterSheet env targetSheetName databases) =
    (Normal true,
     [CreateWritable;
      Write (set_sheet (snd chosen) (fst chosen)
               (existingData ++
                map (map_entry (append_columns existingData first)) (first :: others)));
      Close;
      appended_alert (S (length others)) (fst chosen) (handle_name fileHandle)]).
Proof.
  intros Hx Hfind Hkind Hh Ha Hr Hc Hw Hcl chosen existingData.
  rewrite (updateMasterSheet_after_read env targetSheetName databases manualDb
             first others fileHandle workbook Hx Hfind Hkind Hh Ha Hr).
  cbv zeta. fold chosen. fold existingData.
  unfold run, try_catch, mbind, M_bind, Host.bind.
  rewrite write_back_succeeds by assumption.
  reflexivity.
Qed.

Lemma updateMaster_sheet_target wb target type rows :
  updateMaster_sheet (set_sheet wb (TargetSheetName_text target) rows) target type
  = (TargetSheetName_text target, set_sheet wb (TargetSheetName_text target) rows).
Proof.
  unfold updateMaster_sheet, set_sheet. cbn [Sheets SheetNames].
  now rewrite lookup_set_eq.
Qed.

(** The sheet an append chose is chosen again once it has been written. *)
Lemma updateMaster_sheet_stable workbook target type rows :
  let chosen := updateMaster_sheet workbook target type in
  updateMaster_sheet (set_sheet (snd chosen) (fst chosen) rows) target type =
  (fst chosen, set_sheet (snd chosen) (fst chosen) rows).
Proof.
  cbv zeta.
  destruct (updateMaster_sheet workbook target type) as [name wb'] eqn:Ech.
  cbn [fst snd].
  destruct (String.eqb_spec name (TargetSheetName_text target)) as [->|Hne];
    [apply updateMaster_sheet_target|].
  unfold updateMaster_sheet in Ech |- *.
  unfold set_sheet at 1 2. cbn [Sheets SheetNames].
  rewrite lookup_set_ne by exact Hne.
  destruct (JsObject.lookup (Sheets workbook) (TargetSheetName_text target)) eqn:E.
  { injection Ech as <- <-. now contradiction Hne. }
  destruct (truthy_name (fuzzy_sheet (SheetNames workbook) type)) as [f|] eqn:Ef.
  { injection Ech as <- <-. rewrite E. unfold set_sheet. cbn [SheetNames].
    now rewrite Ef. }
  destruct (SheetNames workbook) as [|a [|b r]] eqn:En.
  - injection Ech as <- <-. now contradiction Hne.
  - injection Ech as <- <-. rewrite E. unfold set_sheet. cbn [SheetNames].
    now rewrite En, Ef.
  - injection Ech as <- <-. now contradiction Hne.
Qed.

End Sync.

(** X19. A saved manual entry reaches the linked file.  After
    [handleManualEntrySave] has stored an entry of the kind of the target
    sheet, an append that gets through writes the earlier manual entries of
    that kind and then the entry as the last row of the chosen sheet. *)
Theorem manual_entry_reaches_file :
  forall (env : Env) (targetSheetName : TargetSheetName)
         (databases : list ParsedDatabase) (entry : MerchantRecord)
         (fileHandle : FileHandle) (workbook : Workbook),
    XLSX_loaded env = true ->
    is_of_kind (kind_of_target targetSheetName) entry = true ->
    getMasterHandle env (kind_of_target targetSheetName) = Normal (Some fileHandle) ->
    access_granted fileHandle ->
    readWorkbook fileHandle = Normal workbook ->
    createWritable fileHandle = Normal tt ->
    write fileHandle = Normal tt ->
    close fileHandle = Normal tt ->
    let after := handleManualEntrySave (kind_of_target targetSheetName) entry databases in
    let earlier :=
      List.filter (is_of_kind (kind_of_target targetSheetName))
                  match manual_table databases with Some t => data t | None => [] end in
    let chosen :=
      updateMaster_sheet workbook targetSheetName (kind_of_target targetSheetName) in
    let existingData := sheet_rows (snd chosen) (fst chosen) in
    let columns := append_columns existingData (hd entry earlier) in
    exists written,
      run (updateMasterSheet env targetSheetName after) =
        (Normal true,
         [CreateWritable; Write written; Close;
          appended_alert (S (length earlier)) (fst chosen) (handle_name fileHandle)]) /\
      sheet_rows written (fst chosen) =
        existingData ++ map (map_entry columns) earlier ++ [map_entry columns entry].
Proof.
  intros env targetSheetName databases entry fileHandle workbook
    Hx Hkind Hh Ha Hr Hc Hw Hcl after earlier chosen existingData columns.
  destruct (manual_table_after_save (kind_of_target targetSheetName) entry databases)
    as (table & Htable & Hdata & _).
  fold after in Htable.
  assert (Hnew : List.filter (is_of_kind (kind_of_target targetSheetName)) (data table)
                 = hd entry earlier :: tl (earlier ++ [entry])).
  { rewrite Hdata, filter_snoc by exact Hkind. apply hd_cons_tl. }
  pose proof (updateMasterSheet_gets_through env targetSheetName after table
                (hd entry earlier) (tl (earlier ++ [entry])) fileHandle workbook
                Hx Htable Hnew Hh Ha Hr Hc Hw Hcl) as Hrun.
  cbv zeta in Hrun. fold chosen in Hrun. fold existingData in Hrun. fold columns in Hrun.
  rewrite <- hd_cons_tl in Hrun.
  assert (Hlen : S (length (tl (earlier ++ [entry]))) = S (length earlier)).
  { destruct earlier; simpl; [reflexivity|].
    rewrite List.length_app. simpl. lia. }
  rewrite Hlen in Hrun.
  eexists. split; [exact Hrun|].
  rewrite sheet_rows_set_sheet_eq, List.map_app. reflexivity.
Qed.

(** A second hold entry saved in the sample workspace is written after the
    first. *)
Lemma manual_entry_reaches_file_witness :
  let entry := [("Merchant ID", VStr "M301"); ("_type", VStr "HOLD")] in
  exists written,
    run (updateMasterSheet Samples.env Hold_Entries
           (handleManualEntrySave HOLD entry [Examples.hold_jan; Samples.manual_db])) =
      (Normal true,
       [CreateWritable; Write written; Close;
        appended_alert 2 "Hold_Entries" "Hold.xlsx"]) /\
    sheet_rows written "Hold_Entries" =
      [Examples.hold_row;
       [("MID", VStr "M300"); ("Merchant Name", VStr "Cedar Co");
        ("Status", VStr "Active")];
       [("MID", VStr "M301"); ("Merchant Name", VStr EmptyString);
        ("Status", VStr EmptyString)]].
Proof.
  intros entry.
  destruct (manual_entry_reaches_file Samples.env Hold_Entries
              [Examples.hold_jan; Samples.manual_db] entry
              Samples.hold_handle Samples.hold_book)
    as (written & Hrun & Hrows); try reflexivity.
  - right. exists prompt. repeat split.
  - exists written. split; [exact Hrun|exact Hrows].
Defined.

(** X20. An append is not idempotent.  The manual entries stay in the
    workspace after an append, so a second append on the file as the first
    one wrote it (a sheet that had rows before) appends the same rows once
    more: the chosen sheet is the same and ends with the new entries
    twice. *)
Theorem repeated_append_duplicates :
  forall (env env' : Env) (targetSheetName : TargetSheetName)
         (databases : list ParsedDatabase) (manualDb : ParsedDatabase)
         (first : MerchantRecord) (others : list MerchantRecord)
         (fileHandle fileHandle' : FileHandle) (workbook written : Workbook),
    XLSX_loaded env = true ->
    XLSX_loaded env' = true ->
    List.find (fun d => String.eqb (fileName d) "System_Manual_Entry.xlsx") databases
      = Some manualDb ->
    List.filter (is_of_kind (kind_of_target targetSheetName)) (data manualDb)
      = first :: others ->
    getMasterHandle env (kind_of_target targetSheetName) = Normal (Some fileHandle) ->
    access_granted fileHandle ->
    readWorkbook fileHandle = Normal workbook ->
    createWritable fileHandle = Normal tt ->
    write fileHandle = Normal tt ->
    close fileHandle = Normal tt ->
    In (Write written) (snd (run (updateMasterSheet env targetSheetName databases))) ->
    getMasterHandle env' (kind_of_target targetSheetName) = Normal (Some fileHandle') ->
    access_granted fileHandle' ->
    readWorkbook fileHandle' = Normal written ->
    createWritable fileHandle' = Normal tt ->
    write fileHandle' = Normal tt ->
    close fileHandle' = Normal tt ->
    let chosen :=
      updateMaster_sheet workbook targetSheetName (kind_of_target targetSheetName) in
    let sheetName := fst chosen in
    let existingData := sheet_rows (snd chosen) sheetName in
    let appended :=
      map (map_entry (append_columns existingData first)) (first :: others) in
    existingData <> [] ->
    exists written',
      run (updateMasterSheet env' targetSheetName databases) =
        (Normal true,
         [CreateWritable; Write written'; Close;
          appended_alert (S (length others)) sheetName (handle_name fileHandle')]) /\
      sheet_rows written' sheetName = existingData ++ appended ++ appended.
Proof.
  intros env env' targetSheetName databases manualDb first others
    fileHandle fileHandle' workbook written
    Hx Hx' Hfind Hkind Hh Ha Hr Hc Hw Hcl Hwritten Hh' Ha' Hr' Hc' Hw' Hcl'
    chosen sheetName existingData appended Hrows.
  rewrite (updateMasterSheet_gets_through env targetSheetName databases manualDb
             first others fileHandle workbook Hx Hfind Hkind Hh Ha Hr Hc Hw Hcl)
    in Hwritten.
  cbv zeta in Hwritten. fold chosen in Hwritten. fold sheetName in Hwritten.
  fold existingData in Hwritten. fold appended in Hwritten.
  cbn [snd] in Hwritten.
  destruct Hwritten as [Hd|[Hd|[Hd|[Hd|[]]]]]; try discriminate.
  injection Hd as Hd. symmetry in Hd.
  pose proof (updateMasterSheet_gets_through env' targetSheetName databases manualDb
                first others fileHandle' written Hx' Hfind Hkind Hh' Ha' Hr' Hc' Hw' Hcl')
    as Hrun.
  cbv zeta in Hrun. rewrite Hd in Hrun.
  pose proof (updateMaster_sheet_stable workbook targetSheetName
                (kind_of_target targetSheetName) (existingData ++ appended)) as Hst.
  cbv zeta in Hst. fold chosen in Hst. fold sheetName in Hst.
  rewrite Hst in Hrun. cbn [fst snd] in Hrun.
  rewrite sheet_rows_set_sheet_eq in Hrun.
  assert (Hcols : append_columns (existingData ++ appended) first
                  = append_columns existingData first).
  { destruct existingData; [contradiction|reflexivity]. }
  rewrite Hcols in Hrun. fold appended in Hrun.
  eexists. split; [exact Hrun|].
  rewrite sheet_rows_set_sheet_eq. now rewrite <- app_assoc.
Qed.

(** Two appends of the sample workspace in a row: the manual hold entry is
    in the file twice. *)
Lemma repeated_append_duplicates_witness :
  exists written',
    run (updateMasterSheet Samples.env_synced Hold_Entries
           [Examples.hold_jan; Samples.manual_db]) =
      (Normal true,
       [CreateWritable; Write written'; Close;
        appended_alert 1 "Hold_Entries" "Hold.xlsx"]) /\
    sheet_rows written' "Hold_Entries" =
      [Examples.hold_row;
       [("MID", VStr "M300"); ("Merchant Name", VStr "Cedar Co");
        ("Status", VStr "Active")];
       [("MID", VStr "M300"); ("Merchant Name", VStr "Cedar Co");
        ("Status", VStr "Active")]].
Proof.
  apply (repeated_append_duplicates Samples.env Samples.env_synced Hold_Entries
           [Examples.hold_jan; Samples.manual_db] Samples.manual_db
           Samples.manual_hold [] Samples.hold_handle Samples.hold_handle_synced
           Samples.hold_book Samples.hold_book_synced); try reflexivity.
  - right. exists prompt. repeat split.
  - vm_compute. right. left. reflexivity.
  - left. reflexivity.
  - discriminate.
Defined.

(** ** Dates that are already normalized *)

Section Calendar.

Lemma doy_range doe :
  0 <= doe <= 146096 ->
  let yoe := (doe - doe / 1460 + doe / 36524 - doe / 146096) / 365 in
  0 <= doe - (365 * yoe + yoe / 4 - yoe / 100) <= 365.
Proof. intros H. cbv zeta. Z.div_mod_to_equations. lia. Qed.

(** Month and day of every day number are in range. *)
Lemma civil_from_days_range z :
  1 <= snd (fst (civil_from_days z)) <= 12 /\ 1 <= snd (civil_from_days z) <= 31.
Proof.
  unfold civil_from_days.
  set (doe := z + 719468 - (z + 719468) / 146097 * 146097).
  assert (Hdoe : 0 <= doe <= 146096) by (unfold doe; Z.div_mod_to_equations; lia).
  pose proof (doy_range doe Hdoe) as Hdoy. cbv zeta in Hdoy.
  set (doy := doe - _) in *.
  clearbody doy. clear Hdoe. cbn [fst snd].
  destruct (Z.ltb_spec ((5 * doy + 2) / 153) 10); split; Z.div_mod_to_equations; lia.
Qed.

End Calendar.

Section Characters.

Lemma digit_not_space c : is_digit c = true -> is_space c = false.
Proof.
  unfold is_digit, is_space. intros H.
  apply andb_true_iff in H as [H1 H2]. apply Z.leb_le in H1, H2.
  destruct (Z.leb_spec 9 (code c)), (Z.leb_spec (code c) 13), (Z.eqb_spec (code c) 32);
    simpl; try reflexivity; lia.
Qed.

Lemma digit_not_alpha c : is_digit c = true -> is_alpha c = false.
Proof.
  unfold is_digit, is_alpha, is_upper, is_lower. intros H.
  apply andb_true_iff in H as [H1 H2]. apply Z.leb_le in H1, H2.
  destruct (Z.leb_spec 65 (code c)), (Z.leb_spec (code c) 90),
    (Z.leb_spec 97 (code c)), (Z.leb_spec (code c) 122); simpl; try reflexivity; lia.
Qed.

Lemma code_eqb c d : Ascii.eqb c d = (code c =? code d).
Proof.
  destruct (Ascii.eqb_spec c d) as [->|Hne]; [now rewrite Z.eqb_refl|].
  symmetry. apply Z.eqb_neq. intros H. apply Hne.
  unfold code in H. apply N2Z.inj in H.
  rewrite <- (ascii_N_embedding c), <- (ascii_N_embedding d). now rewrite H.
Qed.

Lemma digit_neq c d : is_digit c = true -> is_digit d = false -> Ascii.eqb c d = false.
Proof.
  intros Hc Hd. destruct (Ascii.eqb_spec c d) as [->|]; [congruence|reflexivity].
Qed.

Lemma digit_neq_r c d : is_digit c = true -> is_digit d = false -> Ascii.eqb d c = false.
Proof.
  intros Hc Hd. destruct (Ascii.eqb_spec d c) as [->|]; [congruence|reflexivity].
Qed.

End Characters.

Section Trimming.

Lemma drop_while_head p s :
  match drop_while p s with
  | EmptyString => True
  | String c _ => p c = false
  end.
Proof.
  induction s as [|c r IH]; simpl; [exact I|].
  destruct (p c) eqn:E; [exact IH|exact E].
Qed.

Lemma drop_while_end_idem p s :
  drop_while_end p (drop_while_end p s) = drop_while_end p s.
Proof.
  induction s as [|c r IH]; simpl; [reflexivity|].
  destruct (drop_while_end p r) as [|c' r'] eqn:E.
  - destruct (p c) eqn:Ec; simpl; [reflexivity|]. now rewrite Ec.
  - simpl. simpl in IH. rewrite IH. reflexivity.
Qed.

Lemma drop_while_end_head p c r :
  p c = false ->
  exists r', drop_while_end p (String c r) = String c r'.
Proof.
  intros H. simpl. destruct (drop_while_end p r); [rewrite H|]; eexists; reflexivity.
Qed.

Lemma trim_idempotent s : trim (trim s) = trim s.
Proof.
  unfold trim.
  pose proof (drop_while_head is_space s) as H.
  destruct (drop_while is_space s) as [|c r]; [reflexivity|].
  destruct (drop_while_end_head is_space c r H) as (r' & E).
  rewrite E. simpl drop_while at 1. rewrite H. rewrite <- E.
  apply drop_while_end_idem.
Qed.

Lemma drop_while_end_no_space s :
  no_space s = true -> drop_while_end is_space s = s.
Proof.
  unfold no_space. induction s as [|c r IH]; simpl; [reflexivity|].
  intros H. apply andb_true_iff in H as [Hc Hr]. apply negb_true_iff in Hc.
  rewrite (IH Hr). destruct r; [now rewrite Hc|reflexivity].
Qed.

Lemma trim_no_space s : no_space s = true -> trim s = s.
Proof.
  intros H. unfold trim.
  assert (E : drop_while is_space s = s).
  { destruct s as [|c r]; [reflexivity|]. unfold no_space in H. simpl in H.
    apply andb_true_iff in H as [Hc _]. apply negb_true_iff in Hc.
    simpl. now rewrite Hc. }
  rewrite E. now apply drop_while_end_no_space.
Qed.

Lemma no_space_app a b : no_space (a +:+ b) = no_space a && no_space b.
Proof.
  unfold no_space. induction a as [|c r IH]; simpl; [reflexivity|].
  now rewrite IH, andb_assoc.
Qed.

Lemma digits_no_space s : forall_string is_digit s = true -> no_space s = true.
Proof.
  unfold no_space. induction s as [|c r IH]; simpl; [reflexivity|].
  intros H. apply andb_true_iff in H as [Hc Hr].
  now rewrite (digit_not_space c Hc), IH.
Qed.

End Trimming.

Section NumericTexts.

Import JsLiteral.

Lemma strip_sign_digit c r :
  is_digit c = true -> strip_sign (String c r) = (false, String c r).
Proof.
  intros H.
  destruct c as [[] [] [] [] [] [] [] []]; try reflexivity; cbv in H; discriminate.
Qed.

Lemma scan_radix_digit c1 c2 r :
  is_digit c2 = true -> scan_radix (String c1 (String c2 r)) = None.
Proof.
  intros H.
  assert (E : forall d, is_digit d = false -> Ascii.eqb c2 d = false)
    by (intros d Hd; now apply digit_neq).
  destruct c1 as [[] [] [] [] [] [] [] []]; try reflexivity.
  cbn. now rewrite !E by reflexivity.
Qed.

Lemma span_digits ds sep rest :
  forall_string is_digit ds = true ->
  is_digit sep = false ->
  span is_digit (ds +:+ String sep rest) = (ds, String sep rest).
Proof.
  intros Hds Hsep. induction ds as [|c r IH]; simpl.
  - now rewrite Hsep.
  - simpl in Hds. apply andb_true_iff in Hds as [Hc Hr].
    now rewrite Hc, (IH Hr).
Qed.

Lemma scan_unsigned_digits c ds sep rest :
  is_digit c = true ->
  forall_string is_digit ds = true ->
  is_digit sep = false ->
  sep <> "."%char -> sep <> "e"%char -> sep <> "E"%char ->
  exists m e, scan_unsigned (String c (ds +:+ String sep rest))
              = Some (LitDecimal m e, String sep rest).
Proof.
  intros Hc Hds Hsep Hdot He HE.
  unfold scan_unsigned.
  assert (Hinf : startsWith (String c (ds +:+ String sep rest)) "Infinity" = false).
  { cbn [startsWith]. now rewrite (digit_neq_r c "I"). }
  rewrite Hinf.
  change (String c (ds +:+ String sep rest)) with (String c ds +:+ String sep rest).
  rewrite span_digits; [|simpl; now rewrite Hc|exact Hsep].
  assert (Hr1 : match String sep rest with
                | String "." r => let '(f, r') := span is_digit r in (f, r', true)
                | _ => (EmptyString, String sep rest, false)
                end = (EmptyString, String sep rest, false)).
  { destruct sep as [[] [] [] [] [] [] [] []]; try reflexivity. now contradiction Hdot. }
  rewrite Hr1.
  assert (Hexp : scan_exponent (String sep rest) = (0, String sep rest)).
  { unfold scan_exponent.
    destruct (Ascii.eqb_spec sep "e"); [contradiction|].
    destruct (Ascii.eqb_spec sep "E"); [contradiction|]. reflexivity. }
  rewrite Hexp. eexists _, _. reflexivity.
Qed.

(** A text that begins with two digits and goes on, after more digits,
    with a character that no numeric literal has there, is not a number. *)
Lemma Number_of_string_digits_then c1 c2 ds sep rest :
  is_digit c1 = true -> is_digit c2 = true ->
  forall_string is_digit ds = true ->
  is_digit sep = false ->
  sep <> "."%char -> sep <> "e"%char -> sep <> "E"%char ->
  no_space (String sep rest) = true ->
  Number_of_string (String c1 (String c2 (ds +:+ String sep rest))) = NaN.
Proof.
  intros H1 H2 Hds Hsep Hdot He HE Hns.
  unfold Number_of_string.
  rewrite trim_no_space.
  2:{ change (String c1 (String c2 (ds +:+ String sep rest)))
        with (String c1 (String c2 ds) +:+ String sep rest).
      rewrite no_space_app, Hns, andb_true_r.
      apply digits_no_space. simpl. now rewrite H1, H2. }
  rewrite scan_radix_digit by exact H2.
  unfold scan_decimal. rewrite strip_sign_digit by exact H1.
  destruct (scan_unsigned_digits c1 (String c2 ds) sep rest) as (m & e & E);
    try assumption.
  { simpl. now rewrite H2. }
  change (String c2 ds +:+ String sep rest) with (String c2 (ds +:+ String sep rest)) in E.
  now rewrite E.
Qed.

End NumericTexts.

Section PrintedDates.

Lemma string_of_uint_digits u :
  forall_string is_digit (DecimalString.NilEmpty.string_of_uint u) = true.
Proof. induction u; simpl; auto. Qed.

Lemma Z_digits_digits z : forall_string is_digit (Z_digits z) = true.
Proof.
  unfold Z_digits, DecimalString.NilZero.string_of_uint.
  destruct (N.to_uint (Z.to_N z)) eqn:E; try reflexivity;
    rewrite <- E; apply string_of_uint_digits.
Qed.

Lemma Z_to_string_no_space z : no_space (Z_to_string z) = true.
Proof.
  unfold Z_to_string. destruct (z <? 0).
  - change (String "-" (Z_digits (- z))) with ("-" +:+ Z_digits (- z)).
    rewrite no_space_app. apply digits_no_space, Z_digits_digits.
  - apply digits_no_space, Z_digits_digits.
Qed.

Lemma pad2_digits x :
  0 <= x <= 31 ->
  exists c1 c2, padStart0 2 (Z_to_string x) = String c1 (String c2 EmptyString) /\
                is_digit c1 = true /\ is_digit c2 = true.
Proof.
  intros H. rewrite <- (Z2Nat.id x) by lia.
  assert (Hn : (Z.to_nat x < 32)%nat) by lia.
  revert Hn. generalize (Z.to_nat x). intros n Hn.
  do 32 (destruct n as [|n]; [eexists _, _; cbv; repeat split; reflexivity|]).
  lia.
Qed.

Lemma format_mdy_slashed tz t : slashed_date (format_mdy tz t).
Proof.
  rewrite format_mdy_local. unfold local_fields.
  pose proof (civil_from_days_range ((t + tz) / msPerDay)) as [Hm Hd].
  destruct (civil_from_days ((t + tz) / msPerDay)) as [[y m] d].
  cbn [fst snd] in Hm, Hd. unfold mdy_of_civil.
  destruct (pad2_digits m) as (c1 & c2 & Em & H1 & H2); [lia|].
  destruct (pad2_digits d) as (c3 & c4 & Ed & H3 & H4); [lia|].
  rewrite Em, Ed.
  exists c1, c2, (String c3 (String c4 EmptyString) +:+ "/" +:+ Z_to_string y).
  split; [reflexivity|]. split; [exact H1|]. split; [exact H2|].
  rewrite !no_space_app, Z_to_string_no_space, andb_true_r.
  unfold no_space. simpl. now rewrite (digit_not_space c3 H3), (digit_not_space c4 H4).
Qed.

(** The texts the first date pattern accepts. *)
Lemma iso_date_inv s :
  Regex.test Regex.iso_date s = true ->
  exists y1 y2 y3 y4 m1 m2 d1 d2,
    s = String y1 (String y2 (String y3 (String y4 (String "-"
          (String m1 (String m2 (String "-" (String d1 (String d2 EmptyString))))))))) /\
    forall_string is_digit
      (String y1 (String y2 (String y3 (String y4
         (String m1 (String m2 (String d1 (String d2 EmptyString)))))))) = true.
Proof.
  unfold Regex.test, Regex.iso_date, Regex.digits, Regex.lit.
  cbn [Regex.cls Regex.lo Regex.hi Nat.sub Regex.exactly Regex.upto].
  intros H.
  destruct s as [|y1 s]; [discriminate|]. apply andb_true_iff in H as [Hy1 H].
  destruct s as [|y2 s]; [discriminate|]. apply andb_true_iff in H as [Hy2 H].
  destruct s as [|y3 s]; [discriminate|]. apply andb_true_iff in H as [Hy3 H].
  destruct s as [|y4 s]; [discriminate|]. apply andb_true_iff in H as [Hy4 H].
  destruct s as [|h1 s]; [discriminate|]. apply andb_true_iff in H as [Hh1 H].
  destruct s as [|m1 s]; [discriminate|]. apply andb_true_iff in H as [Hm1 H].
  destruct s as [|m2 s]; [discriminate|]. apply andb_true_iff in H as [Hm2 H].
  destruct s as [|h2 s]; [discriminate|]. apply andb_true_iff in H as [Hh2 H].
  destruct s as [|d1 s]; [discriminate|]. apply andb_true_iff in H as [Hd1 H].
  destruct s as [|d2 s]; [discriminate|]. apply andb_true_iff in H as [Hd2 H].
  destruct s; [|discriminate].
  apply Ascii.eqb_eq in Hh1, Hh2. subst h1 h2.
  exists y1, y2, y3, y4, m1, m2, d1, d2. split; [reflexivity|].
  cbn [forall_string]. now rewrite Hy1, Hy2, Hy3, Hy4, Hm1, Hm2, Hd1, Hd2.
Qed.

Lemma split_digit sep c r :
  is_digit c = true -> is_digit sep = false ->
  split sep (String c r) =
  match split sep r with
  | [] => [String c EmptyString]
  | p :: ps => String c p :: ps
  end.
Proof. intros Hc Hsep. cbn [split]. now rewrite (digit_neq c sep Hc Hsep). Qed.

Lemma split_sep sep r : split sep (String sep r) = EmptyString :: split sep r.
Proof. cbn [split]. now rewrite Ascii.eqb_refl. Qed.

(** The parts of a text of that shape. *)
Lemma iso_date_split y1 y2 y3 y4 m1 m2 d1 d2 :
  forall_string is_digit
    (String y1 (String y2 (String y3 (String y4
       (String m1 (String m2 (String d1 (String d2 EmptyString)))))))) = true ->
  split "-" (String y1 (String y2 (String y3 (String y4 (String "-"
          (String m1 (String m2 (String "-" (String d1 (String d2 EmptyString))))))))))
  = [String y1 (String y2 (String y3 (String y4 EmptyString)));
     String m1 (String m2 EmptyString); String d1 (String d2 EmptyString)].
Proof.
  cbn [forall_string]. intros H.
  repeat (apply andb_true_iff in H as [?H H]).
  repeat (rewrite split_sep || rewrite split_digit by (assumption || reflexivity)).
  reflexivity.
Qed.

Lemma parseExcelDate_fixes_slashed tz o :
  slashed_date o -> parseExcelDate tz (VStr o) = o.
Proof.
  intros (c1 & c2 & rest & -> & H1 & H2 & Hns).
  set (o := String c1 (String c2 (String "/" rest))).
  assert (Ho : no_space o = true).
  { unfold o, no_space. cbn [forall_string].
    rewrite (digit_not_space c1 H1), (digit_not_space c2 H2). exact Hns. }
  assert (Hnum : Number_of_string o = NaN).
  { apply (Number_of_string_digits_then c1 c2 EmptyString "/" rest);
      try assumption; try reflexivity; try discriminate. }
  rewrite (parseExcelDate_not_serial tz (VStr o) o);
    [|reflexivity|now apply trim_no_space|now rewrite Hnum].
  unfold o at 1. unfold parseExcelDate_text.
  assert (Hiso : Regex.test Regex.iso_date o = false).
  { unfold o, Regex.test, Regex.iso_date, Regex.digits.
    cbn [Regex.cls Regex.lo Regex.hi Nat.sub Regex.exactly].
    rewrite H1, H2. reflexivity. }
  assert (Hmon : Regex.test Regex.month_slash_date o = false).
  { unfold o, Regex.test, Regex.month_slash_date, Regex.letters.
    cbn [Regex.cls Regex.lo Regex.hi Nat.sub Regex.exactly].
    now rewrite (digit_not_alpha c1 H1). }
  now rewrite Hiso, Hmon.
Qed.

Lemma parseExcelDate_text_cases tz s :
  parseExcelDate_text tz s = s \/ slashed_date (parseExcelDate_text tz s).
Proof.
  unfold parseExcelDate_text.
  destruct (Regex.test Regex.iso_date s) eqn:Eiso.
  - right. apply iso_date_inv in Eiso
      as (y1 & y2 & y3 & y4 & m1 & m2 & d1 & d2 & -> & Hd).
    rewrite (iso_date_split _ _ _ _ _ _ _ _ Hd). cbn [nth].
    cbn [forall_string] in Hd.
    repeat (apply andb_true_iff in Hd as [?H Hd]).
    exists m1, m2.
    eexists. split; [reflexivity|]. split; [assumption|]. split; [assumption|].
    unfold no_space. simpl.
    rewrite !digit_not_space by assumption. reflexivity.
  - destruct (Regex.test Regex.month_slash_date s); [|now left].
    destruct (Date_of_slashed tz s) as [t|]; [|now left].
    right. apply format_mdy_slashed.
Qed.

Lemma parseExcelDate_cases tz s :
  trim s = s ->
  parseExcelDate tz (VStr s) = s \/ slashed_date (parseExcelDate tz (VStr s)).
Proof.
  intros Hs. unfold parseExcelDate. cbn [is_nullish ToString]. rewrite Hs.
  destruct s as [|c r]; [now left|].
  destruct (negb (isNaN (Number_of_string (String c r))) && _ && _).
  - destruct (Date_of_number _) as [t|].
    + right. apply format_mdy_slashed.
    + apply parseExcelDate_text_cases.
  - apply parseExcelDate_text_cases.
Qed.

Lemma parseExcelDate_of_trimmed tz value :
  is_nullish value = false ->
  parseExcelDate tz value = parseExcelDate tz (VStr (trim (ToString value))).
Proof.
  intros Hn. unfold parseExcelDate. rewrite Hn. cbn [is_nullish ToString].
  now rewrite trim_idempotent.
Qed.

End PrintedDates.

(** X21. Normalizing a date twice is normalizing it once.  In every time
    zone and for every value, [parseExcelDate] leaves its own result
    unchanged: the dates it prints begin with two digits and a slash, which
    is neither a number nor one of the two textual shapes, and what it
    passes through was already trimmed.  So [formatDateForDisplay] can be
    applied to stored dates any number of times. *)
Theorem parseExcelDate_idempotent :
  forall (tz : Z) (value : JsValue),
    parseExcelDate tz (VStr (parseExcelDate tz value)) = parseExcelDate tz value /\
    formatDateForDisplay tz (VStr (formatDateForDisplay tz value))
      = formatDateForDisplay tz value.
Proof.
  assert (H : forall tz value,
             parseExcelDate tz (VStr (parseExcelDate tz value)) = parseExcelDate tz value).
  { intros tz value. destruct (is_nullish value) eqn:Hn.
    - assert (E : parseExcelDate tz value = EmptyString)
        by (unfold parseExcelDate; now rewrite Hn).
      now rewrite E.
    - rewrite (parseExcelDate_of_trimmed tz value Hn).
      destruct (parseExcelDate_cases tz (trim (ToString value)) (trim_idempotent _))
        as [E|E].
      + now rewrite !E.
      + now apply parseExcelDate_fixes_slashed. }
  intros tz value. split; [apply H|]. unfold formatDateForDisplay. apply H.
Qed.

(** ** The date picker *)

Section Picker.

Lemma mdy_shape_inv s :
  Regex.test mdy_shape s = true ->
  exists m1 m2 d1 d2 y1 y2 y3 y4,
    s = String m1 (String m2 (String "/" (String d1 (String d2 (String "/"
          (String y1 (String y2 (String y3 (String y4 EmptyString))))))))) /\
    forall_string is_digit
      (String m1 (String m2 (String d1 (String d2
         (String y1 (String y2 (String y3 (String y4 EmptyString)))))))) = true.
Proof.
  unfold Regex.test, mdy_shape, Regex.digits, Regex.lit.
  cbn [Regex.cls Regex.lo Regex.hi Nat.sub Regex.exactly Regex.upto].
  intros H.
  destruct s as [|m1 s]; [discriminate|]. apply andb_true_iff in H as [Hm1 H].
  destruct s as [|m2 s]; [discriminate|]. apply andb_true_iff in H as [Hm2 H].
  destruct s as [|h1 s]; [discriminate|]. apply andb_true_iff in H as [Hh1 H].
  destruct s as [|d1 s]; [discriminate|]. apply andb_true_iff in H as [Hd1 H].
  destruct s as [|d2 s]; [discriminate|]. apply andb_true_iff in H as [Hd2 H].
  destruct s as [|h2 s]; [discriminate|]. apply andb_true_iff in H as [Hh2 H].
  destruct s as [|y1 s]; [discriminate|]. apply andb_true_iff in H as [Hy1 H].
  destruct s as [|y2 s]; [discriminate|]. apply andb_true_iff in H as [Hy2 H].
  destruct s as [|y3 s]; [discriminate|]. apply andb_true_iff in H as [Hy3 H].
  destruct s as [|y4 s]; [discriminate|]. apply andb_true_iff in H as [Hy4 H].
  destruct s; [|discriminate].
  apply Ascii.eqb_eq in Hh1, Hh2. subst h1 h2.
  exists m1, m2, d1, d2, y1, y2, y3, y4. split; [reflexivity|].
  cbn [forall_string]. now rewrite Hm1, Hm2, Hd1, Hd2, Hy1, Hy2, Hy3, Hy4.
Qed.

Lemma mdy_split m1 m2 d1 d2 y1 y2 y3 y4 :
  forall_string is_digit
    (String m1 (String m2 (String d1 (String d2
       (String y1 (String y2 (String y3 (String y4 EmptyString)))))))) = true ->
  split "/" (String m1 (String m2 (String "/" (String d1 (String d2 (String "/"
          (String y1 (String y2 (String y3 (String y4 EmptyString))))))))))
  = [String m1 (String m2 EmptyString); String d1 (String d2 EmptyString);
     String y1 (String y2 (String y3 (String y4 EmptyString)))].
Proof.
  cbn [forall_string]. intros H.
  repeat (apply andb_true_iff in H as [?H H]).
  repeat (rewrite split_sep || rewrite split_digit by (assumption || reflexivity)).
  reflexivity.
Qed.

Lemma mdy_is_picker_mdy m1 m2 d1 d2 y1 y2 y3 y4 :
  forall_string is_digit
    (String m1 (String m2 (String d1 (String d2
       (String y1 (String y2 (String y3 (String y4 EmptyString)))))))) = true ->
  Regex.test picker_mdy
    (String m1 (String m2 (String "/" (String d1 (String d2 (String "/"
       (String y1 (String y2 (String y3 (String y4 EmptyString))))))))))
  = true.
Proof.
  cbn [forall_string]. intros H.
  repeat (apply andb_true_iff in H as [?H H]).
  unfold Regex.test, picker_mdy, Regex.digits, Regex.lit.
  cbn [Regex.cls Regex.lo Regex.hi Nat.sub Regex.exactly Regex.upto].
  repeat match goal with
         | Hc : is_digit ?c = true |- _ => rewrite Hc; clear Hc
         end.
  reflexivity.
Qed.

Lemma iso_is_iso_date y1 y2 y3 y4 m1 m2 d1 d2 :
  forall_string is_digit
    (String m1 (String m2 (String d1 (String d2
       (String y1 (String y2 (String y3 (String y4 EmptyString)))))))) = true ->
  Regex.test Regex.iso_date
    (String y1 (String y2 (String y3 (String y4 (String "-"
       (String m1 (String m2 (String "-" (String d1 (String d2 EmptyString))))))))))
  = true.
Proof.
  cbn [forall_string]. intros H.
  repeat (apply andb_true_iff in H as [?H H]).
  unfold Regex.test, Regex.iso_date, Regex.digits, Regex.lit.
  cbn [Regex.cls Regex.lo Regex.hi Nat.sub Regex.exactly Regex.upto].
  repeat match goal with
         | Hc : is_digit ?c = true |- _ => rewrite Hc; clear Hc
         end.
  reflexivity.
Qed.

Lemma mdy_is_mdy_shape m1 m2 d1 d2 y1 y2 y3 y4 :
  forall_string is_digit
    (String m1 (String m2 (String d1 (String d2
       (String y1 (String y2 (String y3 (String y4 EmptyString)))))))) = true ->
  Regex.test mdy_shape
    (String m1 (String m2 (String "/" (String d1 (String d2 (String "/"
       (String y1 (String y2 (String y3 (String y4 EmptyString))))))))))
  = true.
Proof.
  cbn [forall_string]. intros H.
  repeat (apply andb_true_iff in H as [?H H]).
  unfold Regex.test, mdy_shape, Regex.digits, Regex.lit.
  cbn [Regex.cls Regex.lo Regex.hi Nat.sub Regex.exactly Regex.upto].
  repeat match goal with
         | Hc : is_digit ?c = true |- _ => rewrite Hc; clear Hc
         end.
  reflexivity.
Qed.

Lemma iso_date_not_number s :
  Regex.test Regex.iso_date s = true -> Number_of_string s = NaN.
Proof.
  intros H. apply iso_date_inv in H
    as (y1 & y2 & y3 & y4 & m1 & m2 & d1 & d2 & -> & Hd).
  cbn [forall_string] in Hd.
  repeat (apply andb_true_iff in Hd as [?H Hd]).
  apply (Number_of_string_digits_then y1 y2 (String y3 (String y4 EmptyString)) "-"
           (String m1 (String m2 (String "-" (String d1 (String d2 EmptyString))))));
    try assumption; try reflexivity; try discriminate.
  - cbn [forall_string]. now rewrite H1, H2.
  - unfold no_space. simpl.
    rewrite !digit_not_space by assumption. reflexivity.
Qed.

End Picker.

(** X22. The picker stores dates in the format the normalizer prints, and
    reads them back.  For every picker value of the shape [YYYY-MM-DD] the
    text [handlePickerChange] stores is what [parseExcelDate] makes of that
    value, it has the shape [MM/DD/YYYY], and [getPickerValue] gives the
    picker value back from it, whatever the host's date parser does. *)
Theorem picker_value_round_trip :
  forall (Date_of_string : string -> Date) (tz : Z) (val : string),
    Regex.test Regex.iso_date val = true ->
    handlePickerChange val = parseExcelDate tz (VStr val) /\
    Regex.test mdy_shape (handlePickerChange val) = true /\
    getPickerValue Date_of_string tz (handlePickerChange val) = val.
Proof.
  intros D tz val H.
  pose proof (iso_date_not_number val H) as Hnum.
  pose proof H as Hinv.
  apply iso_date_inv in Hinv
    as (y1 & y2 & y3 & y4 & m1 & m2 & d1 & d2 & -> & Hd).
  set (val := String y1 _) in *.
  assert (Hd' : forall_string is_digit
             (String m1 (String m2 (String d1 (String d2
                (String y1 (String y2 (String y3 (String y4 EmptyString)))))))) = true).
  { cbn [forall_string] in Hd |- *.
    repeat (apply andb_true_iff in Hd as [?H Hd]).
    repeat match goal with
           | Hc : is_digit ?c = true |- _ => rewrite Hc; clear Hc
           end.
    reflexivity. }
  assert (Hstored : handlePickerChange val =
            String m1 (String m2 (String "/" (String d1 (String d2 (String "/"
              (String y1 (String y2 (String y3 (String y4 EmptyString)))))))))).
  { unfold handlePickerChange, val. rewrite (iso_date_split _ _ _ _ _ _ _ _ Hd).
    reflexivity. }
  split; [|split].
  - rewrite (parseExcelDate_not_serial tz (VStr val) val);
      [|reflexivity| |now rewrite Hnum].
    + unfold val at 2. unfold parseExcelDate_text. rewrite H.
      unfold handlePickerChange, val. reflexivity.
    + apply trim_no_space. unfold val, no_space.
      cbn [forall_string] in Hd.
      repeat (apply andb_true_iff in Hd as [?H Hd]).
      simpl. rewrite !digit_not_space by assumption. reflexivity.
  - rewrite Hstored. now apply mdy_is_mdy_shape.
  - rewrite Hstored. unfold getPickerValue.
    rewrite (mdy_is_picker_mdy _ _ _ _ _ _ _ _ Hd'), (mdy_split _ _ _ _ _ _ _ _ Hd').
    reflexivity.
Qed.

(** The picker value of 5 March 2024. *)
Lemma picker_value_round_trip_witness :
  handlePickerChange "2024-03-05" = parseExcelDate 19800000 (VStr "2024-03-05") /\
  getPickerValue (fun _ => None) 19800000 (handlePickerChange "2024-03-05") = "2024-03-05".
Proof.
  destruct (picker_value_round_trip (fun _ => None) 19800000 "2024-03-05" eq_refl)
    as (H1 & _ & H3).
  split; [exact H1|exact H3].
Defined.

(** X23. A stored date survives a visit to the picker.  For every stored
    text of the shape [MM/DD/YYYY], [getPickerValue] hands the picker a
    value of the shape [YYYY-MM-DD] without consulting the host's date
    parser, [handlePickerChange] turns that value back into the stored
    text, and [parseExcelDate] leaves the stored text as it is. *)
Theorem stored_date_round_trip :
  forall (Date_of_string : string -> Date) (tz : Z) (value : string),
    Regex.test mdy_shape value = true ->
    Regex.test Regex.iso_date (getPickerValue Date_of_string tz value) = true /\
    handlePickerChange (getPickerValue Date_of_string tz value) = value /\
    parseExcelDate tz (VStr value) = value.
Proof.
  intros D tz value H.
  apply mdy_shape_inv in H
    as (m1 & m2 & d1 & d2 & y1 & y2 & y3 & y4 & -> & Hd).
  assert (Hpicked :
            getPickerValue D tz
              (String m1 (String m2 (String "/" (String d1 (String d2 (String "/"
                 (String y1 (String y2 (String y3 (String y4 EmptyString))))))))))
            = String y1 (String y2 (String y3 (String y4 (String "-"
                (String m1 (String m2 (String "-" (String d1 (String d2 EmptyString)))))))))).
  { unfold getPickerValue.
    rewrite (mdy_is_picker_mdy _ _ _ _ _ _ _ _ Hd), (mdy_split _ _ _ _ _ _ _ _ Hd).
    reflexivity. }
  assert (Hd' : forall_string is_digit
             (String y1 (String y2 (String y3 (String y4
                (String m1 (String m2 (String d1 (String d2 EmptyString)))))))) = true).
  { cbn [forall_string] in Hd |- *.
    repeat (apply andb_true_iff in Hd as [?H Hd]).
    repeat match goal with
           | Hc : is_digit ?c = true |- _ => rewrite Hc; clear Hc
           end.
    reflexivity. }
  rewrite Hpicked. split; [|split].
  - now apply iso_is_iso_date.
  - unfold handlePickerChange. rewrite (iso_date_split _ _ _ _ _ _ _ _ Hd'). reflexivity.
  - apply parseExcelDate_fixes_slashed.
    cbn [forall_string] in Hd.
    repeat (apply andb_true_iff in Hd as [?H Hd]).
    exists m1, m2. eexists. split; [reflexivity|].
    split; [assumption|]. split; [assumption|].
    unfold no_space. simpl.
    rewrite !digit_not_space by assumption. reflexivity.
Qed.

(** A stored date. *)
Lemma stored_date_round_trip_witness :
  handlePickerChange (getPickerValue (fun _ => None) 0 "03/05/2024") = "03/05/2024" /\
  parseExcelDate 0 (VStr "03/05/2024") = "03/05/2024".
Proof.
  destruct (stored_date_round_trip (fun _ => None) 0 "03/05/2024" eq_refl)
    as (_ & H2 & H3).
  split; [exact H2|exact H3].
Defined.

(** ** The search of the manual entry form *)

Section EntrySearch.

#[local] Arguments Nat.ltb : simpl never.

Lemma searchDatabases_loop_firstn ty normalizedQuery databases matches :
  firstn 10 (searchDatabases_loop ty normalizedQuery databases matches) =
  firstn 10 (matches ++ flat_map (entry_hits ty normalizedQuery) databases).
Proof.
  revert matches. induction databases as [|db rest IH]; intros matches; simpl.
  - now rewrite app_nil_r.
  - destruct (Nat.ltb_spec 10 (length matches)).
    + rewrite List.firstn_app.
      replace (10 - length matches)%nat with 0%nat by lia.
      now rewrite firstn_O, app_nil_r.
    + unfold entry_hits at 1.
      destruct (truthy_name _) as [targetCol|]; [|apply IH].
      rewrite IH. now rewrite <- app_assoc.
Qed.

End EntrySearch.

(** X24. The search of the manual entry form is a scan cut at ten.  A query
    shorter than two characters finds nothing; otherwise the result is the
    first ten of the matching rows of all loaded tables, hold tables or
    not, in loading order, each tagged with its table and read on the
    column detected from the table's own columns. *)
Theorem searchDatabases_is_bounded_scan :
  forall (databases : list ParsedDatabase) (query : string) (ty : SearchType),
    ((String.length query < 2)%nat -> searchDatabases databases query ty = []) /\
    ((2 <= String.length query)%nat ->
     searchDatabases databases query ty =
     firstn 10 (flat_map (entry_hits ty (normalizeKey (VStr query))) databases)) /\
    (length (searchDatabases databases query ty) <= 10)%nat.
Proof.
  intros databases query ty. unfold searchDatabases.
  destruct (Nat.ltb_spec (String.length query) 2) as [Hq|Hq].
  - split; [reflexivity|]. split; [lia|simpl; lia].
  - split; [lia|]. split.
    + intros _. apply (searchDatabases_loop_firstn ty _ databases []).
    + rewrite List.length_firstn. lia.
Qed.

(** The sample tables: the table that is not a hold table is searched
    too. *)
Lemma searchDatabases_is_bounded_scan_witness :
  searchDatabases Examples.tables "M1" ByMid =
  firstn 10 (flat_map (entry_hits ByMid (normalizeKey (VStr "M1"))) Examples.tables) /\
  searchDatabases Examples.tables "M" ByMid = [].
Proof.
  destruct (searchDatabases_is_bounded_scan Examples.tables "M1" ByMid) as (_ & H & _).
  destruct (searchDatabases_is_bounded_scan Examples.tables "M" ByMid) as (H' & _ & _).
  split; [apply H; simpl; lia|apply H'; simpl; lia].
Defined.

(** ** Distinct values of a column *)

Section UniqueValues.

Lemma insert_sorted_In x y l : In y (insert_sorted x l) <-> y = x \/ In y l.
Proof.
  induction l as [|a r IH]; simpl; [intuition|].
  destruct (String.leb x a); simpl; [intuition|]. rewrite IH. intuition.
Qed.

Lemma sort_strings_In y l : In y (sort_strings l) <-> In y l.
Proof.
  unfold sort_strings. induction l as [|a r IH]; simpl; [tauto|].
  rewrite insert_sorted_In, IH. intuition.
Qed.

Lemma leb_false_ltb x y : String.leb x y = false -> String.ltb y x = true.
Proof.
  unfold String.leb, String.ltb. rewrite (String.compare_antisym x y).
  destruct (String.compare y x); simpl; congruence.
Qed.

Lemma leb_neq_ltb x y : String.leb x y = true -> x <> y -> String.ltb x y = true.
Proof.
  unfold String.leb, String.ltb. intros H Hne.
  destruct (String.compare x y) eqn:E; try congruence.
  apply String.compare_eq_iff in E. contradiction.
Qed.

Lemma ascending_cons x a r :
  ascending (x :: a :: r) = String.ltb x a && ascending (a :: r).
Proof. reflexivity. Qed.

Lemma insert_sorted_ascending x l :
  ascending l = true -> ~ In x l -> ascending (insert_sorted x l) = true.
Proof.
  induction l as [|a r IH]; [reflexivity|].
  intros Hasc Hnin. cbn [insert_sorted].
  destruct (String.leb x a) eqn:E.
  - rewrite ascending_cons, Hasc, andb_true_r.
    apply leb_neq_ltb; [exact E|]. intros ->. apply Hnin. now left.
  - assert (Hr : ascending r = true).
    { destruct r; [reflexivity|]. rewrite ascending_cons in Hasc.
      now apply andb_true_iff in Hasc. }
    assert (Hi : ascending (insert_sorted x r) = true).
    { apply IH; [exact Hr|]. intros H. apply Hnin. now right. }
    destruct r as [|b r'].
    + cbn [insert_sorted]. rewrite ascending_cons.
      now rewrite (leb_false_ltb x a E).
    + cbn [insert_sorted] in Hi |- *. rewrite ascending_cons in Hasc.
      apply andb_true_iff in Hasc as [Hab _].
      destruct (String.leb x b).
      * rewrite ascending_cons. now rewrite (leb_false_ltb x a E), Hi.
      * rewrite ascending_cons. now rewrite Hab, Hi.
Qed.

Lemma sort_strings_ascending l : List.NoDup l -> ascending (sort_strings l) = true.
Proof.
  induction l as [|a r IH]; [reflexivity|].
  intros H. apply List.NoDup_cons_iff in H as [Ha Hr].
  change (sort_strings (a :: r)) with (insert_sorted a (sort_strings r)).
  apply insert_sorted_ascending; [now apply IH|].
  intros H. apply Ha. now apply (sort_strings_In a r).
Qed.

Lemma set_add_In x y values : In y (set_add x values) <-> y = x \/ In y values.
Proof.
  unfold set_add. destruct (str_in x values) eqn:E.
  - apply str_in_In in E. intuition congruence.
  - rewrite List.in_app_iff. simpl. intuition.
Qed.

Lemma set_add_NoDup x values : List.NoDup values -> List.NoDup (set_add x values).
Proof.
  intros H. unfold set_add. destruct (str_in x values) eqn:E; [exact H|].
  apply List.NoDup_app; [exact H|repeat constructor; intros []|].
  intros a Ha [<-|[]].
  apply (proj2 (str_in_In x values)) in Ha. congruence.
Qed.

Lemma collect_values key data values :
  let collected :=
    fold_left
      (fun values row =>
         let val := prop row key in
         if has_value val then set_add (trim (ToString val)) values else values)
      data values in
  (List.NoDup values -> List.NoDup collected) /\
  forall x, In x collected <->
            In x values \/
            exists row, In row data /\ has_value (prop row key) = true /\
                        x = trim (ToString (prop row key)).
Proof.
  cbv zeta. revert values. induction data as [|row rest IH]; intros values; simpl.
  - split; [auto|]. intros x. split; [auto|]. intros [H|(row & [] & _)]. exact H.
  - destruct (IH (if has_value (prop row key)
                  then set_add (trim (ToString (prop row key))) values
                  else values)) as [IH1 IH2].
    split.
    + intros Hnd. apply IH1. destruct (has_value (prop row key)); [|exact Hnd].
      now apply set_add_NoDup.
    + intros x. rewrite IH2. destruct (has_value (prop row key)) eqn:Ev.
      * rewrite set_add_In. split.
        -- intros [[->|H]|(r & Hr & Hv & Hx)]; auto.
           ++ right. exists row. auto.
           ++ right. exists r. auto.
        -- intros [H|(r & [<-|Hr] & Hv & Hx)]; auto.
           right. exists r. auto.
      * split.
        -- intros [H|(r & Hr & Hv & Hx)]; auto. right. exists r. auto.
        -- intros [H|(r & [<-|Hr] & Hv & Hx)]; auto; [congruence|].
           right. exists r. auto.
Qed.

End UniqueValues.

(** X25. The distinct values of a column come out strictly ascending, so
    without duplicates, and they are exactly the trimmed texts of the cells
    of that column that hold a value (anything but [undefined], [null] and
    the empty text).  A cell of white space only therefore contributes the
    empty text. *)
Theorem getUniqueValues_sorted_distinct :
  forall (data : list MerchantRecord) (key : string),
    ascending (getUniqueValues data key) = true /\
    (forall x, In x (getUniqueValues data key) <->
               exists row, In row data /\ has_value (prop row key) = true /\
                           x = trim (ToString (prop row key))) /\
    (forall row, In row data -> prop row key = VStr " " ->
                 In EmptyString (getUniqueValues data key)).
Proof.
  intros data key. unfold getUniqueValues.
  destruct (collect_values key data []) as [Hnd Hin]. cbv zeta in Hnd, Hin.
  assert (Hmem : forall x,
             In x (sort_strings
                     (fold_left
                        (fun values row =>
                           let val := prop row key in
                           if has_value val then set_add (trim (ToString val)) values
                           else values) data [])) <->
             exists row, In row data /\ has_value (prop row key) = true /\
                         x = trim (ToString (prop row key))).
  { intros x. rewrite sort_strings_In, Hin. simpl. intuition. }
  split; [|split].
  - apply sort_strings_ascending, Hnd. constructor.
  - exact Hmem.
  - intros row Hrow Hcell. apply Hmem. exists row.
    rewrite Hcell. repeat split; auto.
Qed.

(** The statuses of a small sheet. *)
Lemma getUniqueValues_sorted_distinct_witness :
  In EmptyString
     (getUniqueValues [[("Status", VStr "Hold")]; [("Status", VStr " ")];
                       [("Status", VStr "Active ")]] "Status").
Proof.
  destruct (getUniqueValues_sorted_distinct
              [[("Status", VStr "Hold")]; [("Status", VStr " ")];
               [("Status", VStr "Active ")]] "Status") as (_ & _ & H).
  apply (H [("Status", VStr " ")]); [simpl; auto|reflexivity].
Defined.

(** ** Exporting records *)

Section ExportRows.

Lemma exportToExcel_row_fold (row : MerchantRecord) ks (acc : MerchantRecord) k :
  JsObject.lookup
    (fold_left
       (fun (newRow : MerchantRecord) key =>
          if is_exported_key key then JsObject.set newRow key (prop row key) else newRow)
       ks acc) k =
  if is_exported_key k && str_in k ks then Some (prop row k)
  else JsObject.lookup acc k.
Proof.
  revert acc. induction ks as [|key r IH]; intros acc; simpl.
  - now rewrite andb_false_r.
  - rewrite IH. unfold str_in in *. simpl.
    destruct (String.eqb_spec k key) as [->|Hne]; simpl.
    + destruct (is_exported_key key) eqn:E; simpl.
      * destruct (existsb (String.eqb key) r); [reflexivity|apply lookup_set_eq].
      * reflexivity.
    + destruct (is_exported_key k && existsb (String.eqb k) r); [reflexivity|].
      destruct (is_exported_key key); [|reflexivity].
      apply lookup_set_ne. congruence.
Qed.

Lemma str_in_keys {V} (o : JsObject.Obj V) k :
  str_in k (JsObject.keys o) = match JsObject.lookup o k with Some _ => true | None => false end.
Proof.
  unfold str_in, JsObject.keys. induction o as [|[k' v] r IH]; simpl; [reflexivity|].
  rewrite (String.eqb_sym k k'). destruct (String.eqb k' k); [reflexivity|exact IH].
Qed.

End ExportRows.

(** X26. An exported row holds the public members of the record and
    nothing else: a key that starts with an underscore, and [flagId], are
    never exported; every other member is exported with its value. *)
Theorem exportToExcel_row_members :
  forall (row : MerchantRecord) (k : string),
    JsObject.lookup (exportToExcel_row row) k =
    if is_exported_key k then JsObject.lookup row k else None.
Proof.
  intros row k. unfold exportToExcel_row.
  rewrite exportToExcel_row_fold, str_in_keys. unfold prop. simpl.
  destruct (is_exported_key k); simpl; [|reflexivity].
  destruct (JsObject.lookup row k); reflexivity.
Qed.

(** ** The cells of an appended row *)

Section Cells.

Lemma map_entry_columns (columns : list string) (entry : MerchantRecord) :
  columns <> [] ->
  map_entry columns entry =
  fold_left (fun (row : MerchantRecord) col => JsObject.set row col (entry_cell entry col))
            columns [].
Proof. destruct columns; [congruence|reflexivity]. Qed.

Lemma lookup_fold_set {V} (f : string -> V) cols (acc : JsObject.Obj V) k :
  JsObject.lookup (fold_left (fun row col => JsObject.set row col (f col)) cols acc) k =
  if str_in k cols then Some (f k) else JsObject.lookup acc k.
Proof.
  revert acc. induction cols as [|c r IH]; intros acc; simpl; [reflexivity|].
  rewrite IH. unfold str_in. simpl.
  destruct (String.eqb_spec k c) as [->|Hne]; simpl.
  - destruct (existsb (String.eqb c) r); [reflexivity|apply lookup_set_eq].
  - destruct (existsb (String.eqb k) r); [reflexivity|].
    apply lookup_set_ne. congruence.
Qed.

End Cells.

(** X27. An appended row follows the header of the sheet.  When the sheet
    has columns, the row written for a new entry has a cell for every
    column and for nothing else, so a private member such as [_type] is
    not written unless the sheet has a column of that name; a cell holds
    the entry's member of the column's name when there is one, and the
    empty text when the entry has no member at all. *)
Theorem map_entry_follows_header :
  forall (columns : list string) (entry : MerchantRecord),
    columns <> [] ->
    (forall col, In col columns ->
       JsObject.lookup (map_entry columns entry) col = Some (entry_cell entry col)) /\
    (forall k, ~ In k columns -> JsObject.lookup (map_entry columns entry) k = None) /\
    (forall col, is_undefined (prop entry col) = false ->
       entry_cell entry col = prop entry col) /\
    (forall col, entry_cell [] col = VStr EmptyString).
Proof.
  intros columns entry Hne. rewrite (map_entry_columns columns entry Hne).
  split; [|split; [|split]].
  - intros col Hin. rewrite (lookup_fold_set (entry_cell entry)).
    now rewrite (proj2 (str_in_In col columns) Hin).
  - intros k Hnin. rewrite (lookup_fold_set (entry_cell entry)).
    destruct (str_in k columns) eqn:E; [|reflexivity].
    apply str_in_In in E. contradiction.
  - intros col H. unfold entry_cell. now rewrite H.
  - intros col. unfold entry_cell. simpl.
    destruct (truthy_name _); reflexivity.
Qed.

(** The manual hold entry on the header of the sample hold file: the kind
    of the entry is not a cell of the row. *)
Lemma map_entry_follows_header_witness :
  JsObject.lookup (map_entry ["MID"; "Merchant Name"; "Status"] Samples.manual_hold) "_type"
  = None.
Proof.
  destruct (map_entry_follows_header ["MID"; "Merchant Name"; "Status"]
              Samples.manual_hold) as (_ & H & _); [discriminate|].
  apply H. simpl. intuition discriminate.
Defined.

(** ** Looking a merchant up for flagging *)

Section Flagging.

Lemma flag_match_sound searchKey db row :
  flag_match searchKey db = Some row ->
  In row (data db) /\
  ((exists midCol, findMidColumn (columns db) = Some midCol /\
                   cell_matches searchKey (prop row midCol) = true) \/
   existsb (cell_matches searchKey) (row_values row) = true).
Proof.
  unfold flag_match.
  destruct (truthy_name (findMidColumn (columns db))) as [midCol|] eqn:Ecol.
  - apply truthy_name_some in Ecol as [Ecol _].
    destruct (List.find _ (data db)) as [r|] eqn:Ef.
    + intros [= <-]. apply List.find_some in Ef as [Hin Hm].
      split; [exact Hin|]. left. exists midCol. now split.
    + intros H. apply List.find_some in H as [Hin Hm]. now split; [|right].
  - intros H. apply List.find_some in H as [Hin Hm]. now split; [|right].
Qed.

Lemma flag_match_complete searchKey db :
  flag_match searchKey db = None ->
  forall row, In row (data db) ->
              existsb (cell_matches searchKey) (row_values row) = false.
Proof.
  unfold flag_match. intros H row Hin.
  destruct (match truthy_name (findMidColumn (columns db)) with
            | Some midCol => _
            | None => None
            end); [discriminate|].
  exact (List.find_none _ _ H row Hin).
Qed.

Lemma flag_scan_sound searchKey databases row source :
  flag_scan searchKey databases = Some (row, source) ->
  exists db, In db databases /\ source = fileName db /\
             flag_match searchKey db = Some row.
Proof.
  induction databases as [|db rest IH]; simpl; [discriminate|].
  destruct (flag_match searchKey db) as [r|] eqn:E.
  - intros [= <- <-]. exists db. auto.
  - intros H. destruct (IH H) as (db' & Hin & Hs & Hm). exists db'. auto.
Qed.

Lemma flag_scan_complete searchKey databases :
  flag_scan searchKey databases = None ->
  forall db, In db databases -> flag_match searchKey db = None.
Proof.
  induction databases as [|d rest IH]; simpl; [intros _ db []|].
  destruct (flag_match searchKey d) eqn:E; [discriminate|].
  intros H db [<-|Hin]; [exact E|now apply IH].
Qed.

End Flagging.

(** X28. The look-up for flagging misses nothing and invents nothing.  A
    blank identifier finds nothing.  A record that is shown is a row of a
    loaded table, tagged with that table's file name, whose detected id
    column or some other cell holds the identifier up to normalization.
    When nothing is shown for an identifier that is not blank, no cell of
    any row of any loaded table holds it. *)
Theorem handleSearchForFlag_exhaustive :
  forall (databases : list ParsedDatabase) (flagMid : string),
    (trim flagMid = EmptyString -> handleSearchForFlag databases flagMid = None) /\
    (forall preview,
        handleSearchForFlag databases flagMid = Some preview ->
        exists db row,
          In db databases /\ In row (data db) /\
          preview = JsObject.set row "Source_File" (VStr (fileName db)) /\
          ((exists midCol, findMidColumn (columns db) = Some midCol /\
                           cell_matches (normalizeKey (VStr flagMid)) (prop row midCol)
                           = true) \/
           existsb (cell_matches (normalizeKey (VStr flagMid))) (row_values row) = true)) /\
    (trim flagMid <> EmptyString ->
     handleSearchForFlag databases flagMid = None ->
     forall db row val,
       In db databases -> In row (data db) -> In val (row_values row) ->
       normalizeKey (VStr (ToString val)) <> normalizeKey (VStr flagMid)).
Proof.
  intros databases flagMid. unfold handleSearchForFlag. split; [|split].
  - intros ->. reflexivity.
  - intros preview H. destruct (trim flagMid); [discriminate|].
    destruct (flag_scan _ databases) as [[row source]|] eqn:E; [|discriminate].
    injection H as <-.
    apply flag_scan_sound in E as (db & Hdb & -> & Hm).
    apply flag_match_sound in Hm as [Hrow Hcell].
    exists db, row. auto.
  - intros Hq H db row val Hdb Hrow Hval.
    destruct (trim flagMid); [congruence|].
    destruct (flag_scan _ databases) as [[r source]|] eqn:E; [discriminate|].
    pose proof (flag_match_complete _ db (flag_scan_complete _ _ E db Hdb) row Hrow) as Hno.
    intros Heq.
    assert (Hyes : existsb (cell_matches (normalizeKey (VStr flagMid))) (row_values row)
                   = true).
    { apply existsb_exists. exists val. split; [exact Hval|].
      unfold cell_matches. rewrite Heq. apply String.eqb_refl. }
    congruence.
Qed.

(** The sample tables: a blank identifier finds nothing, and the merchant
    of the hold table is found in that table. *)
Lemma handleSearchForFlag_exhaustive_witness :
  handleSearchForFlag Examples.tables "  " = None /\
  exists db row,
    In db Examples.tables /\ In row (data db) /\
    JsObject.set Examples.hold_row "Source_File" (VStr "Hold_Jan.xlsx")
      = JsObject.set row "Source_File" (VStr (fileName db)).
Proof.
  destruct (handleSearchForFlag_exhaustive Examples.tables "  ") as (H & _).
  destruct (handleSearchForFlag_exhaustive Examples.tables "m-100") as (_ & H' & _).
  split; [apply H; reflexivity|].
  destruct (H' (JsObject.set Examples.hold_row "Source_File" (VStr "Hold_Jan.xlsx")))
    as (db & row & Hdb & Hrow & Heq & _); [vm_compute; reflexivity|].
  exists db, row. auto.
Defined.
